(** * CART storage driver: opcode codec, frame cache, transport client, file store

    A shallow embedding of [cart_driver.c], [cart_cache.c] and [cart_client.c].

    C integers are modelled as [Z] with the wrap-around of their width written
    out where the source relies on it; [char] buffers are lists of byte values
    (a [Z] in 0..255, the terminator being 0); the global tables are explicit
    state.  An access outside a C object has no defined result: the functions
    below then stop with [Undef].

    The headers cart_controller.h, cart_driver.h and cart_network.h are not
    among the sources: their constants are variables of the sections below,
    and the device that answers the bus is a parameter of the driver. *)

From Stdlib Require Import ZArith List Lia Bool String.
From stdpp Require Import base list.

Local Open Scope Z_scope.

(** ** Results of a modelled C call *)

Inductive outcome (A : Type) : Type :=
| Ret (a : A)     (* the call returns [a] *)
| Undef           (* the call reads or writes outside an object *)
| Fuel.           (* the loop bound given to the model was too small *)
Arguments Ret {A} a.
Arguments Undef {A}.
Arguments Fuel {A}.

Definition obind {A B : Type} (m : outcome A) (k : A -> outcome B) : outcome B :=
  match m with
  | Ret a => k a
  | Undef => Undef
  | Fuel => Fuel
  end.

#[global] Instance outcome_bind : MBind outcome := fun A B k m => obind m k.
#[global] Instance outcome_ret : MRet outcome := @Ret.

(** The value a call returns, and the state it leaves ([s] when the call
    does not return). *)
Definition returned {A S : Type} (m : outcome (A * S)) : outcome A :=
  '(a, _) ← m; Ret a.

Definition state_after {A S : Type} (m : outcome (A * S)) (s : S) : S :=
  match m with
  | Ret (_, s') => s'
  | _ => s
  end.

(** [typedef enum Flag { YES = 0, NO = 1 } Flag;] *)
Inductive Flag : Set := YES | NO.

Definition Flag_eqb (a b : Flag) : bool :=
  match a, b with
  | YES, YES | NO, NO => true
  | _, _ => false
  end.

(** Fixed-width conversions. *)
Definition u16 (x : Z) : Z := x mod 2 ^ 16.
Definition u32 (x : Z) : Z := x mod 2 ^ 32.
Definition u64 (x : Z) : Z := x mod 2 ^ 64.
Definition s16 (x : Z) : Z := (x + 2 ^ 15) mod 2 ^ 16 - 2 ^ 15.
Definition s32 (x : Z) : Z := (x + 2 ^ 31) mod 2 ^ 32 - 2 ^ 31.

(** ** Opcode codec ([create_cart_opcode], [extract_cart_opcode]) *)

Module Codec.

(** The selectors of [CartRegisters] that [extract_cart_opcode] switches on;
    the enumeration itself is declared in cart_controller.h.  Every other
    value, [CART_REG_MAXVAL] included, takes the [default] branch. *)
Inductive CartRegisters : Set :=
| CART_REG_KY1
| CART_REG_KY2
| CART_REG_RT1
| CART_REG_CT1
| CART_REG_FM1
| CART_REG_MAXVAL.

(** [uint64_t] left shift: the bits shifted past bit 63 are lost. *)
Definition shl64 (x n : Z) : Z := u64 (Z.shiftl x n).

Definition create_cart_opcode (reg_KY1 reg_KY2 reg_RET reg_CART reg_FRAME reg_RESV : Z) : Z :=
  let ky1 := shl64 reg_KY1 56 in
  let ky2 := shl64 reg_KY2 48 in
  let ret := shl64 reg_RET 47 in
  let cart := shl64 reg_CART 31 in
  let frame := shl64 reg_FRAME 15 in
  let resv := reg_RESV in
  Z.lor (Z.lor (Z.lor (Z.lor (Z.lor ky1 ky2) ret) cart) frame) resv.

Definition extract_cart_opcode (resp : Z) (reg_field : CartRegisters) : Z :=
  let reg_seg := resp in
  match reg_field with
  | CART_REG_KY1 => Z.shiftr reg_seg 56
  | CART_REG_KY2 => Z.land (Z.shiftr reg_seg 48) 255
  | CART_REG_RT1 => Z.land (Z.shiftr reg_seg 47) 1
  | CART_REG_CT1 => Z.land (Z.shiftr reg_seg 31) 65535
  | CART_REG_FM1 => Z.land (Z.shiftr reg_seg 15) 65535
  | CART_REG_MAXVAL => reg_seg   (* default: logs an error, value untouched *)
  end.

(** A field tuple within the widths of the register layout. *)
Definition valid_fields (ky1 ky2 ret cart frame resv : Z) : Prop :=
  0 <= ky1 < 2 ^ 8 /\ 0 <= ky2 < 2 ^ 8 /\ 0 <= ret < 2 /\
  0 <= cart < 2 ^ 16 /\ 0 <= frame < 2 ^ 16 /\ 0 <= resv < 2 ^ 15.

End Codec.

(** ** Byte buffers *)

(** [strlen]: the index of the first terminator; scanning past the end of the
    object is undefined. *)
Fixpoint strlen (s : list Z) : outcome nat :=
  match s with
  | [] => Undef
  | c :: s' => if c =? 0 then Ret O else n ← strlen s'; Ret (S n)
  end.

(** [strncpy(dest, src, n)], giving the [n] bytes stored in [dest]: the
    characters of [src] up to its terminator, then zeros. *)
Fixpoint strncpy (n : nat) (src : list Z) : outcome (list Z) :=
  match n with
  | O => Ret []
  | S n' =>
      match src with
      | [] => Undef
      | c :: src' =>
          if c =? 0 then Ret (repeat 0 (S n'))
          else rest ← strncpy n' src'; Ret (c :: rest)
      end
  end.

(** The [n] bytes of [src] starting at offset [off] (the source of a
    [memcpy]); no byte is touched when [n] is 0. *)
Definition read_bytes (src : list Z) (off n : nat) : outcome (list Z) :=
  match n with
  | O => Ret []
  | _ => if (off + n <=? length src)%nat then Ret (take n (drop off src)) else Undef
  end.

(** [memcpy(&dest[off], data, length data)]. *)
Definition write_bytes (dest : list Z) (off : nat) (data : list Z) : outcome (list Z) :=
  match data with
  | [] => Ret dest
  | _ =>
      if (off + length data <=? length dest)%nat
      then Ret (take off dest ++ data ++ drop (off + length data) dest)
      else Undef
  end.

(** ** Frame cache ([cart_cache.c]) *)

Module Cache.

Definition CACHE_MAX_OPEN_FILES : Z := 128.

Record CacheTable : Type := mkCacheTable {
  cachedFrame : list Z;
  cacheHandle : Z;
  cartIndex : Z;
  frameIndex : Z;
  isUsed : Flag;
  lru : Z
}.

(** The globals of cart_cache.c.  [cacheMemory] is [None] for a NULL pointer. *)
Record CacheState : Type := mkCacheState {
  cacheMemory : option (list CacheTable);
  last_cached_frame : list Z;
  cacheSize : Z;
  cacheInit : Flag;
  lruCounter : Z
}.

Definition with_memory (c : CacheState) (m : option (list CacheTable)) : CacheState :=
  mkCacheState m (last_cached_frame c) (cacheSize c) (cacheInit c) (lruCounter c).

(** [lruCounter++]; the [int] counters are taken not to overflow. *)
Definition bump (c : CacheState) : CacheState :=
  mkCacheState (cacheMemory c) (last_cached_frame c) (cacheSize c) (cacheInit c)
    (lruCounter c + 1).

(** [cacheMemory[i]]. *)
Definition slot (c : CacheState) (i : nat) : outcome CacheTable :=
  match cacheMemory c with
  | None => Undef
  | Some mem => match mem !! i with Some e => Ret e | None => Undef end
  end.

Definition set_slot (c : CacheState) (i : nat) (e : CacheTable) : CacheState :=
  with_memory c (option_map (fun mem => <[i := e]> mem) (cacheMemory c)).

Definition create_cache_tag (cart frame : Z) : Z :=
  let theCart := u16 cart in
  let theFrame := u16 frame in
  let theCart := u32 (Z.shiftl theCart 16) in
  Z.lor theCart theFrame.

Section WithFrameSize.
(** [CART_FRAME_SIZE], the size of a [CartFrame] (cart_controller.h). *)
Variable CART_FRAME_SIZE : nat.

(** The state of the globals when the program starts. *)
Definition startup : CacheState :=
  mkCacheState None (repeat 0 CART_FRAME_SIZE) 0 NO 0.

Definition wiped : CacheTable :=
  mkCacheTable (repeat 0 CART_FRAME_SIZE) 0 0 0 NO (-1).

Definition set_cart_cache_size (c : CacheState) (max_frames : Z) : Z * CacheState :=
  let max_frames := u32 max_frames in
  if (max_frames <? 0) || (max_frames >? CACHE_MAX_OPEN_FILES) then (-1, c)
  else if max_frames =? 0 then (-1, c)
  else (0, mkCacheState (cacheMemory c) (last_cached_frame c) max_frames
             (cacheInit c) (lruCounter c)).

Definition init_cart_cache (c : CacheState) : Z * CacheState :=
  match cacheInit c with
  | YES => (-1, c)
  | NO =>
      match cacheMemory c with
      | Some _ => (-1, c)
      | None =>
          (0, mkCacheState (Some (repeat wiped (Z.to_nat (cacheSize c))))
                (last_cached_frame c) (cacheSize c) YES (lruCounter c))
      end
  end.

(** The [for] loop of [close_cart_cache]: [k] entries from index [i] on. *)
Fixpoint wipe_from (c : CacheState) (i k : nat) : outcome CacheState :=
  match k with
  | O => Ret c
  | S k' => _ ← slot c i; wipe_from (set_slot c i wiped) (S i) k'
  end.

Definition close_cart_cache (c : CacheState) : outcome (Z * CacheState) :=
  c1 ← wipe_from c 0 (Z.to_nat (cacheSize c));
  Ret (0, with_memory c1 None).

(** First loop of [put_cart_cache]: the lowest index whose entry is not in
    use, among [k] entries from index [i] on. *)
Fixpoint find_unused (c : CacheState) (i k : nat) : outcome (option nat) :=
  match k with
  | O => Ret None
  | S k' =>
      e ← slot c i;
      match isUsed e with
      | NO => Ret (Some i)
      | YES => find_unused c (S i) k'
      end
  end.

(** Second loop of [put_cart_cache]: [temp] is replaced by every entry whose
    [lru] is strictly smaller. *)
Fixpoint find_lru (c : CacheState) (temp : Z * Z * Z) (i k : nat) : outcome (Z * Z * Z) :=
  match k with
  | O => Ret temp
  | S k' =>
      e ← slot c i;
      let '(temp_lru, _, _) := temp in
      if lru e <? temp_lru
      then find_lru c (lru e, cartIndex e, frameIndex e) (S i) k'
      else find_lru c temp (S i) k'
  end.

(** The loop of [get_cart_cache] and [delete_cart_cache]: the lowest index
    whose [cacheHandle] equals the tag. *)
Fixpoint find_tag (c : CacheState) (tag : Z) (i k : nat) : outcome (option nat) :=
  match k with
  | O => Ret None
  | S k' =>
      e ← slot c i;
      if cacheHandle e =? tag then Ret (Some i) else find_tag c tag (S i) k'
  end.

(** Returns the removed frame ([last_cached_frame]), or [None] for NULL. *)
Definition delete_cart_cache (c : CacheState) (cart blk : Z)
  : outcome (option (list Z) * CacheState) :=
  let cart := u16 cart in
  let blk := u16 blk in
  let c := bump c in
  let tag := create_cache_tag cart blk in
  r ← find_tag c tag 0 (Z.to_nat (cacheSize c));
  match r with
  | Some i =>
      e ← slot c i;
      saved ← read_bytes (cachedFrame e) 0 CART_FRAME_SIZE;
      let c1 := mkCacheState (cacheMemory c) saved (cacheSize c) (cacheInit c)
                  (lruCounter c) in
      Ret (Some saved, set_slot c1 i wiped)
  | None => Ret (None, c)
  end.

(** The [while]/[goto search] loop of [put_cart_cache]; one unit of [fuel] is
    spent on each pass through the label [search]. *)
Fixpoint put_loop (fuel : nat) (c : CacheState) (tag cart frm : Z) (buf : list Z)
  : outcome (Z * CacheState) :=
  match fuel with
  | O => Fuel
  | S fuel' =>
      r ← find_unused c 0 (Z.to_nat (cacheSize c));
      match r with
      | Some i =>
          frame ← strncpy CART_FRAME_SIZE buf;
          Ret (0, set_slot c i (mkCacheTable frame tag cart frm YES (lruCounter c)))
      | None =>
          if cacheSize c =? 0 then Ret (0, c)
          else
            e0 ← slot c 0;
            '(_, temp_cart, temp_frame) ←
              find_lru c (lru e0, cartIndex e0, frameIndex e0) 0 (Z.to_nat (cacheSize c));
            '(resp, c1) ← delete_cart_cache c temp_cart temp_frame;
            match resp with
            | None => Ret (-1, c1)
            | Some _ => put_loop fuel' c1 tag cart frm buf
            end
      end
  end.

(** Two passes are enough: after a successful [delete_cart_cache] the search
    finds a free entry (theorem [put_cart_cache_no_fuel]). *)
Definition put_cart_cache (c : CacheState) (cart frm : Z) (buf : list Z)
  : outcome (Z * CacheState) :=
  let cart := u16 cart in
  let frm := u16 frm in
  let c := bump c in
  let tag := create_cache_tag cart frm in
  put_loop 2 c tag cart frm buf.

(** Returns the cached frame the returned pointer designates, or [None] for
    NULL. *)
Definition get_cart_cache (c : CacheState) (cart frm : Z)
  : outcome (option (list Z) * CacheState) :=
  let cart := u16 cart in
  let frm := u16 frm in
  let c := bump c in
  let temp := create_cache_tag cart frm in
  r ← find_tag c temp 0 (Z.to_nat (cacheSize c));
  match r with
  | Some i =>
      e ← slot c i;
      let e' := mkCacheTable (cachedFrame e) (cacheHandle e) (cartIndex e)
                  (frameIndex e) (isUsed e) (lruCounter c) in
      Ret (Some (cachedFrame e), set_slot c i e')
  | None => Ret (None, c)
  end.

End WithFrameSize.

(** The characters of a frame before its first terminator. *)
Fixpoint text (frame : list Z) : list Z :=
  match frame with
  | [] => []
  | c :: frame' => if c =? 0 then [] else c :: text frame'
  end.

(** Slot by slot: [Some (cart, frame, text, lru)] for an entry in use. *)
Definition contents (c : CacheState) : list (option (Z * Z * list Z * Z)) :=
  match cacheMemory c with
  | None => []
  | Some mem =>
      (fun e => match isUsed e with
                | YES => Some (cartIndex e, frameIndex e, text (cachedFrame e), lru e)
                | NO => None
                end) <$> mem
  end.

(** The entry [eb], at index [b], is the least recently used of the first [i]
    entries of [mem], the lowest index winning a tie. *)
Definition lru_among (mem : list CacheTable) (i b : nat) (eb : CacheTable) : Prop :=
  mem !! b = Some eb /\
  (forall j e, (j < i)%nat -> mem !! j = Some e -> lru eb <= lru e) /\
  (forall j e, (j < b)%nat -> mem !! j = Some e -> lru eb < lru e).

(** No entry in use holds the address. *)
Definition absent (c : CacheState) (cart frame : Z) : Prop :=
  forall t l, Some (cart, frame, t, l) ∉ contents c.

End Cache.

(** ** Transport client ([cart_client.c]) *)

(** The file has its own copy of [extract_cart_opcode], the same as the
    driver's; [Codec.extract_cart_opcode] stands for both. *)

Module Client.

(** The system calls of [client_cart_bus_request], and what the operating
    system answers: the return value and, for [read], the bytes delivered. *)
Inductive syscall : Type :=
| sys_inet_aton (ip : string)
| sys_socket
| sys_connect (fd : Z) (port : Z)
| sys_write (fd : Z) (data : list Z)
| sys_read (fd : Z) (count : Z)
| sys_close (fd : Z).

Record sysret : Type := mkSysret { rv : Z; rdata : list Z }.

(** A call of the client: a finite dialogue with the operating system. *)
Inductive io (A : Type) : Type :=
| Done (a : A)
| Sys (c : syscall) (k : sysret -> io A).
Arguments Done {A} a.
Arguments Sys {A} c k.

(** Run a dialogue against an operating system that answers each call from
    the calls made so far; gives the calls made, in order, and the result. *)
Fixpoint run {A : Type} (os : list syscall -> sysret) (hist : list syscall) (p : io A)
  : list syscall * A :=
  match p with
  | Done a => (hist, a)
  | Sys c k => run os (hist ++ [c]) (k (os (hist ++ [c])))
  end.

(** The eight bytes that [htonll64] leaves in memory: most significant first. *)
Definition htonll64 (x : Z) : list Z :=
  map (fun i => Z.land (Z.shiftr (u64 x) (8 * Z.of_nat (7 - i))) 255) (seq 0 8).

(** [ntohll64] of the eight bytes a [read] stored. *)
Definition ntohll64 (bytes : list Z) : Z :=
  fold_left (fun acc b => acc * 256 + b) (take 8 bytes) 0.

(** The globals of cart_client.c that the request reads or assigns;
    [cart_network_port] is an [unsigned short]. *)
Record ClientState : Type := mkClientState {
  client_socket : Z;
  cart_network_port : Z;
  initialized : Flag
}.

Definition startup : ClientState := mkClientState (-1) 0 NO.

(** [return (-1)] from a function returning [CartXferRegister]. *)
Definition FAILED : Z := u64 (-1).

Section WithController.
(** Constants of cart_controller.h and cart_network.h. *)
Variables CART_OP_INITMS CART_OP_BZERO CART_OP_LDCART
          CART_OP_RDFRME CART_OP_WRFRME CART_OP_POWOFF : Z.
Variable CART_FRAME_SIZE : nat.
Variable CART_DEFAULT_IP : string.
Variable CART_DEFAULT_PORT : Z.

Definition result : Type := Z * option (list Z) * ClientState.

(** [write(socket_fd, &value, sizeof(value)) != sizeof(value)] with
    [value = htonll64(v)]. *)
Definition send_value (fd v : Z) (fail : result) (k : io result) : io result :=
  Sys (sys_write fd (htonll64 v)) (fun r => if rv r =? 8 then k else Done fail).

(** [read(socket_fd, &value, sizeof(value)) != sizeof(value)], then
    [ntohll64(value)]. *)
Definition recv_value (fd : Z) (fail : result) (k : Z -> io result) : io result :=
  Sys (sys_read fd 8) (fun r => if rv r =? 8 then k (ntohll64 (rdata r)) else Done fail).

(** What [read] leaves in the caller's buffer. *)
Definition stored (buf : option (list Z)) (data : list Z) : option (list Z) :=
  option_map (fun b => data ++ drop (length data) b) buf.

(** [read(socket_fd, buf, CART_FRAME_SIZE) != CART_FRAME_SIZE]. *)
Definition recv_frame (fd : Z) (buf : option (list Z))
    (fail : option (list Z) -> result) (k : option (list Z) -> io result) : io result :=
  Sys (sys_read fd (Z.of_nat CART_FRAME_SIZE))
      (fun r => let buf' := stored buf (rdata r) in
                if rv r =? Z.of_nat CART_FRAME_SIZE then k buf' else Done (fail buf')).

(** "CLIENT READ" of the cases INITMS, BZERO and LDCART: the response
    register, then a length that must be 0. *)
Definition read_no_payload (fd : Z) (buf : option (list Z)) (st : ClientState) : io result :=
  recv_value fd (FAILED, buf, st) (fun response =>
  recv_value fd (FAILED, buf, st) (fun value =>
  if negb (value =? 0) then Done (FAILED, buf, st)
  else Done (response, buf, st))).

(** "CLIENT READ" of the other cases: the response register, a length, and a
    frame when the length is positive; [fin] is what follows in the case. *)
Definition read_payload (fd : Z) (buf : option (list Z)) (st : ClientState)
    (fin : result -> io result) : io result :=
  recv_value fd (FAILED, buf, st) (fun response =>
  recv_value fd (FAILED, buf, st) (fun value =>
  if value >? 0
  then recv_frame fd buf (fun b => (FAILED, b, st)) (fun b => fin (response, b, st))
  else fin (response, buf, st))).

Definition client_cart_bus_request (st : ClientState) (reg : Z) (buf : option (list Z))
  : io result :=
  let socket_fd := client_socket st in
  (* [cart_network_port = CART_DEFAULT_PORT], on every call *)
  let st := mkClientState (client_socket st) (u16 CART_DEFAULT_PORT) (initialized st) in
  (* uint8_t request *)
  let request := Codec.extract_cart_opcode reg Codec.CART_REG_KY1 mod 2 ^ 8 in
  if negb (socket_fd =? -1) then Done (FAILED, buf, st)
  else if request =? CART_OP_INITMS then
    (* the [while (initialized == NO)] body either returns or sets the flag,
       so it runs at most once *)
    let exchange (socket_fd : Z) (st : ClientState) :=
      send_value socket_fd reg (FAILED, buf, st)
        (send_value socket_fd 0 (FAILED, buf, st) (read_no_payload socket_fd buf st)) in
    match initialized st with
    | YES => exchange socket_fd st
    | NO =>
        Sys (sys_inet_aton CART_DEFAULT_IP) (fun r =>
        if rv r =? 0 then Done (FAILED, buf, st)
        else Sys sys_socket (fun r =>
        let socket_fd := rv r in
        if socket_fd =? -1 then Done (FAILED, buf, st)
        else Sys (sys_connect socket_fd (cart_network_port st)) (fun r =>
        if rv r =? -1 then Done (FAILED, buf, st)
        else exchange socket_fd
               (mkClientState (client_socket st) (cart_network_port st) YES))))
    end
  else if request =? CART_OP_BZERO then
    send_value socket_fd reg (FAILED, buf, st)
      (send_value socket_fd 0 (FAILED, buf, st) (read_no_payload socket_fd buf st))
  else if request =? CART_OP_LDCART then
    send_value socket_fd reg (FAILED, buf, st)
      (send_value socket_fd 0 (FAILED, buf, st) (read_no_payload socket_fd buf st))
  else if request =? CART_OP_RDFRME then
    send_value socket_fd reg (FAILED, buf, st)
      (send_value socket_fd 0 (FAILED, buf, st) (read_payload socket_fd buf st Done))
  else if request =? CART_OP_WRFRME then
    send_value socket_fd reg (FAILED, buf, st)
      (send_value socket_fd (Z.of_nat CART_FRAME_SIZE) (FAILED, buf, st)
         (* "Send buffered data over network": the call made is [read] *)
         (recv_frame socket_fd buf (fun b => (FAILED, b, st))
            (fun b => read_payload socket_fd b st Done)))
  else if request =? CART_OP_POWOFF then
    send_value socket_fd reg (FAILED, buf, st)
      (send_value socket_fd 0 (FAILED, buf, st)
         (read_payload socket_fd buf st
            (fun res => Sys (sys_close socket_fd) (fun _ => Done res))))
  else
    send_value socket_fd reg (FAILED, buf, st)
      (send_value socket_fd 0 (FAILED, buf, st) (read_payload socket_fd buf st Done)).

(** The calls of a WRITE-FRAME exchange that runs to its end, on descriptor
    [fd]: two writes of eight bytes, then reads only. *)
Definition write_frame_calls (fd reg : Z) : list syscall :=
  [ sys_write fd (htonll64 reg);
    sys_write fd (htonll64 (Z.of_nat CART_FRAME_SIZE));
    sys_read fd (Z.of_nat CART_FRAME_SIZE);
    sys_read fd 8;
    sys_read fd 8;
    sys_read fd (Z.of_nat CART_FRAME_SIZE) ].

End WithController.

(** An operating system that accepts every call: a [write] takes all its
    bytes, a [read] delivers as many zero bytes as asked for. *)
Definition obliging_os (hist : list syscall) : sysret :=
  match last hist with
  | Some (sys_write _ data) => mkSysret (Z.of_nat (length data)) []
  | Some (sys_read _ count) => mkSysret count (repeat 0 (Z.to_nat count))
  | _ => mkSysret 0 []
  end.

(** An operating system that refuses the descriptors that are not open: a
    [write] or a [read] on a negative descriptor returns -1. *)
Definition strict_os (hist : list syscall) : sysret :=
  match last hist with
  | Some (sys_write fd data) =>
      if fd <? 0 then mkSysret (-1) [] else mkSysret (Z.of_nat (length data)) []
  | Some (sys_read fd count) =>
      if fd <? 0 then mkSysret (-1) [] else mkSysret count (repeat 0 (Z.to_nat count))
  | _ => mkSysret 0 []
  end.

(** A [write] of the call sends a value of eight bytes (a register or a
    length), never a frame. *)
Definition carries_value (c : syscall) : Prop :=
  match c with
  | sys_write _ data => length data = 8%nat
  | _ => True
  end.

(** The calls that set up the connection. *)
Definition connects (c : syscall) : bool :=
  match c with
  | sys_inet_aton _ | sys_socket | sys_connect _ _ => true
  | _ => false
  end.

End Client.

(** ** File store and frame allocation table ([cart_driver.c]) *)

Module Driver.

Record FileSystem : Type := mkFileSystem {
  filename : string;      (* the characters before the terminator *)
  filehandle : Z;
  fileposition : Z;
  filelength : Z;
  cartIndex : Z;
  frameIndex : Z;
  openfile : Flag;
  incart : Flag
}.

(** An entry of [fileTable]; [tbl_filehandle] is its field [filehandle]. *)
Record FileTable : Type := mkFileTable {
  tbl_filehandle : Z;
  isused : Flag
}.

(** The globals of cart_driver.c, the cache and the device behind the bus.
    [fileTable] is the array [CART_MAX_CARTRIDGES][CART_CARTRIDGE_SIZE]. *)
Record State (Dev : Type) : Type := mkState {
  fileSystem : list FileSystem;
  numFiles : Z;
  fileTable : nat -> nat -> FileTable;
  cache : Cache.CacheState;
  device : Dev
}.
Arguments mkState {Dev}.
Arguments fileSystem {Dev}.
Arguments numFiles {Dev}.
Arguments fileTable {Dev}.
Arguments cache {Dev}.
Arguments device {Dev}.

Definition blank : FileSystem := mkFileSystem EmptyString (-1) 0 0 0 0 NO NO.

Definition unused : FileTable := mkFileTable (-1) NO.

(** The entry [fd] of the file table is open, as [cart_close] tests it. *)
Definition is_open (f : FileSystem) : Prop :=
  0 <= filehandle f /\ openfile f = YES.

Definition is_NO (f : Flag) : bool := Flag_eqb f NO.
Definition is_YES (f : Flag) : bool := Flag_eqb f YES.

Definition set_entry (t : nat -> nat -> FileTable) (i j : nat) (e : FileTable)
  : nat -> nat -> FileTable :=
  fun i' j' => if (i' =? i)%nat && (j' =? j)%nat then e else t i' j'.

Section WithController.
Context {Dev : Type}.
(** The bus as the driver sees it: the device state, the request register and
    the frame buffer (or [None] for NULL) give the response register, the
    buffer afterwards and the next device state. *)
Variable client_cart_bus_request : Dev -> Z -> option (list Z) -> Z * option (list Z) * Dev.
(** Constants of cart_controller.h and cart_driver.h. *)
Variables CART_MAX_CARTRIDGES CART_CARTRIDGE_SIZE CART_FRAME_SIZE CART_MAX_PATH_LENGTH : nat.
Variables CART_OP_INITMS CART_OP_BZERO CART_OP_LDCART
          CART_OP_RDFRME CART_OP_WRFRME CART_OP_POWOFF : Z.
(** The indeterminate content of an automatic array before it is written. *)
Variable uninit : nat -> Z.

Abbreviation State := (State Dev).

Definition with_files (st : State) (fs : list FileSystem) : State :=
  mkState fs (numFiles st) (fileTable st) (cache st) (device st).
Definition with_table (st : State) (t : nat -> nat -> FileTable) : State :=
  mkState (fileSystem st) (numFiles st) t (cache st) (device st).
Definition with_cache (st : State) (c : Cache.CacheState) : State :=
  mkState (fileSystem st) (numFiles st) (fileTable st) c (device st).
Definition with_device (st : State) (d : Dev) : State :=
  mkState (fileSystem st) (numFiles st) (fileTable st) (cache st) d.

(** [fileSystem[fd]]. *)
Definition file (st : State) (fd : Z) : outcome FileSystem :=
  if fd <? 0 then Undef
  else match fileSystem st !! Z.to_nat fd with
       | Some f => Ret f
       | None => Undef
       end.

Definition set_file (st : State) (fd : Z) (f : FileSystem) : State :=
  with_files st (<[Z.to_nat fd := f]> (fileSystem st)).

(** [fileTable[the_cart][the_frame] = e]. *)
Definition set_slot (st : State) (the_cart the_frame : Z) (e : FileTable) : outcome State :=
  if (0 <=? the_cart) && (the_cart <? Z.of_nat CART_MAX_CARTRIDGES) &&
     (0 <=? the_frame) && (the_frame <? Z.of_nat CART_CARTRIDGE_SIZE)
  then Ret (with_table st (set_entry (fileTable st) (Z.to_nat the_cart) (Z.to_nat the_frame) e))
  else Undef.

Definition slot (st : State) (the_cart the_frame : Z) : outcome FileTable :=
  if (0 <=? the_cart) && (the_cart <? Z.of_nat CART_MAX_CARTRIDGES) &&
     (0 <=? the_frame) && (the_frame <? Z.of_nat CART_CARTRIDGE_SIZE)
  then Ret (fileTable st (Z.to_nat the_cart) (Z.to_nat the_frame))
  else Undef.

Definition bus (st : State) (reg : Z) (buf : option (list Z)) : Z * option (list Z) * State :=
  let '(resp, buf', d) := client_cart_bus_request (device st) reg buf in
  (resp, buf', with_device st d).

Definition failed (resp : Z) : bool :=
  negb (Codec.extract_cart_opcode resp Codec.CART_REG_RT1 =? 0).

Definition load_this_cart (st : State) (cart : Z) : Z * State :=
  let '(resp, _, st1) :=
    bus st (Codec.create_cart_opcode CART_OP_LDCART 0 0 (u16 cart) 0 0) None in
  if failed resp then (-1, st1) else (0, st1).

(** *** Scans of the allocation table, cartridge-major *)

(** The lowest frame index of cartridge [i], from [j] on, that is not in use. *)
Fixpoint free_in_row (t : nat -> nat -> FileTable) (i j k : nat) : option nat :=
  match k with
  | O => None
  | S k' => if is_NO (isused (t i j)) then Some j else free_in_row t i (S j) k'
  end.

(** The nested [for] loops that look for "the first frame's location that is
    available": [None] when the loops run to their end. *)
Fixpoint first_free_from (t : nat -> nat -> FileTable) (i k : nat) : option (nat * nat) :=
  match k with
  | O => None
  | S k' =>
      match free_in_row t i 0 CART_CARTRIDGE_SIZE with
      | Some j => Some (i, j)
      | None => first_free_from t (S i) k'
      end
  end.

Definition first_free (t : nat -> nat -> FileTable) : option (nat * nat) :=
  first_free_from t 0 CART_MAX_CARTRIDGES.

(** [the_cart = i; the_frame = j;] when the search succeeds. *)
Definition search_file_table (st : State) (the_cart the_frame : Z) : Z * Z :=
  match first_free (fileTable st) with
  | Some (i, j) => (u16 (Z.of_nat i), u16 (Z.of_nat j))
  | None => (the_cart, the_frame)
  end.

(** All slots, in the order the nested loops visit them. *)
Definition all_slots : list (nat * nat) :=
  i ← seq 0 CART_MAX_CARTRIDGES; (fun j => (i, j)) <$> seq 0 CART_CARTRIDGE_SIZE.

Definition free_slots (t : nat -> nat -> FileTable) : list (nat * nat) :=
  filter (fun p => is_NO (isused (t p.1 p.2)) = true) all_slots.

Definition owned (t : nat -> nat -> FileTable) (fd : Z) (p : nat * nat) : bool :=
  (tbl_filehandle (t p.1 p.2) =? fd) && is_YES (isused (t p.1 p.2)).

Definition pieces_of (t : nat -> nat -> FileTable) (fd : Z) : list (nat * nat) :=
  filter (fun p => owned t fd p = true) all_slots.

(** Returns the number of frames of [fileTable] held by [fd], or -1. *)
Definition get_num_pieces (st : State) (fd : Z) : outcome Z :=
  f ← file st fd;
  if filelength f <? 1 then Ret (-1)
  else Ret (Z.of_nat (length (pieces_of (fileTable st) fd))).

(** Returns the (cartIndex, frameIndex) pairs of [tempFile], or [None] for
    NULL.  The [while (pieces > 0)] loop makes a single pass: its scan meets
    exactly the [pieces] entries counted just before.  [calloc(0, ...)] is
    taken to return a pointer to no storage. *)
Definition get_file_pieces (st : State) (fd : Z) : outcome (option (list (Z * Z))) :=
  f ← file st fd;
  if filelength f <? 1 then Ret None
  else Ret (Some ((fun p => (u16 (Z.of_nat p.1), u16 (Z.of_nat p.2)))
                    <$> pieces_of (fileTable st) fd)).

(** [tempFile[i]]. *)
Definition piece (tempFile : list (Z * Z)) (i : nat) : outcome (Z * Z) :=
  match tempFile !! i with
  | Some p => Ret p
  | None => Undef
  end.

(** [ceil((double)length / (double)CART_FRAME_SIZE) > counter]; the quotient
    of two integers below 2^32 is never rounded onto an integer, so the
    ceiling is the integer one.  With a frame size of 0 the quotient is
    infinite, or not a number when [length] is 0 too. *)
Definition more_frames_than (length counter : Z) : bool :=
  if (CART_FRAME_SIZE =? 0)%nat then 0 <? length
  else counter <? (length + Z.of_nat CART_FRAME_SIZE - 1) / Z.of_nat CART_FRAME_SIZE.

Definition check_table_space (st : State) (fd count : Z) : outcome Z :=
  f ← file st fd;
  if filelength f >=? u32 (fileposition f + count) then Ret 0
  else
    let length := u32 (filelength f + count) in
    let counter := Z.of_nat (List.length (free_slots (fileTable st))) in
    if more_frames_than length counter then Ret (-1) else Ret 0.

(** [realloc] leaves the first [numFiles] entries in place; the entry added
    is then initialised. *)
Definition allocateNewFile (st : State) : Z * State :=
  let origFileCount := numFiles st in
  (0, mkState (take (Z.to_nat origFileCount) (fileSystem st) ++ [blank])
        (origFileCount + 1) (fileTable st) (cache st) (device st)).

(** *** cart_open, cart_close, cart_seek *)

(** The [for] loop of [cart_open] over [k] entries from index [i] on; [None]
    when the loop ends without returning. *)
Fixpoint open_scan (st : State) (path : string) (i k : nat) : outcome (option (Z * State)) :=
  match k with
  | O => Ret None
  | S k' =>
      f ← file st (Z.of_nat i);
      if String.eqb path (filename f) then Ret (Some (-1, st))
      else if is_NO (openfile f) then
        if (String.length path + 1 <=? CART_MAX_PATH_LENGTH)%nat
        then
          let f' := mkFileSystem path (s16 (Z.of_nat i)) 0 0 0 0 YES (incart f) in
          Ret (Some (s16 (Z.of_nat i), set_file st (Z.of_nat i) f'))
        else Undef
      else open_scan st path (S i) k'
  end.

(** One unit of [fuel] for each pass through the label [check_file_system]. *)
Fixpoint open_loop (fuel : nat) (st : State) (path : string) : outcome (Z * State) :=
  match fuel with
  | O => Fuel
  | S fuel' =>
      r ← open_scan st path 0 (Z.to_nat (numFiles st));
      match r with
      | Some res => Ret res
      | None =>
          let '(allocResp, st1) := allocateNewFile st in
          if negb (allocResp =? 0) then Ret (-1, st1)
          else open_loop fuel' st1 path
      end
  end.

(** [path] is [None] for NULL.  A pass that returns nothing is followed by
    one that meets the entry just allocated, hence the bound (lemma
    [cart_open_no_fuel]). *)
Definition cart_open (st : State) (path : option string) : outcome (Z * State) :=
  match path with
  | None => Ret (-1, st)
  | Some p => open_loop 2 st p
  end.

Definition cart_close (st : State) (fd : Z) : outcome (Z * State) :=
  f ← file st fd;
  if (filehandle f >=? 0) && is_YES (openfile f)
  then Ret (0, set_file st fd (mkFileSystem EmptyString (-1) 0 0 0 0 NO (incart f)))
  else Ret (-1, st).

Definition cart_seek (st : State) (fd loc : Z) : outcome (Z * State) :=
  let loc := u32 loc in
  f ← file st fd;
  if (loc <? 0) || (loc >? filelength f) then Ret (-1, st)
  else Ret (0, set_file st fd
                 (mkFileSystem (filename f) (filehandle f) loc (filelength f)
                    (cartIndex f) (frameIndex f) (openfile f) (incart f))).

(** *** cart_poweron *)

(** "BZERO out the cartridges": [k] cartridges from index [i] on; [None]
    when the loop ends without returning. *)
Fixpoint zero_cartridges (st : State) (i k : nat) : option Z * State :=
  match k with
  | O => (None, st)
  | S k' =>
      let '(resp, _, st1) :=
        bus st (Codec.create_cart_opcode CART_OP_LDCART 0 0 (Z.of_nat i) 0 0) None in
      if failed resp then (Some (-1), st1)
      else
        let '(resp, _, st2) :=
          bus st1 (Codec.create_cart_opcode CART_OP_BZERO 0 0 0 0 0) None in
        if failed resp then (Some (-1), st2)
        else zero_cartridges st2 (S i) k'
  end.

Definition cart_poweron (st : State) : Z * State :=
  let '(cacheResp, c) := Cache.init_cart_cache CART_FRAME_SIZE (cache st) in
  let st := with_cache st c in
  if negb (cacheResp =? 0) then (-1, st)
  else
    let st := mkState (fileSystem st) (numFiles st + 1) (fileTable st) (cache st)
                (device st) in
    if negb (numFiles st =? 1) then (-1, st)
    else
      let st := with_files st (repeat blank (Z.to_nat (numFiles st))) in
      let st := with_table st (fun _ _ => unused) in
      let '(resp, _, st) :=
        bus st (Codec.create_cart_opcode CART_OP_INITMS 0 0 0 0 0) None in
      if failed resp then (-1, st)
      else
        match zero_cartridges st 0 CART_MAX_CARTRIDGES with
        | (Some r, st) => (r, st)
        | (None, st) => (0, st)
        end.

(** *** cart_poweroff *)

(** "Zero out file system's data structure": [k] entries of [fileSystem]
    from index [i] on. *)
Fixpoint wipe_files (fs : list FileSystem) (i k : nat) : outcome (list FileSystem) :=
  match k with
  | O => Ret fs
  | S k' =>
      match fs !! i with
      | Some _ => wipe_files (<[i := blank]> fs) (S i) k'
      | None => Undef
      end
  end.

Definition cart_poweroff (st : State) : outcome (Z * State) :=
  '(cacheResp, c) ← Cache.close_cart_cache CART_FRAME_SIZE (cache st);
  let st := with_cache st c in
  if negb (cacheResp =? 0) then Ret (-1, st)
  else
    fs ← wipe_files (fileSystem st) 0 (Z.to_nat (numFiles st));
    let st := with_files st fs in
    let st := with_table st (fun _ _ => unused) in
    let '(resp, _, st) :=
      bus st (Codec.create_cart_opcode CART_OP_POWOFF 0 0 0 0 0) None in
    if failed resp then Ret (-1, st) else Ret (0, st).

(** *** cart_read *)

(** "Search file system to ensure we have a legal file": [k] rounds of the
    same test. *)
Fixpoint legal_file (f : FileSystem) (fd : Z) (k : nat) (goodFile : Flag) : Flag :=
  match k with
  | O => goodFile
  | S k' => legal_file f fd k' (if filehandle f =? fd then YES else goodFile)
  end.

(** The loop at [read_file_frame]: [inl] when the call returns -1 from inside
    the loop, [inr] with [local_file_buffer] when the loop ends. *)
Fixpoint read_file_frame (file_frames : nat) (st : State) (tempFile : list (Z * Z))
    (the_cart the_frame : Z) (iteration : nat) (local_file_buffer cart_buffer : list Z)
  : outcome (State + State * list Z) :=
  match file_frames with
  | O => Ret (inr (st, local_file_buffer))
  | S file_frames' =>
      '(cache_buffer, c) ← Cache.get_cart_cache (cache st) the_cart the_frame;
      let st := with_cache st c in
      match cache_buffer with
      | Some frame =>
          length ← strlen frame;
          local_file_buffer ←
            write_bytes local_file_buffer (iteration * CART_FRAME_SIZE) (take length frame);
          read_file_frame file_frames' st tempFile the_cart the_frame (S iteration)
            local_file_buffer cart_buffer
      | None =>
          p ← piece tempFile iteration;
          let '(the_cart, st) :=
            if negb (the_cart =? p.1) then (p.1, (load_this_cart st p.1).2)
            else (the_cart, st) in
          let the_frame := p.2 in
          let '(resp, buf', st) :=
            bus st (Codec.create_cart_opcode CART_OP_RDFRME 0 0 0 the_frame 0)
              (Some cart_buffer) in
          let cart_buffer := default cart_buffer buf' in
          if failed resp then Ret (inl st)
          else
            length ← strlen cart_buffer;
            local_file_buffer ←
              write_bytes local_file_buffer (iteration * CART_FRAME_SIZE)
                (take length cart_buffer);
            read_file_frame file_frames' st tempFile the_cart the_frame (S iteration)
              local_file_buffer cart_buffer
      end
  end.

(** The copy into [buf] and the returns that follow the loop. *)
Definition read_return (st : State) (fd count : Z) (local_file_buffer : list Z)
  : outcome (Z * list Z * State) :=
  f ← file st fd;
  let remaining := u32 (filelength f - fileposition f) in
  let return_count := s32 remaining in
  let moved (pos : Z) :=
    set_file st fd (mkFileSystem (filename f) (filehandle f) pos (filelength f)
                      (cartIndex f) (frameIndex f) (openfile f) (incart f)) in
  if u32 count <=? remaining then
    data ← read_bytes local_file_buffer (Z.to_nat (fileposition f)) (Z.to_nat count);
    Ret (count, data, moved (u32 (fileposition f + count)))
  else if remaining =? 0 then Ret (-1, [], st)
  else
    data ← read_bytes local_file_buffer (Z.to_nat (fileposition f)) (Z.to_nat return_count);
    Ret (return_count, data, moved (filelength f)).

(** Gives the value returned, the bytes stored in [buf] and the state. *)
Definition cart_read (st : State) (fd count : Z) : outcome (Z * list Z * State) :=
  f ← file st fd;
  let cart_buffer := uninit <$> seq 0 CART_FRAME_SIZE in
  let local_file_buffer := uninit <$> seq 0 (Z.to_nat (filelength f)) in
  if count <? 0 then Ret (-1, [], st)
  else if (filehandle f <? 0) || is_NO (openfile f) then Ret (-1, [], st)
  else if negb (is_YES (legal_file f fd (Z.to_nat (numFiles st)) NO)) then Ret (-1, [], st)
  else
    file_occurrences ← get_num_pieces st fd;
    tempFile ← get_file_pieces st fd;
    match tempFile with
    | None => Ret (-1, [], st)
    | Some tempFile =>
        p ← piece tempFile 0;
        let the_cart := p.1 in
        let st := (load_this_cart st the_cart).2 in
        let the_frame := p.2 in
        r ← read_file_frame (Z.to_nat file_occurrences) st tempFile the_cart the_frame 0
              local_file_buffer cart_buffer;
        match r with
        | inl st => Ret (-1, [], st)
        | inr (st, local_file_buffer) => read_return st fd count local_file_buffer
        end
    end.

(** *** cart_write *)

(** Steps (1) to (3) and the cache insertion, common to both write loops:
    fill [cart_buffer] with the next [counter] or [CART_FRAME_SIZE] bytes of
    [src], write the frame through to the device, put it in the cache.
    [inl] when the call returns -1. *)
Definition write_through (st : State) (src : list Z) (counter : Z) (iteration : nat)
    (the_cart the_frame : Z) (cart_buffer : list Z)
  : outcome (State + State * Z * list Z) :=
  let n := if counter <=? Z.of_nat CART_FRAME_SIZE then Z.to_nat counter
           else CART_FRAME_SIZE in
  data ← read_bytes src (iteration * CART_FRAME_SIZE) n;
  cart_buffer ← write_bytes cart_buffer 0 data;
  let counter := counter - Z.of_nat n in
  let st := (load_this_cart st the_cart).2 in
  let '(resp, buf', st) :=
    bus st (Codec.create_cart_opcode CART_OP_WRFRME 0 0 0 the_frame 0) (Some cart_buffer) in
  let cart_buffer := default cart_buffer buf' in
  if failed resp then Ret (inl st)
  else
    '(cacheResp, c) ← Cache.put_cart_cache CART_FRAME_SIZE (cache st) the_cart the_frame
                        cart_buffer;
    let st := with_cache st c in
    if negb (cacheResp =? 0) then Ret (inl st)
    else Ret (inr (st, counter, cart_buffer)).

(** [cart_buffer] after the [memcpy] of the first [count] bytes of [buf] into
    the zeroed frame. *)
Definition frame_of (buf : list Z) (count : Z) : list Z :=
  take (Z.to_nat count) buf ++ repeat 0 (CART_FRAME_SIZE - Z.to_nat count).

(** FIRST WRITE, from the label [search_file_table] on; one unit of [fuel]
    for each frame written. *)
Fixpoint first_write (fuel : nat) (st : State) (fd : Z) (buf : list Z) (count counter : Z)
    (iteration : nat) (the_cart the_frame : Z) (cart_buffer : list Z)
  : outcome (Z * State) :=
  let '(the_cart, the_frame) := search_file_table st the_cart the_frame in
  if counter <=? 0 then Ret (count, st)
  else
    match fuel with
    | O => Fuel
    | S fuel' =>
        r ← write_through st buf counter iteration the_cart the_frame cart_buffer;
        match r with
        | inl st => Ret (-1, st)
        | inr (st, counter, cart_buffer) =>
            f ← file st fd;
            placed ←
              (if (iteration =? 0)%nat then
                 let st := set_file st fd
                   (mkFileSystem (filename f) (filehandle f) (fileposition f)
                      (filelength f) the_cart the_frame (openfile f) YES) in
                 st ← set_slot st the_cart the_frame (mkFileTable fd YES);
                 Ret (Some st)
               else if (the_cart =? 0) || (the_frame =? 0) then Ret None
               else if (the_cart =? Z.of_nat CART_MAX_CARTRIDGES)
                       || (the_frame =? Z.of_nat CART_CARTRIDGE_SIZE) then Ret None
               else
                 st ← set_slot st the_cart the_frame (mkFileTable fd YES);
                 Ret (Some st));
            match placed with
            | None => Ret (-1, st)
            | Some st =>
                f ← file st fd;
                let st := set_file st fd
                  (mkFileSystem (filename f) (filehandle f) (u32 count) (u32 count)
                     (cartIndex f) (frameIndex f) (openfile f) (incart f)) in
                first_write fuel' st fd buf count counter (S iteration) the_cart the_frame
                  cart_buffer
            end
        end
    end.

(** SUCCESSIVE WRITES, "Read/extract file from CART memory to do appending":
    [inl] when the call returns -1. *)
Fixpoint read_back (fuel : nat) (st : State) (tempFile : list (Z * Z)) (counter : Z)
    (iteration : nat) (the_cart the_frame : Z) (local_file_buffer cart_buffer : list Z)
  : outcome (State + State * Z * Z * list Z * list Z) :=
  if counter <=? 0 then Ret (inr (st, the_cart, the_frame, local_file_buffer, cart_buffer))
  else
    match fuel with
    | O => Fuel
    | S fuel' =>
        p ← piece tempFile iteration;
        let '(the_cart, st) :=
          if negb (p.1 =? the_cart) then (p.1, (load_this_cart st p.1).2)
          else (the_cart, st) in
        p ← piece tempFile iteration;
        let the_frame := p.2 in
        let '(resp, buf', st) :=
          bus st (Codec.create_cart_opcode CART_OP_RDFRME 0 0 0 the_frame 0)
            (Some cart_buffer) in
        let cart_buffer := default cart_buffer buf' in
        if failed resp then Ret (inl st)
        else
          e ← slot st the_cart the_frame;
          st ← set_slot st the_cart the_frame (mkFileTable (tbl_filehandle e) NO);
          data ← read_bytes cart_buffer 0
                   (if counter >=? Z.of_nat CART_FRAME_SIZE then CART_FRAME_SIZE
                    else Z.to_nat counter);
          local_file_buffer ←
            write_bytes local_file_buffer (iteration * CART_FRAME_SIZE) data;
          read_back fuel' st tempFile (counter - Z.of_nat CART_FRAME_SIZE) (S iteration)
            the_cart the_frame local_file_buffer cart_buffer
    end.

(** SUCCESSIVE WRITES, from the label [cart_write_back] on. *)
Fixpoint write_back (fuel : nat) (st : State) (fd : Z) (local_file_buffer : list Z)
    (the_count counter : Z) (iteration : nat) (the_cart the_frame : Z)
  : outcome (Z * State) :=
  if counter <=? 0 then Ret (the_count, st)
  else
    match fuel with
    | O => Fuel
    | S fuel' =>
        let cart_buffer := repeat 0 CART_FRAME_SIZE in
        r ← write_through st local_file_buffer counter iteration the_cart the_frame
              cart_buffer;
        match r with
        | inl st => Ret (-1, st)
        | inr (st, counter, _) =>
            f ← file st fd;
            placed ←
              (if (iteration =? 0)%nat then
                 let st := set_file st fd
                   (mkFileSystem (filename f) (filehandle f) (fileposition f)
                      (filelength f) the_cart the_frame (openfile f) (incart f)) in
                 st ← set_slot st the_cart the_frame (mkFileTable fd YES);
                 Ret (Some st)
               else if (the_cart =? 0) && (the_frame =? 0) then Ret None
               else if (the_cart =? Z.of_nat CART_MAX_CARTRIDGES)
                       || (the_frame =? Z.of_nat CART_CARTRIDGE_SIZE) then Ret None
               else
                 st ← set_slot st the_cart the_frame (mkFileTable fd YES);
                 Ret (Some st));
            match placed with
            | None => Ret (-1, st)
            | Some st =>
                let '(the_cart, the_frame) := search_file_table st the_cart the_frame in
                write_back fuel' st fd local_file_buffer the_count counter (S iteration)
                  the_cart the_frame
            end
        end
    end.

(** [buf] is the object the pointer designates, which may be longer than
    [count] bytes. *)
Definition cart_write (st : State) (fd : Z) (buf : list Z) (count : Z) : outcome (Z * State) :=
  f ← file st fd;
  let the_count := count in
  let cart_buffer := repeat 0 CART_FRAME_SIZE in
  let the_cart := cartIndex f in
  let the_frame := frameIndex f in
  if count <? 0 then Ret (-1, st)
  else if (filehandle f <? 0) || is_NO (openfile f) then Ret (-1, st)
  else if negb (is_YES (legal_file f fd (Z.to_nat (numFiles st)) NO)) then Ret (-1, st)
  else
    buf_size ← strlen buf;
    let local_file_buffer :=
      if filelength f >? 0 then repeat 0 (buf_size + Z.to_nat (filelength f))
      else repeat 0 (Z.to_nat count) in
    match incart f with
    | NO =>
        first_write (Z.to_nat count) st fd buf count count 0 the_cart the_frame cart_buffer
    | YES =>
        let counter := s32 (filelength f) in
        checkSpace ← check_table_space st fd count;
        if negb (checkSpace =? 0) then Ret (-1, st)
        else
          tempFile ← get_file_pieces st fd;
          match tempFile with
          | None => Ret (-1, st)
          | Some tempFile =>
              p ← piece tempFile 0;
              let the_cart := p.1 in
              let st := (load_this_cart st the_cart).2 in
              let the_frame := p.2 in
              r ← read_back (Z.to_nat counter) st tempFile counter 0 the_cart the_frame
                    local_file_buffer cart_buffer;
              match r with
              | inl st => Ret (-1, st)
              | inr (st, the_cart, the_frame, local_file_buffer, _) =>
                  f ← file st fd;
                  data ← read_bytes buf 0 (Z.to_nat the_count);
                  local_file_buffer ←
                    write_bytes local_file_buffer (Z.to_nat (fileposition f)) data;
                  new_length ← strlen local_file_buffer;
                  let new_position :=
                    if filelength f <? u32 (fileposition f + Z.of_nat buf_size)
                    then Z.of_nat new_length
                    else u32 (fileposition f + the_count) in
                  let st := set_file st fd
                    (mkFileSystem (filename f) (filehandle f) new_position
                       (Z.of_nat new_length) (cartIndex f) (frameIndex f) (openfile f)
                       (incart f)) in
                  let counter := s32 (Z.of_nat new_length) in
                  let '(the_cart, the_frame) := search_file_table st the_cart the_frame in
                  write_back (Z.to_nat counter) st fd local_file_buffer the_count counter 0
                    the_cart the_frame
              end
          end
    end.

End WithController.
End Driver.

(** ** A device and the constants of the controller, for running the driver *)

Module Device.

(** Modelled from the spec: the CART device behind the bus, which is not part
    of the sources.  LOAD-CARTRIDGE selects a cartridge, ZERO-CARTRIDGE clears
    it, WRITE-FRAME stores the frame sent at the addressed frame of the loaded
    cartridge and READ-FRAME returns it; the response is the request register
    with a return flag of 0. *)
Record Cart : Type := mkCart {
  loaded : Z;
  frames : list (Z * Z * list Z)
}.

Definition lookup_frame (d : Cart) (cart frame : Z) : option (list Z) :=
  snd <$> List.find (fun e => (e.1.1 =? cart) && (e.1.2 =? frame)) (frames d).

Section WithController.
Variables CART_OP_INITMS CART_OP_BZERO CART_OP_LDCART
          CART_OP_RDFRME CART_OP_WRFRME CART_OP_POWOFF : Z.
Variable CART_FRAME_SIZE : nat.

Definition request (d : Cart) (reg : Z) (buf : option (list Z))
  : Z * option (list Z) * Cart :=
  let op := Codec.extract_cart_opcode reg Codec.CART_REG_KY1 in
  let ct := Codec.extract_cart_opcode reg Codec.CART_REG_CT1 in
  let fm := Codec.extract_cart_opcode reg Codec.CART_REG_FM1 in
  if op =? CART_OP_LDCART then (reg, buf, mkCart ct (frames d))
  else if op =? CART_OP_BZERO then
    (reg, buf, mkCart (loaded d)
                 (List.filter (fun e => negb (e.1.1 =? loaded d)) (frames d)))
  else if op =? CART_OP_RDFRME then
    (reg, Some (default (repeat 0 CART_FRAME_SIZE) (lookup_frame d (loaded d) fm)), d)
  else if op =? CART_OP_WRFRME then
    (reg, buf, mkCart (loaded d)
                 ((loaded d, fm, take CART_FRAME_SIZE (default [] buf)) :: frames d))
  else (reg, buf, d).

End WithController.
End Device.

(** The driver run with the table of 64 cartridges of 1024 frames announced
    at the declaration of [fileTable], frames of 1024 bytes, paths of at most
    128 bytes, the operation codes numbered from 0 in the order of the
    [switch] of the client, over the device above. *)
Module Run.

Definition State : Type := Driver.State Device.Cart.

Definition bus : Device.Cart -> Z -> option (list Z) -> Z * option (list Z) * Device.Cart :=
  Device.request 1 2 3 4 1024.

Definition uninit (i : nat) : Z := 170.

(** The globals when the program starts, with the cache size set to [n]. *)
Definition boot (n : Z) : State :=
  Driver.mkState [] 0 (fun _ _ => Driver.mkFileTable 0 YES)
    (Cache.set_cart_cache_size (Cache.startup 1024) n).2 (Device.mkCart 0 []).

Definition cart_poweron (st : State) : Z * State :=
  Driver.cart_poweron bus 64 1024 0 1 2 st.
Definition cart_poweroff (st : State) : outcome (Z * State) :=
  Driver.cart_poweroff bus 1024 5 st.
Definition cart_open (st : State) (path : option string) : outcome (Z * State) :=
  Driver.cart_open 128 st path.
Definition cart_close (st : State) (fd : Z) : outcome (Z * State) :=
  Driver.cart_close st fd.
Definition cart_seek (st : State) (fd loc : Z) : outcome (Z * State) :=
  Driver.cart_seek st fd loc.
Definition cart_read (st : State) (fd count : Z) : outcome (Z * list Z * State) :=
  Driver.cart_read bus 64 1024 1024 2 3 uninit st fd count.
Definition cart_write (st : State) (fd : Z) (buf : list Z) (count : Z) : outcome (Z * State) :=
  Driver.cart_write bus 64 1024 1024 2 3 4 st fd buf count.

(** The state after [cart_poweron] with a cache of [n] frames. *)
Definition powered (n : Z) : State := (cart_poweron (boot n)).2.

(** A cache of [n] frames after [set_cart_cache_size] and [init_cart_cache]. *)
Definition fresh_cache (n : Z) : Cache.CacheState :=
  (Cache.init_cart_cache 1024 (Cache.set_cart_cache_size (Cache.startup 1024) n).2).2.
Definition put_cart_cache (c : Cache.CacheState) (cart frm : Z) (buf : list Z)
  : outcome (Z * Cache.CacheState) :=
  Cache.put_cart_cache 1024 c cart frm buf.

(** The entries of [cacheMemory]. *)
Definition memory (c : Cache.CacheState) : list Cache.CacheTable :=
  default [] (Cache.cacheMemory c).

(** The C strings "A", "B", "C" and "hello". *)
Definition A : list Z := [65; 0].
Definition B : list Z := [66; 0].
Definition C : list Z := [67; 0].
Definition hello : list Z := [104; 101; 108; 108; 111; 0].

(** The cache of the scenario of LRU eviction, step by step. *)
Definition cache_A : Cache.CacheState :=
  state_after (put_cart_cache (fresh_cache 2) 0 0 A) (fresh_cache 2).
Definition cache_AB : Cache.CacheState := state_after (put_cart_cache cache_A 0 1 B) cache_A.
Definition cache_AB_got : Cache.CacheState :=
  state_after (Cache.get_cart_cache cache_AB 0 0) cache_AB.
Definition cache_AC : Cache.CacheState :=
  state_after (put_cart_cache cache_AB_got 0 2 C) cache_AB_got.

(** The same with B put at the address of A. *)
Definition cache_twice : Cache.CacheState :=
  state_after (put_cart_cache cache_A 0 0 B) cache_A.
Definition cache_twice_got : Cache.CacheState :=
  state_after (Cache.get_cart_cache cache_twice 0 0) cache_twice.
Definition cache_twice_C : Cache.CacheState :=
  state_after (put_cart_cache cache_twice_got 0 1 C) cache_twice_got.

(** After [cart_poweron] with a cache of 4 frames: "f" opened; then "hello"
    written to it; then a seek to 0. *)
Definition opened : State := state_after (cart_open (powered 4) (Some "f"%string)) (powered 4).
Definition written : State := state_after (cart_write opened 0 hello 5) opened.
Definition rewound : State := state_after (cart_seek written 0 0) written.

(** [written] with the handle closed; then "g" opened, which takes the entry
    the handle had. *)
Definition written_closed : State := state_after (cart_close written 0) written.
Definition written_reopened : State :=
  state_after (cart_open written_closed (Some "g"%string)) written_closed.

(** [opened] after a first write of 1025 bytes [120]. *)
Definition long_text : list Z := repeat 120 1025%nat ++ [0].
Definition long_written : State := state_after (cart_write opened 0 long_text 1025) opened.

(** [rewound] after "ab" is written over the first two bytes. *)
Definition overwritten : State := state_after (cart_write rewound 0 [97; 98; 0] 2) rewound.

(** "f" opened, the byte 0 written to it, then a seek to 0. *)
Definition zero_written : State := state_after (cart_write opened 0 [0; 0] 1) opened.
Definition zero_rewound : State := state_after (cart_seek zero_written 0 0) zero_written.

(** [written] with every other slot of the allocation table held by a second
    open file, of 65535 frames; then a seek to 0 in the first file. *)
Definition crowded : State :=
  Driver.mkState
    (Driver.fileSystem written
       ++ [Driver.mkFileSystem "g"%string 1 67107840 67107840 0 1 YES YES])
    2
    (fun i j => if (i =? 0)%nat && (j =? 0)%nat then Driver.fileTable written i j
                else Driver.mkFileTable 1 YES)
    (Driver.cache written) (Driver.device written).
Definition crowded_rewound : State := state_after (cart_seek crowded 0 0) crowded.
Definition crowded_rewritten : State :=
  state_after (cart_write crowded_rewound 0 [97; 98; 0] 2) crowded_rewound.

(** After [cart_poweron]: "a" and "b" opened, then "a" closed, then "b"
    opened again. *)
Definition opened_a : State := state_after (cart_open (powered 4) (Some "a"%string)) (powered 4).
Definition opened_ab : State := state_after (cart_open opened_a (Some "b"%string)) opened_a.
Definition reopened : State := state_after (cart_close opened_ab 0) opened_ab.
Definition opened_b_twice : State :=
  state_after (cart_open reopened (Some "b"%string)) reopened.

End Run.

(** ** Bit-level facts used by the codec proofs *)

Lemma testbit_small (x n i : Z) :
  0 <= x < 2 ^ n -> 0 <= n <= i -> Z.testbit x i = false.
Proof.
  intros Hx Hi.
  rewrite <- (Z.mod_small x (2 ^ n)) by exact Hx.
  apply Z.mod_pow2_bits_high. lia.
Qed.

Lemma shl64_small (x w n : Z) :
  0 <= x < 2 ^ w -> 0 <= w -> 0 <= n -> w + n <= 64 ->
  Codec.shl64 x n = Z.shiftl x n.
Proof.
  intros Hx Hw Hn Hle. unfold Codec.shl64, u64.
  apply Z.mod_small. rewrite Z.shiftl_mul_pow2 by lia. split.
  - apply Z.mul_nonneg_nonneg; [lia | apply Z.pow_nonneg; lia].
  - apply Z.lt_le_trans with (2 ^ w * 2 ^ n).
    + apply Z.mul_lt_mono_pos_r; [apply Z.pow_pos_nonneg; lia | apply Hx].
    + rewrite <- Z.pow_add_r by lia. apply Z.pow_le_mono_r; lia.
Qed.

Lemma testbit_255 (i : Z) : Z.testbit 255 i = (0 <=? i) && (i <? 8).
Proof. change 255 with (Z.ones 8). apply Z.testbit_ones. lia. Qed.

Lemma testbit_65535 (i : Z) : Z.testbit 65535 i = (0 <=? i) && (i <? 16).
Proof. change 65535 with (Z.ones 16). apply Z.testbit_ones. lia. Qed.

Lemma testbit_1 (i : Z) : Z.testbit 1 i = (0 <=? i) && (i <? 1).
Proof. destruct i as [|p|p]; [reflexivity | destruct p; reflexivity | reflexivity]. Qed.

(** Discharge the bits of a field that lie outside its window. *)
Ltac kill_bits :=
  repeat match goal with
  | |- context [Z.testbit ?x ?j] =>
      first
        [ rewrite (Z.testbit_neg_r x j) by lia
        | match goal with
          | H : 0 <= x < 2 ^ ?w |- _ => rewrite (testbit_small x w j) by (first [exact H | lia])
          end ]
  end;
  rewrite ?orb_false_r, ?orb_false_l, ?andb_false_r, ?andb_true_r.

Ltac reg_bits i Hi :=
  apply Z.bits_inj'; intros i Hi;
  rewrite ?Z.land_spec, ?Z.lor_spec, ?Z.shiftr_spec by lia;
  rewrite ?Z.lor_spec, ?Z.shiftl_spec by lia;
  rewrite ?testbit_255, ?testbit_65535, ?testbit_1.

Section CodecRoundTrip.
Variables ky1 ky2 ret cart frame resv : Z.
Hypothesis Hvalid : Codec.valid_fields ky1 ky2 ret cart frame resv.

Lemma create_cart_opcode_shifts :
  Codec.create_cart_opcode ky1 ky2 ret cart frame resv =
  Z.lor (Z.lor (Z.lor (Z.lor (Z.lor (Z.shiftl ky1 56) (Z.shiftl ky2 48))
               (Z.shiftl ret 47)) (Z.shiftl cart 31)) (Z.shiftl frame 15)) resv.
Proof.
  destruct Hvalid as (H1 & H2 & H3 & H4 & H5 & H6).
  unfold Codec.create_cart_opcode.
  rewrite (shl64_small ky1 8 56), (shl64_small ky2 8 48), (shl64_small ret 1 47),
    (shl64_small cart 16 31), (shl64_small frame 16 15) by lia.
  reflexivity.
Qed.

Lemma extract_KY1 :
  Codec.extract_cart_opcode (Codec.create_cart_opcode ky1 ky2 ret cart frame resv)
    Codec.CART_REG_KY1 = ky1.
Proof.
  rewrite create_cart_opcode_shifts.
  destruct Hvalid as (H1 & H2 & H3 & H4 & H5 & H6). change 2 with (2 ^ 1) in H3.
  cbn [Codec.extract_cart_opcode]. reg_bits i Hi.
  replace (i + 56 - 56) with i by lia. kill_bits.
  reflexivity.
Qed.

Ltac window i w :=
  destruct (Z.ltb_spec i w);
  [ replace (0 <=? i) with true by (symmetry; apply Z.leb_le; lia)
  | rewrite ?andb_false_r ];
  kill_bits.

Lemma extract_KY2 :
  Codec.extract_cart_opcode (Codec.create_cart_opcode ky1 ky2 ret cart frame resv)
    Codec.CART_REG_KY2 = ky2.
Proof.
  rewrite create_cart_opcode_shifts.
  destruct Hvalid as (H1 & H2 & H3 & H4 & H5 & H6). change 2 with (2 ^ 1) in H3.
  cbn [Codec.extract_cart_opcode]. reg_bits i Hi.
  replace (i + 48 - 48) with i by lia. window i 8; reflexivity.
Qed.

Lemma extract_RT1 :
  Codec.extract_cart_opcode (Codec.create_cart_opcode ky1 ky2 ret cart frame resv)
    Codec.CART_REG_RT1 = ret.
Proof.
  rewrite create_cart_opcode_shifts.
  destruct Hvalid as (H1 & H2 & H3 & H4 & H5 & H6). change 2 with (2 ^ 1) in H3.
  cbn [Codec.extract_cart_opcode]. reg_bits i Hi.
  replace (i + 47 - 47) with i by lia. window i 1; reflexivity.
Qed.

Lemma extract_CT1 :
  Codec.extract_cart_opcode (Codec.create_cart_opcode ky1 ky2 ret cart frame resv)
    Codec.CART_REG_CT1 = cart.
Proof.
  rewrite create_cart_opcode_shifts.
  destruct Hvalid as (H1 & H2 & H3 & H4 & H5 & H6). change 2 with (2 ^ 1) in H3.
  cbn [Codec.extract_cart_opcode]. reg_bits i Hi.
  replace (i + 31 - 31) with i by lia. window i 16; reflexivity.
Qed.

Lemma extract_FM1 :
  Codec.extract_cart_opcode (Codec.create_cart_opcode ky1 ky2 ret cart frame resv)
    Codec.CART_REG_FM1 = frame.
Proof.
  rewrite create_cart_opcode_shifts.
  destruct Hvalid as (H1 & H2 & H3 & H4 & H5 & H6). change 2 with (2 ^ 1) in H3.
  cbn [Codec.extract_cart_opcode]. reg_bits i Hi.
  replace (i + 15 - 15) with i by lia. window i 16; reflexivity.
Qed.

End CodecRoundTrip.

(** C3 (as amended).  For every field tuple within the layout's widths, each
    of the five selectors of [extract_cart_opcode] returns, from the register
    built by [create_cart_opcode], the value the tuple had for that field:
    KY1 the command, KY2 the secondary key, RT1 the return flag, CT1 the
    cartridge and FM1 the frame. *)
Theorem codec_roundtrip_selectors (ky1 ky2 ret cart frame resv : Z) :
  Codec.valid_fields ky1 ky2 ret cart frame resv ->
  let reg := Codec.create_cart_opcode ky1 ky2 ret cart frame resv in
  Codec.extract_cart_opcode reg Codec.CART_REG_KY1 = ky1 /\
  Codec.extract_cart_opcode reg Codec.CART_REG_KY2 = ky2 /\
  Codec.extract_cart_opcode reg Codec.CART_REG_RT1 = ret /\
  Codec.extract_cart_opcode reg Codec.CART_REG_CT1 = cart /\
  Codec.extract_cart_opcode reg Codec.CART_REG_FM1 = frame.
Proof.
  intros Hv reg. subst reg.
  repeat split;
    [ apply extract_KY1 | apply extract_KY2 | apply extract_RT1
    | apply extract_CT1 | apply extract_FM1 ]; exact Hv.
Qed.

Lemma codec_roundtrip_selectors_witness :
  Codec.valid_fields 4 0 1 63 1023 5 /\
  Codec.extract_cart_opcode (Codec.create_cart_opcode 4 0 1 63 1023 5) Codec.CART_REG_CT1 = 63.
Proof.
  assert (Hv : Codec.valid_fields 4 0 1 63 1023 5) by (unfold Codec.valid_fields; lia).
  split; [exact Hv |].
  exact (proj1 (proj2 (proj2 (proj2 (codec_roundtrip_selectors 4 0 1 63 1023 5 Hv))))).
Defined.

(** C3 (as stated) fails for the reserved field: no selector of
    [extract_cart_opcode] gives back the reserved value 5 of the valid tuple
    (1, 0, 0, 0, 0, 5); the default branch returns the whole register. *)
Lemma codec_reserved_not_extractable :
  Codec.valid_fields 1 0 0 0 0 5 /\
  ~ (exists sel, Codec.extract_cart_opcode (Codec.create_cart_opcode 1 0 0 0 0 5) sel = 5).
Proof.
  split; [unfold Codec.valid_fields; lia |].
  intros [sel H]. destruct sel; vm_compute in H; discriminate H.
Qed.

(** ** The frame cache *)

(** The scenario of C4 runs as the claim describes it: B, at (0,1), is the
    entry evicted, and the cache then holds A at (0,0) and C at (0,2). *)
Lemma lru_scenario :
  returned (Run.put_cart_cache (Run.fresh_cache 2) 0 0 Run.A) = Ret 0 /\
  returned (Run.put_cart_cache Run.cache_A 0 1 Run.B) = Ret 0 /\
  returned (Cache.get_cart_cache Run.cache_AB 0 0) = Ret (Some (65 :: repeat 0 1023%nat)) /\
  returned (Run.put_cart_cache Run.cache_AB_got 0 2 Run.C) = Ret 0 /\
  Cache.contents Run.cache_AB_got = [Some (0, 0, [65], 3); Some (0, 1, [66], 2)] /\
  Cache.contents Run.cache_AC = [Some (0, 0, [65], 3); Some (0, 2, [67], 5)].
Proof. split_and!; vm_compute; reflexivity. Qed.

(** C4.  The rule of the claim, that [put_cart_cache] with no free slot evicts
    the entry in use with the smallest recency counter, fails on a cache of
    two frames after put(0,0,A); put(0,0,B); get(0,0): the entries have
    counters 3 and 2, and put(0,1,C) evicts the first one, whose counter is
    the larger, leaving the entry with counter 2 in place. *)
Lemma put_evicts_refreshed_entry :
  returned (Run.put_cart_cache (Run.fresh_cache 2) 0 0 Run.A) = Ret 0 /\
  returned (Run.put_cart_cache Run.cache_A 0 0 Run.B) = Ret 0 /\
  returned (Run.put_cart_cache Run.cache_twice_got 0 1 Run.C) = Ret 0 /\
  Cache.contents Run.cache_twice_got = [Some (0, 0, [65], 3); Some (0, 0, [66], 2)] /\
  Cache.contents Run.cache_twice_C = [Some (0, 1, [67], 5); Some (0, 0, [66], 2)].
Proof. split_and!; vm_compute; reflexivity. Qed.

(** C8.  On a cache of two frames just initialised no entry is in use, so the
    address (0,0) is absent from it; [get_cart_cache] for (0,0) nevertheless
    returns a pointer, to the zeroed frame of slot 0, and not NULL. *)
Lemma get_cart_cache_returns_unused_slot :
  Cache.absent (Run.fresh_cache 2) 0 0 /\
  exists c', Cache.get_cart_cache (Run.fresh_cache 2) 0 0 = Ret (Some (repeat 0 1024%nat), c').
Proof.
  split.
  - intros t l H. apply list_elem_of_In in H. vm_compute in H.
    destruct H as [H | [H | H]]; [discriminate H | discriminate H | exact H].
  - eexists. vm_compute. reflexivity.
Qed.

(** The same for every frame size and every cache size that
    [set_cart_cache_size] accepts: the cache just initialised has no entry in
    use, and [get_cart_cache] for (0,0) returns its first, zeroed, frame. *)
Lemma get_cart_cache_on_fresh_cache (CART_FRAME_SIZE : nat) (n : Z) :
  0 < n <= Cache.CACHE_MAX_OPEN_FILES ->
  let c := (Cache.init_cart_cache CART_FRAME_SIZE
              (Cache.set_cart_cache_size (Cache.startup CART_FRAME_SIZE) n).2).2 in
  Cache.contents c = repeat None (Z.to_nat n) /\
  exists c', Cache.get_cart_cache c 0 0 = Ret (Some (repeat 0 CART_FRAME_SIZE), c').
Proof.
  intros Hn. unfold Cache.CACHE_MAX_OPEN_FILES in Hn.
  unfold Cache.set_cart_cache_size, Cache.startup, u32.
  rewrite Z.mod_small by lia.
  replace (n <? 0) with false by (symmetry; apply Z.ltb_ge; lia).
  replace (n >? Cache.CACHE_MAX_OPEN_FILES) with false
    by (symmetry; rewrite Z.gtb_ltb; apply Z.ltb_ge; unfold Cache.CACHE_MAX_OPEN_FILES; lia).
  replace (n =? 0) with false by (symmetry; apply Z.eqb_neq; lia).
  cbn [orb snd Cache.init_cart_cache Cache.cacheInit Cache.cacheMemory Cache.cacheSize
       Cache.last_cached_frame Cache.lruCounter].
  split.
  - unfold Cache.contents. cbn [Cache.cacheMemory].
    induction (Z.to_nat n) as [| k IH]; [reflexivity |].
    cbn [repeat fmap list_fmap]. cbn [repeat fmap list_fmap] in IH. rewrite IH. reflexivity.
  - unfold Cache.get_cart_cache. cbv zeta.
    cbn [Cache.bump Cache.cacheMemory Cache.cacheSize Cache.lruCounter
         Cache.last_cached_frame Cache.cacheInit].
    destruct (Z.to_nat n) as [| k] eqn:Ek; [lia |].
    cbn [Cache.find_tag Cache.slot Cache.cacheMemory repeat lookup list_lookup
         mbind outcome_bind obind].
    change (Cache.cacheHandle (Cache.wiped CART_FRAME_SIZE)
            =? Cache.create_cache_tag (u16 0) (u16 0)) with true.
    cbn [mbind outcome_bind obind Cache.slot Cache.cacheMemory repeat lookup list_lookup].
    eexists. reflexivity.
Qed.

(** ** The transport client *)

Section ClientWriteFrame.
Variables CART_OP_INITMS CART_OP_BZERO CART_OP_LDCART
          CART_OP_RDFRME CART_OP_WRFRME CART_OP_POWOFF : Z.
Variable CART_FRAME_SIZE : nat.
Variable CART_DEFAULT_IP : string.
Variable CART_DEFAULT_PORT : Z.

Let request (st : Client.ClientState) (reg : Z) (buf : option (list Z)) :=
  Client.client_cart_bus_request CART_OP_INITMS CART_OP_BZERO CART_OP_LDCART
    CART_OP_RDFRME CART_OP_WRFRME CART_OP_POWOFF CART_FRAME_SIZE CART_DEFAULT_IP
    CART_DEFAULT_PORT st reg buf.

(** C2.  Whatever the operating system answers, the calls that
    [client_cart_bus_request] makes for a WRITE-FRAME register are an initial
    part of: write the register, write the length field (the frame size),
    then read a frame into the caller's buffer, read the response register,
    read the length, read a frame.  The third call is a [read], not a
    [write]: the payload is never sent. *)
Theorem write_frame_payload_is_read (os : list Client.syscall -> Client.sysret)
    (st : Client.ClientState) (reg : Z) (buf : option (list Z)) :
  Codec.extract_cart_opcode reg Codec.CART_REG_KY1 mod 2 ^ 8 = CART_OP_WRFRME ->
  CART_OP_WRFRME <> CART_OP_INITMS -> CART_OP_WRFRME <> CART_OP_BZERO ->
  CART_OP_WRFRME <> CART_OP_LDCART -> CART_OP_WRFRME <> CART_OP_RDFRME ->
  (Client.run os [] (request st reg buf)).1
    `prefix_of` Client.write_frame_calls CART_FRAME_SIZE (Client.client_socket st) reg.
Proof.
  intros Hreq H1 H2 H3 H4.
  unfold request, Client.client_cart_bus_request. rewrite Hreq.
  destruct (Client.client_socket st =? -1); cbn [negb Client.run fst]; [| by eexists].
  rewrite (proj2 (Z.eqb_neq _ _) H1), (proj2 (Z.eqb_neq _ _) H2),
    (proj2 (Z.eqb_neq _ _) H3), (proj2 (Z.eqb_neq _ _) H4), Z.eqb_refl.
  unfold Client.write_frame_calls.
  repeat first
    [ progress unfold Client.send_value, Client.recv_frame, Client.read_payload,
        Client.recv_value
    | progress cbn [Client.run app fst]
    | match goal with
      | |- context [if ?b then _ else _] => destruct b
      end ];
    by eexists.
Qed.

End ClientWriteFrame.

Lemma write_frame_payload_is_read_witness :
  (Client.run Client.obliging_os []
     (Client.client_cart_bus_request 0 1 2 3 4 5 1024 "127.0.0.1" 16384 Client.startup
        (Codec.create_cart_opcode 4 0 0 0 7 0) (Some (repeat 120 1024%nat)))).1
    `prefix_of` Client.write_frame_calls 1024 (-1) (Codec.create_cart_opcode 4 0 0 0 7 0).
Proof.
  apply (write_frame_payload_is_read 0 1 2 3 4 5 1024 "127.0.0.1" 16384 Client.obliging_os
           Client.startup (Codec.create_cart_opcode 4 0 0 0 7 0) (Some (repeat 120 1024%nat)));
    [reflexivity | lia | lia | lia | lia].
Defined.

(** With that operating system the exchange makes five calls: the frame of
    1024 bytes [120] is never written, and the buffer comes back overwritten
    by what the third call read. *)
Lemma write_frame_run :
  Client.run Client.obliging_os []
    (Client.client_cart_bus_request 0 1 2 3 4 5 1024 "127.0.0.1" 16384 Client.startup
       (Codec.create_cart_opcode 4 0 0 0 7 0) (Some (repeat 120 1024%nat)))
  = ([ Client.sys_write (-1) [4; 0; 0; 0; 0; 3; 128; 0];
       Client.sys_write (-1) [0; 0; 0; 0; 0; 0; 4; 0];
       Client.sys_read (-1) 1024;
       Client.sys_read (-1) 8;
       Client.sys_read (-1) 8 ],
     (0, Some (repeat 0 1024%nat), Client.mkClientState (-1) 16384 NO)).
Proof. vm_compute. reflexivity. Qed.

(** ** Computations that use no fuel *)

Lemma strlen_no_fuel (s : list Z) : strlen s <> Fuel.
Proof.
  induction s as [| c s IH]; cbn; [discriminate |].
  destruct (c =? 0); [discriminate |].
  destruct (strlen s); cbn; congruence.
Qed.

Lemma write_bytes_no_fuel (dest : list Z) (off : nat) (data : list Z) :
  write_bytes dest off data <> Fuel.
Proof.
  unfold write_bytes. destruct data; [discriminate |].
  destruct (_ <=? _)%nat; discriminate.
Qed.

Lemma read_bytes_no_fuel (src : list Z) (off n : nat) : read_bytes src off n <> Fuel.
Proof.
  unfold read_bytes. destruct n; [discriminate |].
  destruct (_ <=? _)%nat; discriminate.
Qed.

Lemma slot_no_fuel (c : Cache.CacheState) (i : nat) : Cache.slot c i <> Fuel.
Proof.
  unfold Cache.slot. destruct (Cache.cacheMemory c) as [mem |]; [| discriminate].
  destruct (mem !! i); discriminate.
Qed.

Lemma find_tag_no_fuel (c : Cache.CacheState) (tag : Z) (k i : nat) :
  Cache.find_tag c tag i k <> Fuel.
Proof.
  revert i. induction k as [| k IH]; intros i; cbn [Cache.find_tag]; [discriminate |].
  pose proof (slot_no_fuel c i) as Hs.
  destruct (Cache.slot c i) as [e | |]; cbn [mbind outcome_bind obind];
    [| discriminate | congruence].
  destruct (Cache.cacheHandle e =? tag); [discriminate | apply IH].
Qed.

Lemma get_cart_cache_no_fuel (c : Cache.CacheState) (cart frm : Z) :
  Cache.get_cart_cache c cart frm <> Fuel.
Proof.
  unfold Cache.get_cart_cache.
  match goal with |- context [Cache.find_tag ?c' ?t ?i ?k] =>
    pose proof (find_tag_no_fuel c' t k i) as Hf;
    destruct (Cache.find_tag c' t i k) as [[j |] | |]
  end; cbn [mbind outcome_bind obind]; try discriminate; try congruence.
  match goal with |- context [Cache.slot ?c' ?j] =>
    pose proof (slot_no_fuel c' j) as Hs; destruct (Cache.slot c' j)
  end; cbn [mbind outcome_bind obind]; try discriminate; congruence.
Qed.

(** ** [put_cart_cache] ends within its two passes *)

Lemma strncpy_no_fuel (n : nat) : forall src, strncpy n src <> Fuel.
Proof.
  induction n as [| n IH]; intros src; cbn [strncpy]; [discriminate |].
  destruct src as [| c src]; [discriminate |].
  destruct (c =? 0); [discriminate |].
  specialize (IH src). destruct (strncpy n src); cbn; congruence.
Qed.

Lemma find_unused_no_fuel (c : Cache.CacheState) (k : nat) :
  forall i, Cache.find_unused c i k <> Fuel.
Proof.
  induction k as [| k IH]; intros i; cbn [Cache.find_unused]; [discriminate |].
  pose proof (slot_no_fuel c i) as Hs.
  destruct (Cache.slot c i) as [e | |]; cbn [mbind outcome_bind obind];
    [| discriminate | congruence].
  destruct (Cache.isUsed e); [apply IH | discriminate].
Qed.

Lemma find_lru_no_fuel (c : Cache.CacheState) (k : nat) :
  forall i temp, Cache.find_lru c temp i k <> Fuel.
Proof.
  induction k as [| k IH]; intros i temp; cbn [Cache.find_lru]; [discriminate |].
  pose proof (slot_no_fuel c i) as Hs.
  destruct (Cache.slot c i) as [e | |]; cbn [mbind outcome_bind obind];
    [| discriminate | congruence].
  destruct temp as [[temp_lru temp_cart] temp_frame].
  destruct (Cache.lru e <? temp_lru); apply IH.
Qed.

(** A hit of the tag loop lies among the entries scanned. *)
Lemma find_tag_hit (c : Cache.CacheState) (tag : Z) (k : nat) :
  forall i0 i, Cache.find_tag c tag i0 k = Ret (Some i) ->
  (i0 <= i < i0 + k)%nat /\ exists e, Cache.slot c i = Ret e /\ Cache.cacheHandle e = tag.
Proof.
  induction k as [| k IH]; intros i0 i H; cbn [Cache.find_tag] in H; [discriminate H |].
  destruct (Cache.slot c i0) as [e | |] eqn:Es; cbn [mbind outcome_bind obind] in H;
    try discriminate H.
  destruct (Z.eqb_spec (Cache.cacheHandle e) tag) as [Ht | Ht].
  - injection H as <-. split; [lia | eauto].
  - apply IH in H as [Hi He]. split; [lia | exact He].
Qed.

(** The search for a free entry does not come back empty-handed when one of
    the entries it scans is not in use. *)
Lemma find_unused_finds (c : Cache.CacheState) (i : nat) (e : Cache.CacheTable) (k : nat) :
  Cache.slot c i = Ret e -> Cache.isUsed e = NO ->
  forall i0, (i0 <= i < i0 + k)%nat -> Cache.find_unused c i0 k <> Ret None.
Proof.
  intros Hs Hu. induction k as [| k IH]; intros i0 Hi; [lia |].
  cbn [Cache.find_unused].
  destruct (Nat.eq_dec i0 i) as [-> | Hne].
  - rewrite Hs. cbn [mbind outcome_bind obind]. rewrite Hu. discriminate.
  - destruct (Cache.slot c i0) as [e0 | |]; cbn [mbind outcome_bind obind];
      try discriminate.
    destruct (Cache.isUsed e0); [apply IH; lia | discriminate].
Qed.

Lemma slot_set_slot (c : Cache.CacheState) (i : nat) (e e' : Cache.CacheTable) :
  Cache.slot c i = Ret e -> Cache.slot (Cache.set_slot c i e') i = Ret e'.
Proof.
  unfold Cache.slot, Cache.set_slot, Cache.with_memory. cbn [Cache.cacheMemory].
  destruct (Cache.cacheMemory c) as [mem |]; [| discriminate]. cbn [option_map].
  destruct (mem !! i) eqn:E; [| discriminate]. intros _.
  rewrite list_lookup_insert_eq by (eapply lookup_lt_Some; exact E). reflexivity.
Qed.

Section PutEnds.
Variable CART_FRAME_SIZE : nat.

(** After [delete_cart_cache] has removed an entry, the search of
    [put_cart_cache] finds a free one. *)
Lemma delete_frees_a_slot (c c1 : Cache.CacheState) (cart blk : Z) (frame : list Z) :
  Cache.delete_cart_cache CART_FRAME_SIZE c cart blk = Ret (Some frame, c1) ->
  Cache.cacheSize c1 = Cache.cacheSize c /\
  Cache.find_unused c1 0 (Z.to_nat (Cache.cacheSize c1)) <> Ret None.
Proof.
  unfold Cache.delete_cart_cache. intros H.
  destruct (Cache.find_tag _ _ _ _) as [[i |] | |] eqn:Et;
    cbn [mbind outcome_bind obind] in H; try discriminate H.
  apply find_tag_hit in Et as [Hi (e & He & _)]. rewrite He in H.
  cbn [mbind outcome_bind obind] in H.
  destruct (read_bytes _ _ _) as [saved | |]; cbn [mbind outcome_bind obind] in H;
    try discriminate H.
  injection H as _ <-. split; [reflexivity |].
  eapply find_unused_finds with (i := i) (e := Cache.wiped CART_FRAME_SIZE).
  - eapply slot_set_slot. unfold Cache.slot in *. cbn [Cache.cacheMemory]. exact He.
  - reflexivity.
  - cbn [Cache.set_slot Cache.with_memory Cache.cacheSize Cache.bump] in *. lia.
Qed.

Lemma delete_cart_cache_no_fuel (c : Cache.CacheState) (cart blk : Z) :
  Cache.delete_cart_cache CART_FRAME_SIZE c cart blk <> Fuel.
Proof.
  unfold Cache.delete_cart_cache.
  match goal with |- context [Cache.find_tag ?c' ?t ?i ?k] =>
    pose proof (find_tag_no_fuel c' t k i) as Hf;
    destruct (Cache.find_tag c' t i k) as [[j |] | |]
  end; cbn [mbind outcome_bind obind]; try discriminate; try congruence.
  match goal with |- context [Cache.slot ?c' ?j] =>
    pose proof (slot_no_fuel c' j) as Hs; destruct (Cache.slot c' j) as [e | |]
  end; cbn [mbind outcome_bind obind]; try discriminate; try congruence.
  match goal with |- context [read_bytes ?a ?b ?n] =>
    pose proof (read_bytes_no_fuel a b n) as Hr; destruct (read_bytes a b n)
  end; cbn [mbind outcome_bind obind]; try discriminate; congruence.
Qed.

(** [put_cart_cache] always ends within the two passes the model gives it. *)
Theorem put_cart_cache_no_fuel (c : Cache.CacheState) (cart frm : Z) (buf : list Z) :
  Cache.put_cart_cache CART_FRAME_SIZE c cart frm buf <> Fuel.
Proof.
  unfold Cache.put_cart_cache. cbn [Cache.put_loop].
  set (c0 := Cache.bump c).
  pose proof (find_unused_no_fuel c0 (Z.to_nat (Cache.cacheSize c0)) 0) as Hf.
  destruct (Cache.find_unused c0 _ _) as [[i |] | |]; cbn [mbind outcome_bind obind];
    try discriminate; try congruence.
  - pose proof (strncpy_no_fuel CART_FRAME_SIZE buf) as Hs.
    destruct (strncpy _ _); cbn [mbind outcome_bind obind]; try discriminate; congruence.
  - destruct (Cache.cacheSize c0 =? 0); [discriminate |].
    pose proof (slot_no_fuel c0 0) as Hs.
    destruct (Cache.slot c0 0) as [e0 | |]; cbn [mbind outcome_bind obind];
      try discriminate; try congruence.
    match goal with |- context [Cache.find_lru ?a ?t ?i ?k] =>
      pose proof (find_lru_no_fuel a k i t) as Hl;
      destruct (Cache.find_lru a t i k) as [[[l vc] vf] | |]
    end; cbn [mbind outcome_bind obind]; try discriminate; try congruence.
    pose proof (delete_cart_cache_no_fuel c0 vc vf) as Hd.
    destruct (Cache.delete_cart_cache _ c0 vc vf) as [[[frame |] c1] | |] eqn:Ed;
      cbn [mbind outcome_bind obind]; try discriminate; try congruence.
    apply delete_frees_a_slot in Ed as [_ Hfree].
    pose proof (find_unused_no_fuel c1 (Z.to_nat (Cache.cacheSize c1)) 0) as Hf1.
    destruct (Cache.find_unused c1 _ _) as [[i |] | |]; cbn [mbind outcome_bind obind];
      try discriminate; try congruence.
    pose proof (strncpy_no_fuel CART_FRAME_SIZE buf) as Hs1.
    destruct (strncpy _ _); cbn [mbind outcome_bind obind]; try discriminate; congruence.
Qed.

End PutEnds.

(** ** Eviction from a cache whose entries hold distinct addresses *)

Section Eviction.
Variable CART_FRAME_SIZE : nat.
Variable c : Cache.CacheState.
Variable mem : list Cache.CacheTable.
Hypothesis Hmem : Cache.cacheMemory c = Some mem.

Lemma slot_lookup (i : nat) (e : Cache.CacheTable) :
  mem !! i = Some e -> Cache.slot c i = Ret e.
Proof. intros H. unfold Cache.slot. rewrite Hmem, H. reflexivity. Qed.

(** With every entry in use the search for a free one fails. *)
Lemma find_unused_all_used (k : nat) :
  (forall j e, mem !! j = Some e -> Cache.isUsed e = YES) ->
  forall i0, (i0 + k <= length mem)%nat -> Cache.find_unused c i0 k = Ret None.
Proof.
  intros Hused. induction k as [| k IH]; intros i0 Hk; [reflexivity |].
  cbn [Cache.find_unused].
  destruct (lookup_lt_is_Some_2 mem i0 ltac:(lia)) as [e He].
  rewrite (slot_lookup _ _ He). cbn [mbind outcome_bind obind].
  rewrite (Hused _ _ He). apply IH. lia.
Qed.

(** The search stops at the first entry that is not in use. *)
Lemma find_unused_first (v : nat) (e : Cache.CacheTable) (k : nat) :
  mem !! v = Some e -> Cache.isUsed e = NO ->
  (forall j e', (j < v)%nat -> mem !! j = Some e' -> Cache.isUsed e' = YES) ->
  forall i0, (i0 <= v < i0 + k)%nat -> Cache.find_unused c i0 k = Ret (Some v).
Proof.
  intros Hv Hno Hbefore. induction k as [| k IH]; intros i0 Hi; [lia |].
  cbn [Cache.find_unused].
  destruct (Nat.eq_dec i0 v) as [-> | Hne].
  - rewrite (slot_lookup _ _ Hv). cbn [mbind outcome_bind obind]. rewrite Hno. reflexivity.
  - destruct (lookup_lt_is_Some_2 mem i0) as [e0 He0];
      [apply lookup_lt_Some in Hv; lia |].
    rewrite (slot_lookup _ _ He0). cbn [mbind outcome_bind obind].
    rewrite (Hbefore i0 e0 ltac:(lia) He0). apply IH. lia.
Qed.

(** The tag loop stops at the one entry that carries the tag. *)
Lemma find_tag_unique (v : nat) (e : Cache.CacheTable) (k : nat) :
  mem !! v = Some e ->
  (forall j e', mem !! j = Some e' -> Cache.cacheHandle e' = Cache.cacheHandle e -> j = v) ->
  forall i0, (i0 <= v < i0 + k)%nat ->
  Cache.find_tag c (Cache.cacheHandle e) i0 k = Ret (Some v).
Proof.
  intros Hv Huniq. induction k as [| k IH]; intros i0 Hi; [lia |].
  cbn [Cache.find_tag].
  destruct (Nat.eq_dec i0 v) as [-> | Hne].
  - rewrite (slot_lookup _ _ Hv). cbn [mbind outcome_bind obind].
    rewrite Z.eqb_refl. reflexivity.
  - destruct (lookup_lt_is_Some_2 mem i0) as [e0 He0];
      [apply lookup_lt_Some in Hv; lia |].
    rewrite (slot_lookup _ _ He0). cbn [mbind outcome_bind obind].
    destruct (Z.eqb_spec (Cache.cacheHandle e0) (Cache.cacheHandle e)) as [Heq | _].
    + exfalso. apply Hne. eapply Huniq; eassumption.
    + apply IH. lia.
Qed.

(** The victim scan of [put_cart_cache] keeps that entry in [temp]. *)
Lemma find_lru_least (k : nat) :
  forall i0 b eb, Cache.lru_among mem i0 b eb -> (i0 + k <= length mem)%nat ->
  exists v ev, Cache.lru_among mem (i0 + k) v ev /\
    Cache.find_lru c (Cache.lru eb, Cache.cartIndex eb, Cache.frameIndex eb) i0 k
      = Ret (Cache.lru ev, Cache.cartIndex ev, Cache.frameIndex ev).
Proof.
  induction k as [| k IH]; intros i0 b eb Hb Hk.
  - exists b, eb. rewrite Nat.add_0_r. split; [exact Hb | reflexivity].
  - cbn [Cache.find_lru].
    destruct (lookup_lt_is_Some_2 mem i0 ltac:(lia)) as [e He].
    rewrite (slot_lookup _ _ He). cbn [mbind outcome_bind obind].
    destruct Hb as (Hbm & Hmin & Hfirst).
    replace (i0 + S k)%nat with (S i0 + k)%nat by lia.
    destruct (Z.ltb_spec (Cache.lru e) (Cache.lru eb)) as [Hlt | Hge].
    + apply (IH (S i0) i0 e); [| lia]. split; [exact He |]. split.
      * intros j e' Hj He'. destruct (Nat.eq_dec j i0) as [-> | Hne].
        -- rewrite He in He'. injection He' as <-. lia.
        -- specialize (Hmin j e' ltac:(lia) He'). lia.
      * intros j e' Hj He'. specialize (Hmin j e' Hj He'). lia.
    + apply (IH (S i0) b eb); [| lia]. split; [exact Hbm |]. split; [| exact Hfirst].
      intros j e' Hj He'. destruct (Nat.eq_dec j i0) as [-> | Hne].
      * rewrite He in He'. injection He' as <-. lia.
      * apply (Hmin j e'); [lia | exact He'].
Qed.

End Eviction.

Lemma create_cache_tag_u16 (cart frame : Z) :
  Cache.create_cache_tag (u16 cart) (u16 frame) = Cache.create_cache_tag cart frame.
Proof.
  unfold Cache.create_cache_tag, u16. rewrite !Z.mod_mod by lia. reflexivity.
Qed.

(** X5.  When no entry is free, each entry carries the tag of its address, no
    two entries have the same tag and the frames have their size,
    [put_cart_cache] evicts the entry with the smallest recency counter, the
    lowest index winning a tie: the new frame takes its slot, with the
    counter of the call, and the other slots are as before. *)
Theorem put_evicts_least_recent (CART_FRAME_SIZE : nat) (c : Cache.CacheState)
    (mem : list Cache.CacheTable) (cart frm : Z) (buf frame : list Z) :
  Cache.cacheMemory c = Some mem ->
  Cache.cacheSize c = Z.of_nat (length mem) ->
  mem <> [] ->
  (forall j e, mem !! j = Some e ->
     Cache.isUsed e = YES /\
     Cache.cacheHandle e = Cache.create_cache_tag (Cache.cartIndex e) (Cache.frameIndex e) /\
     length (Cache.cachedFrame e) = CART_FRAME_SIZE) ->
  (forall i j e e', mem !! i = Some e -> mem !! j = Some e' ->
     Cache.cacheHandle e = Cache.cacheHandle e' -> i = j) ->
  strncpy CART_FRAME_SIZE buf = Ret frame ->
  exists v ev c',
    Cache.lru_among mem (length mem) v ev /\
    Cache.put_cart_cache CART_FRAME_SIZE c cart frm buf = Ret (0, c') /\
    Cache.cacheMemory c' =
      Some (<[v := Cache.mkCacheTable frame (Cache.create_cache_tag cart frm) (u16 cart)
                     (u16 frm) YES (Cache.lruCounter c + 2)]> mem) /\
    Cache.last_cached_frame c' = Cache.cachedFrame ev.
Proof.
  intros Hmem Hsize Hne Hwf Huniq Hcopy.
  set (c0 := Cache.bump c).
  assert (Hmem0 : Cache.cacheMemory c0 = Some mem) by exact Hmem.
  assert (Hn : Z.to_nat (Cache.cacheSize c0) = length mem)
    by (unfold c0; cbn [Cache.bump Cache.cacheSize]; rewrite Hsize; apply Nat2Z.id).
  destruct mem as [| e0 mem'] eqn:Emem; [congruence |]. rewrite <- Emem in *.
  assert (He0 : mem !! 0%nat = Some e0) by (rewrite Emem; reflexivity).
  assert (Hlen : (0 < length mem)%nat) by (rewrite Emem; cbn; lia).
  destruct (find_lru_least c0 mem Hmem0 (length mem) 0 0 e0) as (v & ev & Hv & Hscan).
  { split; [exact He0 |]. split; intros j e Hj; lia. }
  { lia. }
  cbn [Nat.add] in Hv. destruct Hv as (Hvm & Hmin & Hfirst).
  pose proof (lookup_lt_Some _ _ _ Hvm) as Hvlt.
  destruct (Hwf v ev Hvm) as (_ & Htag & Hfr).
  exists v, ev. eexists. split; [split; [exact Hvm | split; assumption] |].
  unfold Cache.put_cart_cache. fold c0. cbn [Cache.put_loop].
  rewrite Hn.
  rewrite (find_unused_all_used c0 mem Hmem0 (length mem)
             (fun j e H => proj1 (Hwf j e H)) 0 ltac:(lia)).
  cbn [mbind outcome_bind obind].
  replace (Cache.cacheSize c0 =? 0) with false
    by (symmetry; apply Z.eqb_neq; unfold c0; cbn [Cache.bump Cache.cacheSize]; lia).
  rewrite (slot_lookup c0 mem Hmem0 0 e0 He0). cbn [mbind outcome_bind obind].
  rewrite Hscan. cbn [mbind outcome_bind obind].
  unfold Cache.delete_cart_cache. cbv zeta.
  rewrite (create_cache_tag_u16 (Cache.cartIndex ev) (Cache.frameIndex ev)), <- Htag.
  rewrite (create_cache_tag_u16 cart frm).
  set (c1 := Cache.bump c0).
  assert (Hmem1 : Cache.cacheMemory c1 = Some mem) by exact Hmem.
  replace (Z.to_nat (Cache.cacheSize c1)) with (length mem) by (symmetry; exact Hn).
  rewrite (find_tag_unique c1 mem Hmem1 v ev (length mem) Hvm
             (fun j e' H Heq => Huniq j v e' ev H Hvm Heq) 0 ltac:(lia)).
  cbn [mbind outcome_bind obind].
  rewrite (slot_lookup c1 mem Hmem1 v ev Hvm). cbn [mbind outcome_bind obind].
  assert (Hread : read_bytes (Cache.cachedFrame ev) 0 CART_FRAME_SIZE
                  = Ret (Cache.cachedFrame ev)).
  { unfold read_bytes. destruct CART_FRAME_SIZE as [| n] eqn:En.
    - destruct (Cache.cachedFrame ev); [reflexivity | discriminate Hfr].
    - rewrite <- Hfr. cbn [Nat.add]. rewrite Nat.leb_refl. cbn [drop].
      rewrite firstn_all. reflexivity. }
  rewrite Hread. cbn [mbind outcome_bind obind].
  set (c2 := Cache.set_slot _ v _).
  set (mem2 := <[v := Cache.wiped CART_FRAME_SIZE]> mem).
  assert (Hmem2 : Cache.cacheMemory c2 = Some mem2).
  { subst c2. unfold Cache.set_slot, Cache.with_memory. cbn [Cache.cacheMemory].
    fold c1. rewrite Hmem1. reflexivity. }
  replace (Z.to_nat (Cache.cacheSize c2)) with (length mem) by (symmetry; exact Hn).
  rewrite (find_unused_first c2 mem2 Hmem2 v (Cache.wiped CART_FRAME_SIZE) (length mem)).
  - cbn [mbind outcome_bind obind]. rewrite Hcopy. cbn [mbind outcome_bind obind].
    split; [reflexivity |]. split; [| reflexivity].
    unfold Cache.set_slot, Cache.with_memory, c2, c1, c0, Cache.bump.
    cbn [Cache.cacheMemory Cache.lruCounter Cache.last_cached_frame Cache.cacheSize
         Cache.cacheInit option_map].
    rewrite Hmem. cbn [option_map]. rewrite list_insert_insert_eq.
    do 3 f_equal. lia.
  - subst mem2. apply list_lookup_insert_eq. exact Hvlt.
  - reflexivity.
  - intros j e' Hj He'. subst mem2.
    rewrite list_lookup_insert_ne in He' by lia. exact (proj1 (Hwf j e' He')).
  - lia.
Qed.

(** ** The file store *)

Lemma is_open_test (f : Driver.FileSystem) :
  (Driver.filehandle f >=? 0) && Driver.is_YES (Driver.openfile f) = true <-> Driver.is_open f.
Proof.
  unfold Driver.is_open, Driver.is_YES. rewrite andb_true_iff, Z.geb_le.
  destruct (Driver.openfile f); cbn; intuition congruence.
Qed.

Section FileStore.
Context {Dev : Type}.
Variable client_cart_bus_request : Dev -> Z -> option (list Z) -> Z * option (list Z) * Dev.
Variables CART_MAX_CARTRIDGES CART_CARTRIDGE_SIZE CART_FRAME_SIZE CART_MAX_PATH_LENGTH : nat.
Variables CART_OP_INITMS CART_OP_BZERO CART_OP_LDCART
          CART_OP_RDFRME CART_OP_WRFRME CART_OP_POWOFF : Z.
Variable uninit : nat -> Z.

Abbreviation State := (Driver.State Dev).
Abbreviation cart_write :=
  (Driver.cart_write client_cart_bus_request CART_MAX_CARTRIDGES CART_CARTRIDGE_SIZE
     CART_FRAME_SIZE CART_OP_LDCART CART_OP_RDFRME CART_OP_WRFRME).
Abbreviation cart_read :=
  (Driver.cart_read client_cart_bus_request CART_MAX_CARTRIDGES CART_CARTRIDGE_SIZE
     CART_FRAME_SIZE CART_OP_LDCART CART_OP_RDFRME uninit).

(** C10.  For a handle whose entry is not open, [cart_close] returns -1 and
    the whole state (file table, allocation table, cache, device) is the one
    before the call.  In every case, the allocation table, the cache, the
    device and the file count are as before, every entry other than [fd] is
    as before, and the entry [fd] changes only when it was open. *)
Theorem cart_close_not_open (st : State) (fd : Z) (f : Driver.FileSystem) :
  Driver.file st fd = Ret f ->
  (~ Driver.is_open f -> Driver.cart_close st fd = Ret (-1, st)) /\
  (forall r st', Driver.cart_close st fd = Ret (r, st') ->
     Driver.fileTable st' = Driver.fileTable st /\
     Driver.cache st' = Driver.cache st /\
     Driver.device st' = Driver.device st /\
     Driver.numFiles st' = Driver.numFiles st /\
     (forall i, i <> Z.to_nat fd ->
        Driver.fileSystem st' !! i = Driver.fileSystem st !! i) /\
     (st' <> st -> Driver.is_open f)).
Proof using Type.
  intros Hf. unfold Driver.cart_close. rewrite Hf. cbn [mbind outcome_bind obind].
  pose proof (is_open_test f) as Ht.
  destruct ((Driver.filehandle f >=? 0) && Driver.is_YES (Driver.openfile f)).
  - split; [intros Hn; exfalso; apply Hn, Ht; reflexivity |].
    intros r st' H. injection H as <- <-. cbn.
    split_and!; try reflexivity.
    + intros i Hi. apply list_lookup_insert_ne. congruence.
    + intros _. apply Ht. reflexivity.
  - split; [reflexivity |].
    intros r st' H. injection H as <- <-.
    split_and!; try reflexivity. intros Hne. congruence.
Qed.

(** C9, on a closed entry.  [cart_seek] never looks at the open flag: on an
    entry that is closed, with the length 0 that [cart_close] and
    [cart_poweron] leave, a seek to offset 0 returns 0. *)
Theorem cart_seek_closed_succeeds (st : State) (fd : Z) (f : Driver.FileSystem) :
  Driver.file st fd = Ret f ->
  Driver.openfile f = NO ->
  Driver.filelength f = 0 ->
  exists st', Driver.cart_seek st fd 0 = Ret (0, st').
Proof using Type.
  intros Hf _ Hlen. unfold Driver.cart_seek. rewrite Hf. cbn [mbind outcome_bind obind].
  rewrite Hlen. cbn. eexists. reflexivity.
Qed.

(** X17 (the rule of C9, on any entry, open or not).  [cart_seek] succeeds
    exactly when the offset is at most the length; it then sets the position to the offset and leaves the
    length, the allocation table, the cache and the device as they were; when
    it fails the state is the one before the call. *)
Lemma cart_seek_in_range (st : State) (fd loc : Z) (f : Driver.FileSystem) :
  Driver.file st fd = Ret f ->
  0 <= loc < 2 ^ 32 ->
  (Driver.filelength f < loc -> Driver.cart_seek st fd loc = Ret (-1, st)) /\
  (loc <= Driver.filelength f ->
   exists st' f',
     Driver.cart_seek st fd loc = Ret (0, st') /\
     Driver.file st' fd = Ret f' /\
     Driver.fileposition f' = loc /\
     Driver.filelength f' = Driver.filelength f /\
     Driver.fileTable st' = Driver.fileTable st /\
     Driver.cache st' = Driver.cache st /\
     Driver.device st' = Driver.device st).
Proof using Type.
  intros Hf Hloc. unfold Driver.cart_seek. rewrite Hf. cbn [mbind outcome_bind obind].
  unfold u32. rewrite Z.mod_small by exact Hloc.
  replace (loc <? 0) with false by (symmetry; apply Z.ltb_ge; lia). cbn [orb].
  split; intros Hcmp.
  - replace (loc >? Driver.filelength f) with true by (symmetry; apply Z.gtb_lt; lia).
    reflexivity.
  - replace (loc >? Driver.filelength f) with false
      by (symmetry; rewrite Z.gtb_ltb; apply Z.ltb_ge; lia).
    eexists _, (Driver.mkFileSystem (Driver.filename f) (Driver.filehandle f) loc
                  (Driver.filelength f) (Driver.cartIndex f) (Driver.frameIndex f)
                  (Driver.openfile f) (Driver.incart f)).
    split; [reflexivity |].
    split_and!; try reflexivity.
    unfold Driver.file in *. cbn [Driver.set_file Driver.with_files Driver.fileSystem].
    destruct (fd <? 0); [discriminate Hf |].
    destruct (Driver.fileSystem st !! Z.to_nat fd) eqn:E; [| discriminate Hf].
    rewrite list_lookup_insert_eq by (eapply lookup_lt_Some; exact E). reflexivity.
Qed.

Lemma file_no_fuel (st : State) (fd : Z) : Driver.file st fd <> Fuel.
Proof using Type.
  unfold Driver.file. destruct (fd <? 0); [discriminate |].
  destruct (_ !! _); discriminate.
Qed.

Lemma piece_no_fuel (tempFile : list (Z * Z)) (i : nat) : Driver.piece tempFile i <> Fuel.
Proof using Type. unfold Driver.piece. destruct (_ !! _); discriminate. Qed.

(** C7 (as amended).  On a handle that already has frames, a write that
    reaches past the current length is refused when the free slots of the
    allocation table are fewer than the frames of the old length plus the
    count; the call then returns -1 and the state (file table, allocation
    table, cache, device) is the one before the call. *)
Theorem cart_write_refused_unchanged (st : State) (fd count : Z) (buf : list Z)
    (f : Driver.FileSystem) (buf_size : nat) :
  Driver.file st fd = Ret f ->
  Driver.incart f = YES ->
  strlen buf = Ret buf_size ->
  CART_FRAME_SIZE <> 0%nat ->
  Driver.filelength f < u32 (Driver.fileposition f + count) ->
  Z.of_nat (length (Driver.free_slots CART_MAX_CARTRIDGES CART_CARTRIDGE_SIZE
                      (Driver.fileTable st)))
    < (u32 (Driver.filelength f + count) + Z.of_nat CART_FRAME_SIZE - 1)
        / Z.of_nat CART_FRAME_SIZE ->
  cart_write st fd buf count = Ret (-1, st).
Proof using Type.
  intros Hf Hin Hlen Hfs Hgrow Hfree.
  unfold Driver.cart_write. rewrite Hf. cbn [mbind outcome_bind obind].
  destruct (count <? 0); [reflexivity |].
  destruct (_ || _); [reflexivity |].
  destruct (negb _); [reflexivity |].
  rewrite Hlen, Hin. cbn [mbind outcome_bind obind].
  unfold Driver.check_table_space. rewrite Hf. cbn [mbind outcome_bind obind].
  replace (Driver.filelength f >=? u32 (Driver.fileposition f + count)) with false
    by (symmetry; rewrite Z.geb_leb; apply Z.leb_gt; exact Hgrow).
  unfold Driver.more_frames_than.
  replace (CART_FRAME_SIZE =? 0)%nat with false
    by (symmetry; apply Nat.eqb_neq; exact Hfs).
  rewrite (proj2 (Z.ltb_lt _ _) Hfree). reflexivity.
Qed.

(** The frame loop of [cart_read] leaves the file table alone and uses no
    fuel. *)
Lemma load_this_cart_files (st : State) (cart : Z) :
  Driver.fileSystem (Driver.load_this_cart client_cart_bus_request CART_OP_LDCART st cart).2
  = Driver.fileSystem st.
Proof using Type.
  unfold Driver.load_this_cart, Driver.bus.
  destruct (client_cart_bus_request _ _ _) as [[resp b] d].
  destruct (Driver.failed resp); reflexivity.
Qed.

Lemma read_file_frame_files (n : nat) :
  forall (st : State) tempFile the_cart the_frame iteration local cart_buffer,
  match Driver.read_file_frame client_cart_bus_request CART_FRAME_SIZE CART_OP_LDCART
          CART_OP_RDFRME n st tempFile the_cart the_frame iteration local cart_buffer with
  | Ret (inl st') | Ret (inr (st', _)) => Driver.fileSystem st' = Driver.fileSystem st
  | Undef => True
  | Fuel => False
  end.
Proof using Type.
  induction n as [| n IH]; intros st tempFile the_cart the_frame iteration local cart_buffer;
    cbn [Driver.read_file_frame]; [reflexivity |].
  pose proof (get_cart_cache_no_fuel (Driver.cache st) the_cart the_frame) as Hg.
  destruct (Cache.get_cart_cache _ _ _) as [[cache_buffer c] | |];
    cbn [mbind outcome_bind obind]; [| exact I | congruence].
  destruct cache_buffer as [frame |].
  - pose proof (strlen_no_fuel frame) as Hs.
    destruct (strlen frame) as [len | |]; cbn [mbind outcome_bind obind];
      [| exact I | congruence].
    match goal with |- context [write_bytes ?d ?o ?x] =>
      pose proof (write_bytes_no_fuel d o x) as Hw; destruct (write_bytes d o x)
    end; cbn [mbind outcome_bind obind]; [| exact I | congruence].
    match goal with |- context [Driver.read_file_frame _ _ _ _ n ?s ?t ?c ?f ?i ?l ?b] =>
      specialize (IH s t c f i l b);
      destruct (Driver.read_file_frame _ _ _ _ n s t c f i l b) as [[s' | [s' l']] | |]
    end; exact IH.
  - pose proof (piece_no_fuel tempFile iteration) as Hp.
    destruct (Driver.piece tempFile iteration) as [p | |]; cbn [mbind outcome_bind obind];
      [| exact I | congruence].
    match goal with |- context [if ?b then (?x, ?y) else (?u, ?v)] =>
      assert (Hfs : Driver.fileSystem (if b then (x, y) else (u, v)).2 = Driver.fileSystem st)
        by (destruct b; cbn [snd]; [rewrite load_this_cart_files |]; reflexivity);
      destruct (if b then (x, y) else (u, v)) as [the_cart' st1]
    end.
    cbn [snd] in Hfs. unfold Driver.bus.
    destruct (client_cart_bus_request _ _ _) as [[resp b] d].
    destruct (Driver.failed resp); [exact Hfs |].
    match goal with |- context [strlen ?x] =>
      pose proof (strlen_no_fuel x) as Hs; destruct (strlen x) as [len | |]
    end; cbn [mbind outcome_bind obind]; [| exact I | congruence].
    match goal with |- context [write_bytes ?d ?o ?x] =>
      pose proof (write_bytes_no_fuel d o x) as Hw; destruct (write_bytes d o x)
    end; cbn [mbind outcome_bind obind]; [| exact I | congruence].
    match goal with |- context [Driver.read_file_frame _ _ _ _ n ?s ?t ?c ?f ?i ?l ?b] =>
      specialize (IH s t c f i l b);
      destruct (Driver.read_file_frame _ _ _ _ n s t c f i l b) as [[s' | [s' l']] | |]
    end; try exact IH; rewrite IH; exact Hfs.
Qed.




(** C6, in general.  When the entry 0 is closed under another name,
    [cart_open] returns the handle 0 and opens that entry under the path,
    whatever the entries after it hold, an open entry of the same path
    included. *)
Lemma cart_open_takes_first_closed_entry (st : State) (p : string) (f0 : Driver.FileSystem) :
  0 < Driver.numFiles st ->
  Driver.file st 0 = Ret f0 ->
  Driver.openfile f0 = NO ->
  Driver.filename f0 <> p ->
  (String.length p + 1 <= CART_MAX_PATH_LENGTH)%nat ->
  Driver.cart_open CART_MAX_PATH_LENGTH st (Some p)
  = Ret (0, Driver.set_file st 0 (Driver.mkFileSystem p 0 0 0 0 0 YES (Driver.incart f0))).
Proof using Type.
  intros Hn Hf Hc Hname Hlen. unfold Driver.cart_open. cbn [Driver.open_loop].
  destruct (Z.to_nat (Driver.numFiles st)) as [| k] eqn:Ek; [lia |].
  cbn [Driver.open_scan]. change (Z.of_nat 0) with 0. rewrite Hf.
  cbn [mbind outcome_bind obind].
  replace (String.eqb p (Driver.filename f0)) with false
    by (symmetry; apply String.eqb_neq; congruence).
  unfold Driver.is_NO. rewrite Hc. cbn [Flag_eqb].
  rewrite (proj2 (Nat.leb_le _ _) Hlen). reflexivity.
Qed.

(** *** The bounds given to the loops of the model are enough *)

(** The scan of [cart_open] does not run to its end when one of the entries
    it visits is closed. *)
Lemma open_scan_meets_closed (st : State) (path : string) (i : nat) (f : Driver.FileSystem)
    (k : nat) :
  Driver.file st (Z.of_nat i) = Ret f -> Driver.openfile f = NO ->
  forall i0, (i0 <= i < i0 + k)%nat ->
  Driver.open_scan CART_MAX_PATH_LENGTH st path i0 k <> Ret None /\
  Driver.open_scan CART_MAX_PATH_LENGTH st path i0 k <> Fuel.
Proof using Type.
  intros Hf Hc. induction k as [| k IH]; intros i0 Hi; [lia |].
  cbn [Driver.open_scan].
  destruct (Nat.eq_dec i0 i) as [-> | Hne].
  - rewrite Hf. cbn [mbind outcome_bind obind].
    destruct (String.eqb path (Driver.filename f)); [split; discriminate |].
    unfold Driver.is_NO. rewrite Hc. cbn [Flag_eqb].
    destruct (_ <=? _)%nat; split; discriminate.
  - pose proof (file_no_fuel st (Z.of_nat i0)) as Hn.
    destruct (Driver.file st (Z.of_nat i0)) as [f0 | |]; cbn [mbind outcome_bind obind];
      [| split; discriminate | congruence].
    destruct (String.eqb path (Driver.filename f0)); [split; discriminate |].
    destruct (Driver.is_NO (Driver.openfile f0)); [| apply IH; lia].
    destruct (_ <=? _)%nat; split; discriminate.
Qed.

Lemma open_scan_no_fuel (st : State) (path : string) (k : nat) :
  forall i0, Driver.open_scan CART_MAX_PATH_LENGTH st path i0 k <> Fuel.
Proof using Type.
  induction k as [| k IH]; intros i0; cbn [Driver.open_scan]; [discriminate |].
  pose proof (file_no_fuel st (Z.of_nat i0)) as Hn.
  destruct (Driver.file st (Z.of_nat i0)) as [f0 | |]; cbn [mbind outcome_bind obind];
    [| discriminate | congruence].
  destruct (String.eqb path (Driver.filename f0)); [discriminate |].
  destruct (Driver.is_NO (Driver.openfile f0)); [| apply IH].
  destruct (_ <=? _)%nat; discriminate.
Qed.

(** X15.  [cart_open] ends: with a file count that is not negative, the
    call passes the label [check_file_system] at most twice, the second pass
    meeting the closed entry that [allocateNewFile] has added; so the two
    passes the model gives it are never used up. *)
Theorem cart_open_no_fuel (st : State) (path : option string) :
  0 <= Driver.numFiles st ->
  Driver.cart_open CART_MAX_PATH_LENGTH st path <> Fuel.
Proof using Type.
  intros Hn. destruct path as [p |]; [| discriminate].
  unfold Driver.cart_open. cbn [Driver.open_loop].
  pose proof (open_scan_no_fuel st p (Z.to_nat (Driver.numFiles st)) 0) as H1.
  destruct (Driver.open_scan _ st p 0 _) as [[res |] | |]; cbn [mbind outcome_bind obind];
    try discriminate; try congruence.
  cbn [Driver.allocateNewFile Z.eqb negb].
  set (st1 := Driver.mkState _ _ _ _ _).
  set (i := length (take (Z.to_nat (Driver.numFiles st)) (Driver.fileSystem st))).
  assert (Hblank : Driver.file st1 (Z.of_nat i) = Ret Driver.blank).
  { unfold Driver.file, st1. cbn [Driver.fileSystem].
    replace (Z.of_nat i <? 0) with false by (symmetry; apply Z.ltb_ge; lia).
    rewrite Nat2Z.id. subst i. rewrite list_lookup_middle by reflexivity. reflexivity. }
  assert (Hi : (0 <= i < 0 + Z.to_nat (Driver.numFiles st1))%nat).
  { subst i st1. cbn [Driver.numFiles]. rewrite length_take. lia. }
  destruct (open_scan_meets_closed st1 p i Driver.blank (Z.to_nat (Driver.numFiles st1))
              Hblank eq_refl 0%nat Hi) as [Hsome Hfuel].
  destruct (Driver.open_scan _ st1 p 0 _) as [[res |] | |]; cbn [mbind outcome_bind obind];
    try discriminate; congruence.
Qed.

Lemma set_slot_no_fuel (st : State) (the_cart the_frame : Z) (e : Driver.FileTable) :
  Driver.set_slot CART_MAX_CARTRIDGES CART_CARTRIDGE_SIZE st the_cart the_frame e <> Fuel.
Proof using Type. unfold Driver.set_slot. destruct (_ && _); discriminate. Qed.

Lemma table_slot_no_fuel (st : State) (the_cart the_frame : Z) :
  Driver.slot CART_MAX_CARTRIDGES CART_CARTRIDGE_SIZE st the_cart the_frame <> Fuel.
Proof using Type. unfold Driver.slot. destruct (_ && _); discriminate. Qed.

(** A frame written through takes at least one byte off the counter. *)
Lemma write_through_counts (st st' : State) (src : list Z) (counter counter' : Z)
    (iteration : nat) (the_cart the_frame : Z) (cart_buffer cart_buffer' : list Z) :
  (0 < CART_FRAME_SIZE)%nat -> 0 < counter ->
  Driver.write_through client_cart_bus_request CART_FRAME_SIZE CART_OP_LDCART CART_OP_WRFRME
    st src counter iteration the_cart the_frame cart_buffer
    = Ret (inr (st', counter', cart_buffer')) ->
  counter' <= counter - 1.
Proof using Type.
  intros Hfs Hc H. unfold Driver.write_through in H.
  destruct (read_bytes _ _ _); cbn [mbind outcome_bind obind] in H; try discriminate H.
  destruct (write_bytes _ _ _); cbn [mbind outcome_bind obind] in H; try discriminate H.
  destruct (Driver.bus _ _ _ _) as [[resp b] st1].
  destruct (Driver.failed resp); [discriminate H |].
  destruct (Cache.put_cart_cache _ _ _ _ _) as [[cacheResp c] | |];
    cbn [mbind outcome_bind obind] in H; try discriminate H.
  destruct (negb _); [discriminate H |].
  injection H as _ <- _.
  destruct (Z.leb_spec counter (Z.of_nat CART_FRAME_SIZE)); lia.
Qed.

Lemma write_through_no_fuel (st : State) (src : list Z) (counter : Z) (iteration : nat)
    (the_cart the_frame : Z) (cart_buffer : list Z) :
  Driver.write_through client_cart_bus_request CART_FRAME_SIZE CART_OP_LDCART CART_OP_WRFRME
    st src counter iteration the_cart the_frame cart_buffer <> Fuel.
Proof using Type.
  unfold Driver.write_through.
  match goal with |- context [read_bytes ?a ?b ?n] =>
    pose proof (read_bytes_no_fuel a b n) as Hr; destruct (read_bytes a b n)
  end; cbn [mbind outcome_bind obind]; try discriminate; try congruence.
  match goal with |- context [write_bytes ?a ?b ?n] =>
    pose proof (write_bytes_no_fuel a b n) as Hw; destruct (write_bytes a b n)
  end; cbn [mbind outcome_bind obind]; try discriminate; try congruence.
  destruct (Driver.bus _ _ _ _) as [[resp b] st1].
  destruct (Driver.failed resp); [discriminate |].
  match goal with |- context [Cache.put_cart_cache ?n ?c ?a ?b ?d] =>
    pose proof (put_cart_cache_no_fuel n c a b d) as Hp;
    destruct (Cache.put_cart_cache n c a b d) as [[cacheResp c'] | |]
  end; cbn [mbind outcome_bind obind]; try discriminate; try congruence.
  destruct (negb _); discriminate.
Qed.

(** FIRST WRITE ends when the fuel is at least the count of bytes left. *)
Lemma first_write_no_fuel (fuel : nat) :
  (0 < CART_FRAME_SIZE)%nat ->
  forall (st : State) fd buf count counter iteration the_cart the_frame cart_buffer,
  counter <= Z.of_nat fuel ->
  Driver.first_write client_cart_bus_request CART_MAX_CARTRIDGES CART_CARTRIDGE_SIZE
    CART_FRAME_SIZE CART_OP_LDCART CART_OP_WRFRME fuel st fd buf count counter iteration
    the_cart the_frame cart_buffer <> Fuel.
Proof using Type.
  intros Hfs. induction fuel as [| fuel IH];
    intros st fd buf count counter iteration the_cart the_frame cart_buffer Hc.
  - cbn [Driver.first_write]. destruct (Driver.search_file_table _ _ _ _ _).
    replace (counter <=? 0) with true by (symmetry; apply Z.leb_le; lia). discriminate.
  - cbn [Driver.first_write]. destruct (Driver.search_file_table _ _ _ _ _) as [c0 f0].
    destruct (Z.leb_spec counter 0) as [Hle | Hgt]; [discriminate |].
    pose proof (write_through_no_fuel st buf counter iteration c0 f0 cart_buffer) as Hw.
    destruct (Driver.write_through _ _ _ _ _ _ _ _ _ _ _) as [[st1 | [[st1 counter'] cb]] | |]
      eqn:Ew; cbn [mbind outcome_bind obind]; try discriminate; try congruence.
    apply write_through_counts in Ew; [| exact Hfs | exact Hgt].
    pose proof (file_no_fuel st1 fd) as Hf.
    destruct (Driver.file st1 fd) as [f | |]; cbn [mbind outcome_bind obind];
      try discriminate; try congruence.
    match goal with |- context [mbind _ ?m] =>
      assert (Hm : m <> Fuel);
      [ destruct (iteration =? 0)%nat;
        [ match goal with |- context [Driver.set_slot ?a ?b ?s ?c ?d ?e] =>
            pose proof (set_slot_no_fuel s c d e) as Hs;
            destruct (Driver.set_slot a b s c d e)
          end; cbn [mbind outcome_bind obind]; try discriminate; congruence
        | destruct (_ || _); [discriminate |];
          destruct (_ || _); [discriminate |];
          match goal with |- context [Driver.set_slot ?a ?b ?s ?c ?d ?e] =>
            pose proof (set_slot_no_fuel s c d e) as Hs;
            destruct (Driver.set_slot a b s c d e)
          end; cbn [mbind outcome_bind obind]; try discriminate; congruence ]
      | destruct m as [[st2 |] | |] ]
    end; cbn [mbind outcome_bind obind]; try discriminate; try congruence.
    pose proof (file_no_fuel st2 fd) as Hf2.
    destruct (Driver.file st2 fd) as [f2 | |]; cbn [mbind outcome_bind obind];
      try discriminate; try congruence.
    apply IH. lia.
Qed.

Lemma read_back_no_fuel (fuel : nat) :
  (0 < CART_FRAME_SIZE)%nat ->
  forall (st : State) tempFile counter iteration the_cart the_frame local cart_buffer,
  counter <= Z.of_nat fuel ->
  Driver.read_back client_cart_bus_request CART_MAX_CARTRIDGES CART_CARTRIDGE_SIZE
    CART_FRAME_SIZE CART_OP_LDCART CART_OP_RDFRME fuel st tempFile counter iteration
    the_cart the_frame local cart_buffer <> Fuel.
Proof using Type.
  intros Hfs. induction fuel as [| fuel IH];
    intros st tempFile counter iteration the_cart the_frame local cart_buffer Hc.
  - cbn [Driver.read_back].
    replace (counter <=? 0) with true by (symmetry; apply Z.leb_le; lia). discriminate.
  - cbn [Driver.read_back].
    destruct (Z.leb_spec counter 0) as [Hle | Hgt]; [discriminate |].
    pose proof (piece_no_fuel tempFile iteration) as Hp.
    destruct (Driver.piece tempFile iteration) as [p | |]; cbn [mbind outcome_bind obind];
      try discriminate; try congruence.
    match goal with |- context [if ?b then (?x, ?y) else (?u, ?v)] =>
      destruct (if b then (x, y) else (u, v)) as [the_cart' st1]
    end.
    destruct (Driver.bus _ _ _ _) as [[resp b] st2].
    destruct (Driver.failed resp); [discriminate |].
    match goal with |- context [Driver.slot ?a ?b ?s ?c ?d] =>
      pose proof (table_slot_no_fuel s c d) as Hs; destruct (Driver.slot a b s c d) as [e | |]
    end; cbn [mbind outcome_bind obind]; try discriminate; try congruence.
    match goal with |- context [Driver.set_slot ?a ?b ?s ?c ?d ?e] =>
      pose proof (set_slot_no_fuel s c d e) as Hs';
      destruct (Driver.set_slot a b s c d e) as [st3 | |]
    end; cbn [mbind outcome_bind obind]; try discriminate; try congruence.
    match goal with |- context [read_bytes ?a ?b ?n] =>
      pose proof (read_bytes_no_fuel a b n) as Hr; destruct (read_bytes a b n)
    end; cbn [mbind outcome_bind obind]; try discriminate; try congruence.
    match goal with |- context [write_bytes ?a ?b ?n] =>
      pose proof (write_bytes_no_fuel a b n) as Hw; destruct (write_bytes a b n)
    end; cbn [mbind outcome_bind obind]; try discriminate; try congruence.
    apply IH. lia.
Qed.

Lemma write_back_no_fuel (fuel : nat) :
  (0 < CART_FRAME_SIZE)%nat ->
  forall (st : State) fd local the_count counter iteration the_cart the_frame,
  counter <= Z.of_nat fuel ->
  Driver.write_back client_cart_bus_request CART_MAX_CARTRIDGES CART_CARTRIDGE_SIZE
    CART_FRAME_SIZE CART_OP_LDCART CART_OP_WRFRME fuel st fd local the_count counter
    iteration the_cart the_frame <> Fuel.
Proof using Type.
  intros Hfs. induction fuel as [| fuel IH];
    intros st fd local the_count counter iteration the_cart the_frame Hc.
  - cbn [Driver.write_back].
    replace (counter <=? 0) with true by (symmetry; apply Z.leb_le; lia). discriminate.
  - cbn [Driver.write_back].
    destruct (Z.leb_spec counter 0) as [Hle | Hgt]; [discriminate |].
    match goal with |- context [Driver.write_through ?a ?b ?c ?d ?s ?l ?n ?i ?x ?y ?z] =>
      pose proof (write_through_no_fuel s l n i x y z) as Hw;
      destruct (Driver.write_through a b c d s l n i x y z)
        as [[st1 | [[st1 counter'] cb]] | |] eqn:Ew
    end; cbn [mbind outcome_bind obind]; try discriminate; try congruence.
    apply write_through_counts in Ew; [| exact Hfs | exact Hgt].
    pose proof (file_no_fuel st1 fd) as Hf.
    destruct (Driver.file st1 fd) as [f | |]; cbn [mbind outcome_bind obind];
      try discriminate; try congruence.
    match goal with |- context [mbind _ ?m] =>
      assert (Hm : m <> Fuel);
      [ destruct (iteration =? 0)%nat;
        [ match goal with |- context [Driver.set_slot ?a ?b ?s ?c ?d ?e] =>
            pose proof (set_slot_no_fuel s c d e) as Hs;
            destruct (Driver.set_slot a b s c d e)
          end; cbn [mbind outcome_bind obind]; try discriminate; congruence
        | destruct (_ && _); [discriminate |];
          destruct (_ || _); [discriminate |];
          match goal with |- context [Driver.set_slot ?a ?b ?s ?c ?d ?e] =>
            pose proof (set_slot_no_fuel s c d e) as Hs;
            destruct (Driver.set_slot a b s c d e)
          end; cbn [mbind outcome_bind obind]; try discriminate; congruence ]
      | destruct m as [[st2 |] | |] ]
    end; cbn [mbind outcome_bind obind]; try discriminate; try congruence.
    destruct (Driver.search_file_table _ _ _ _ _) as [c1 f1].
    apply IH. lia.
Qed.

(** X25.  [cart_write] ends when frames have at least one byte: each pass
    of its write loops and of its read-back loop takes at least one byte off
    the bytes left, so that the bounds the model gives to the loops (the
    count, or the length of the file) are never used up. *)
Theorem cart_write_no_fuel (st : State) (fd : Z) (buf : list Z) (count : Z) :
  (0 < CART_FRAME_SIZE)%nat ->
  cart_write st fd buf count <> Fuel.
Proof using Type.
  intros Hfs. unfold Driver.cart_write.
  pose proof (file_no_fuel st fd) as Hf.
  destruct (Driver.file st fd) as [f | |] eqn:Ef; cbn [mbind outcome_bind obind];
    try discriminate; try congruence.
  destruct (count <? 0); [discriminate |].
  destruct (_ || _); [discriminate |].
  destruct (negb _); [discriminate |].
  pose proof (strlen_no_fuel buf) as Hs.
  destruct (strlen buf) as [buf_size | |]; cbn [mbind outcome_bind obind];
    try discriminate; try congruence.
  destruct (Driver.incart f).
  - unfold Driver.check_table_space, Driver.get_file_pieces.
    rewrite Ef. cbn [mbind outcome_bind obind]. set (f' := f).
    assert (Hcheck : forall (k : Z -> outcome (Z * State)),
              (forall r, k r <> Fuel) ->
              mbind k (if Driver.filelength f' >=? u32 (Driver.fileposition f' + count)
                       then Ret 0
                       else if Driver.more_frames_than CART_FRAME_SIZE
                                 (u32 (Driver.filelength f' + count))
                                 (Z.of_nat (length
                                    (Driver.free_slots CART_MAX_CARTRIDGES
                                       CART_CARTRIDGE_SIZE (Driver.fileTable st))))
                            then Ret (-1) else Ret 0) <> Fuel).
    { intros k Hk. destruct (_ >=? _); [apply Hk |].
      destruct (Driver.more_frames_than _ _ _); apply Hk. }
    apply Hcheck. intros checkSpace.
    destruct (negb _); [discriminate |].
    destruct (Driver.filelength f' <? 1); cbn [mbind outcome_bind obind]; [discriminate |].
    match goal with |- context [Driver.piece ?t 0%nat] =>
      pose proof (piece_no_fuel t 0) as Hp; destruct (Driver.piece t 0%nat) as [p | |]
    end; cbn [mbind outcome_bind obind]; try discriminate; try congruence.
    match goal with
    | |- context [Driver.read_back _ _ _ _ _ _ ?n ?s ?t ?c ?i ?x ?y ?l ?b] =>
        pose proof (read_back_no_fuel n Hfs s t c i x y l b) as Hr;
        destruct (Driver.read_back _ _ _ _ _ _ n s t c i x y l b)
          as [[s' | [[[[s' c'] f''] l'] b']] | |]
    end; cbn [mbind outcome_bind obind]; try discriminate;
      try (exfalso; apply Hr; [lia | reflexivity]).
    pose proof (file_no_fuel s' fd) as Hf'.
    destruct (Driver.file s' fd) as [g | |]; cbn [mbind outcome_bind obind];
      try discriminate; try congruence.
    match goal with |- context [read_bytes ?a ?b ?n] =>
      pose proof (read_bytes_no_fuel a b n) as Hrb; destruct (read_bytes a b n)
    end; cbn [mbind outcome_bind obind]; try discriminate; try congruence.
    match goal with |- context [write_bytes ?a ?b ?n] =>
      pose proof (write_bytes_no_fuel a b n) as Hwb; destruct (write_bytes a b n) as [l2 | |]
    end; cbn [mbind outcome_bind obind]; try discriminate; try congruence.
    pose proof (strlen_no_fuel l2) as Hs2.
    destruct (strlen l2) as [new_length | |]; cbn [mbind outcome_bind obind];
      try discriminate; try congruence.
    destruct (Driver.search_file_table _ _ _ _ _) as [c1 f1].
    apply write_back_no_fuel; [exact Hfs | lia].
  - apply first_write_no_fuel; [exact Hfs | lia].
Qed.

(** [cart_read] has no loop that needs fuel. *)
Theorem cart_read_no_fuel (st : State) (fd count : Z) : cart_read st fd count <> Fuel.
Proof using Type.
  unfold Driver.cart_read.
  pose proof (file_no_fuel st fd) as Hf.
  destruct (Driver.file st fd) as [f | |] eqn:Ef; cbn [mbind outcome_bind obind];
    try discriminate; try congruence.
  destruct (count <? 0); [discriminate |].
  destruct (_ || _); [discriminate |].
  destruct (negb _); [discriminate |].
  unfold Driver.get_num_pieces, Driver.get_file_pieces. rewrite Ef.
  cbn [mbind outcome_bind obind].
  destruct (Driver.filelength f <? 1); cbn [mbind outcome_bind obind]; [discriminate |].
  match goal with |- context [Driver.piece ?t 0%nat] =>
    pose proof (piece_no_fuel t 0) as Hp; destruct (Driver.piece t 0%nat) as [p | |]
  end; cbn [mbind outcome_bind obind]; try discriminate; try congruence.
  match goal with
  | |- context [Driver.read_file_frame _ _ _ _ ?n ?s ?t ?c ?fr ?i ?l ?b] =>
      pose proof (read_file_frame_files n s t c fr i l b) as Hloop;
      destruct (Driver.read_file_frame _ _ _ _ n s t c fr i l b) as [[s' | [s' l']] | |]
  end; cbn [mbind outcome_bind obind]; try discriminate; try contradiction.
  unfold Driver.read_return.
  pose proof (file_no_fuel s' fd) as Hf'.
  destruct (Driver.file s' fd) as [g | |]; cbn [mbind outcome_bind obind];
    try discriminate; try congruence.
  destruct (_ <=? _).
  - match goal with |- context [read_bytes ?a ?b ?n] =>
      pose proof (read_bytes_no_fuel a b n) as Hrb; destruct (read_bytes a b n)
    end; cbn [mbind outcome_bind obind]; try discriminate; congruence.
  - destruct (_ =? 0); [discriminate |].
    match goal with |- context [read_bytes ?a ?b ?n] =>
      pose proof (read_bytes_no_fuel a b n) as Hrb; destruct (read_bytes a b n)
    end; cbn [mbind outcome_bind obind]; try discriminate; congruence.
Qed.

(** *** The first write of more than one frame *)

Lemma load_this_cart_table (st : State) (cart : Z) :
  Driver.fileTable (Driver.load_this_cart client_cart_bus_request CART_OP_LDCART st cart).2
  = Driver.fileTable st.
Proof using Type.
  unfold Driver.load_this_cart, Driver.bus.
  destruct (client_cart_bus_request _ _ _) as [[resp b] d].
  destruct (Driver.failed resp); reflexivity.
Qed.

(** Writing a frame through leaves the file table and the allocation table
    as they are. *)
Lemma write_through_tables (st st' : State) (src : list Z) (counter counter' : Z)
    (iteration : nat) (the_cart the_frame : Z) (cart_buffer cart_buffer' : list Z) :
  Driver.write_through client_cart_bus_request CART_FRAME_SIZE CART_OP_LDCART CART_OP_WRFRME
    st src counter iteration the_cart the_frame cart_buffer
    = Ret (inr (st', counter', cart_buffer')) ->
  Driver.fileSystem st' = Driver.fileSystem st /\
  Driver.fileTable st' = Driver.fileTable st /\
  counter' = counter - Z.of_nat (if counter <=? Z.of_nat CART_FRAME_SIZE
                                 then Z.to_nat counter else CART_FRAME_SIZE).
Proof using Type.
  intros H. unfold Driver.write_through in H.
  destruct (read_bytes _ _ _); cbn [mbind outcome_bind obind] in H; try discriminate H.
  destruct (write_bytes _ _ _); cbn [mbind outcome_bind obind] in H; try discriminate H.
  unfold Driver.bus in H.
  pose proof (load_this_cart_files st the_cart) as Hfs.
  pose proof (load_this_cart_table st the_cart) as Hft.
  destruct (Driver.load_this_cart _ _ st the_cart) as [r0 st0]. cbn [snd] in *.
  destruct (client_cart_bus_request _ _ _) as [[resp b] d].
  destruct (Driver.failed resp); [discriminate H |].
  destruct (Cache.put_cart_cache _ _ _ _ _) as [[cacheResp c] | |];
    cbn [mbind outcome_bind obind] in H; try discriminate H.
  destruct (negb _); [discriminate H |].
  injection H as <- <- _. cbn. auto.
Qed.

(** In the FIRST WRITE loop, a frame after the first one whose slot is found
    in cartridge 0 ends the call with -1. *)
Lemma first_write_later_frame_in_cart_0 (fuel : nat) (st st' : State) (fd : Z)
    (buf : list Z) (count counter : Z) (iteration : nat) (the_cart the_frame : Z)
    (cart_buffer : list Z) (j : nat) (r : Z) :
  Driver.first_free CART_MAX_CARTRIDGES CART_CARTRIDGE_SIZE (Driver.fileTable st)
    = Some (0%nat, j) ->
  0 < counter ->
  Driver.first_write client_cart_bus_request CART_MAX_CARTRIDGES CART_CARTRIDGE_SIZE
    CART_FRAME_SIZE CART_OP_LDCART CART_OP_WRFRME fuel st fd buf count counter (S iteration)
    the_cart the_frame cart_buffer = Ret (r, st') ->
  r = -1.
Proof using Type.
  intros Hfree Hc H. destruct fuel as [| fuel]; cbn [Driver.first_write] in H.
  - unfold Driver.search_file_table in H. rewrite Hfree in H.
    replace (counter <=? 0) with false in H by (symmetry; apply Z.leb_gt; lia).
    discriminate H.
  - unfold Driver.search_file_table in H. rewrite Hfree in H.
    replace (counter <=? 0) with false in H by (symmetry; apply Z.leb_gt; lia).
    destruct (Driver.write_through _ _ _ _ _ _ _ _ _ _ _) as [[st1 | [[st1 c1] cb1]] | |];
      cbn [mbind outcome_bind obind] in H; try discriminate H.
    + injection H as <- _. reflexivity.
    + destruct (Driver.file st1 fd); cbn [mbind outcome_bind obind] in H;
        try discriminate H.
      change (u16 (Z.of_nat 0) =? 0) with true in H.
      cbn [Nat.eqb orb mbind outcome_bind obind] in H.
      injection H as <- _. reflexivity.
Qed.

(** The frame search on a table whose slot (0,0) is free, and on that table
    once (0,0) is taken and (0,1) is free. *)
Lemma first_free_origin (t : nat -> nat -> Driver.FileTable) :
  (0 < CART_MAX_CARTRIDGES)%nat -> (0 < CART_CARTRIDGE_SIZE)%nat ->
  Driver.isused (t 0%nat 0%nat) = NO ->
  Driver.first_free CART_MAX_CARTRIDGES CART_CARTRIDGE_SIZE t = Some (0%nat, 0%nat).
Proof using Type.
  intros Hm Hs H0. unfold Driver.first_free.
  destruct CART_MAX_CARTRIDGES as [| m]; [lia |].
  destruct CART_CARTRIDGE_SIZE as [| n]; [lia |].
  cbn [Driver.first_free_from Driver.free_in_row]. unfold Driver.is_NO. rewrite H0.
  reflexivity.
Qed.

Lemma first_free_next (t : nat -> nat -> Driver.FileTable) (e : Driver.FileTable) :
  (0 < CART_MAX_CARTRIDGES)%nat -> (1 < CART_CARTRIDGE_SIZE)%nat ->
  Driver.isused e = YES ->
  Driver.isused (t 0%nat 1%nat) = NO ->
  Driver.first_free CART_MAX_CARTRIDGES CART_CARTRIDGE_SIZE (Driver.set_entry t 0 0 e)
    = Some (0%nat, 1%nat).
Proof using Type.
  intros Hm Hs He H1. unfold Driver.first_free.
  destruct CART_MAX_CARTRIDGES as [| m]; [lia |].
  destruct CART_CARTRIDGE_SIZE as [| [| n]]; [lia | lia |].
  cbn [Driver.first_free_from Driver.free_in_row Driver.set_entry Nat.eqb andb].
  unfold Driver.is_NO. rewrite He, H1. reflexivity.
Qed.

(** X22.  Whatever the device answers, a first write of more than one frame
    to a handle without frames never succeeds when the slots (0,0) and (0,1) of
    the allocation table are free, as they are after [cart_poweron]: if the
    call returns, it returns -1. *)
Theorem first_write_beyond_one_frame (st st' : State) (fd count r : Z) (buf : list Z)
    (f : Driver.FileSystem) :
  (0 < CART_MAX_CARTRIDGES)%nat -> (1 < CART_CARTRIDGE_SIZE)%nat ->
  Driver.isused (Driver.fileTable st 0%nat 0%nat) = NO ->
  Driver.isused (Driver.fileTable st 0%nat 1%nat) = NO ->
  Driver.file st fd = Ret f ->
  Driver.incart f = NO ->
  Z.of_nat CART_FRAME_SIZE < count ->
  cart_write st fd buf count = Ret (r, st') ->
  r = -1.
Proof using Type.
  intros Hm Hs H00 H01 Hf Hin Hcount H.
  unfold Driver.cart_write in H. rewrite Hf in H. cbn [mbind outcome_bind obind] in H.
  destruct (count <? 0); [injection H as <- _; reflexivity |].
  destruct (_ || _); [injection H as <- _; reflexivity |].
  destruct (negb _); [injection H as <- _; reflexivity |].
  destruct (strlen buf) as [buf_size | |]; cbn [mbind outcome_bind obind] in H;
    try discriminate H.
  rewrite Hin in H.
  destruct (Z.to_nat count) as [| fuel] eqn:Efuel; [lia |].
  cbn [Driver.first_write] in H. unfold Driver.search_file_table at 1 in H.
  rewrite (first_free_origin _ ltac:(lia) ltac:(lia) H00) in H.
  replace (count <=? 0) with false in H by (symmetry; apply Z.leb_gt; lia).
  destruct (Driver.write_through _ _ _ _ _ _ _ _ _ _ _) as [[st1 | [[st1 c1] cb1]] | |]
    eqn:Ew; cbn [mbind outcome_bind obind] in H; try discriminate H.
  { injection H as <- _. reflexivity. }
  apply write_through_tables in Ew as (Hfs1 & Hft1 & Hc1).
  replace (count <=? Z.of_nat CART_FRAME_SIZE) with false in Hc1
    by (symmetry; apply Z.leb_gt; lia).
  destruct (Driver.file st1 fd) as [f1 | |]; cbn [mbind outcome_bind obind] in H;
    try discriminate H.
  cbn [Nat.eqb] in H. unfold Driver.set_slot at 1 in H.
  change (u16 (Z.of_nat 0)) with 0 in H. cbn [Z.leb Z.compare andb] in H.
  replace (0 <? Z.of_nat CART_MAX_CARTRIDGES) with true in H
    by (symmetry; apply Z.ltb_lt; lia).
  replace (0 <? Z.of_nat CART_CARTRIDGE_SIZE) with true in H
    by (symmetry; apply Z.ltb_lt; lia).
  cbn [andb mbind outcome_bind obind] in H.
  match type of H with context [Driver.file ?s fd] =>
    destruct (Driver.file s fd) as [f2 | |]
  end; cbn [mbind outcome_bind obind] in H; try discriminate H.
  eapply first_write_later_frame_in_cart_0 in H; [exact H | | lia].
  cbn [Driver.set_file Driver.with_files Driver.with_table Driver.fileTable Z.to_nat].
  rewrite Hft1. apply first_free_next; [lia | lia | reflexivity | exact H01].
Qed.

End FileStore.

(** ** The driver run on the device *)

(** C1.  A first write of 1025 bytes, one more than a frame, to the handle
    just opened on the system just powered on does not succeed: the frame
    search gives (0,0) and then (0,1), and the test
    [the_cart == 0 || the_frame == 0] of the second frame makes [cart_write]
    return -1. *)
Lemma first_write_of_two_frames_fails :
  returned (Run.cart_open (Run.powered 4) (Some "f"%string)) = Ret 0 /\
  Driver.file Run.opened 0 = Ret (Driver.mkFileSystem "f" 0 0 0 0 0 YES NO) /\
  returned (Run.cart_write Run.opened 0 (repeat 120 1025%nat ++ [0]) 1025) = Ret (-1).
Proof. split_and!; vm_compute; reflexivity. Qed.

(** A first write of the single byte 0, then a seek to 0 and a read of one
    byte, all three successful, give back the indeterminate content of the
    local array of [cart_read] and not the byte written: the frame is copied
    for the length [strlen] finds in it. *)
Lemma zero_byte_not_read_back :
  returned (Run.cart_write Run.opened 0 [0; 0] 1) = Ret 1 /\
  returned (Run.cart_seek Run.zero_written 0 0) = Ret 0 /\
  returned (Run.cart_read Run.zero_rewound 0 1) = Ret (1, [Run.uninit 0]).
Proof. split_and!; vm_compute; reflexivity. Qed.

(** The claim holds on a short text: "hello" written to the fresh handle is
    read back unchanged. *)
Lemma hello_read_back :
  returned (Run.cart_write Run.opened 0 Run.hello 5) = Ret 5 /\
  returned (Run.cart_seek Run.written 0 0) = Ret 0 /\
  returned (Run.cart_read Run.rewound 0 5) = Ret (5, [104; 101; 108; 108; 111]).
Proof. split_and!; vm_compute; reflexivity. Qed.

(** The driver itself puts one address in the cache twice: rewriting the file
    puts its frame again at (0,0) while the entry of the first write is still
    there. *)
Lemma rewrite_caches_address_twice :
  returned (Run.cart_write Run.rewound 0 [97; 98; 0] 2) = Ret 2 /\
  Cache.contents (Driver.cache Run.overwritten)
  = [ Some (0, 0, [104; 101; 108; 108; 111], 1);
      Some (0, 0, [97; 98; 108; 108; 111], 2); None; None ].
Proof. split; vm_compute; reflexivity. Qed.


(** On the same file a count of 3 returns -1. *)
Lemma cart_read_at_end_returns :
  returned (Run.cart_read Run.written 0 3) = Ret (-1, []).
Proof. vm_compute. reflexivity. Qed.

(** C6.  In [Run.reopened] the entry 1 is open under the name "b" and the
    entry 0, before it, is closed; [cart_open] of "b" takes the closed entry
    before it has compared the name of entry 1: it returns the handle 0, and
    two open entries are then named "b". *)
Lemma cart_open_duplicate_path :
  (Driver.filename <$> Driver.fileSystem Run.reopened,
   Driver.openfile <$> Driver.fileSystem Run.reopened)
    = ([""%string; "b"%string], [NO; YES]) /\
  returned (Run.cart_open Run.reopened (Some "b"%string)) = Ret 0 /\
  (Driver.filename <$> Driver.fileSystem Run.opened_b_twice,
   Driver.openfile <$> Driver.fileSystem Run.opened_b_twice)
    = (["b"%string; "b"%string], [YES; YES]).
Proof. split_and!; vm_compute; reflexivity. Qed.

(** [Run.reopened] is what the calls of the driver produce. *)
Lemma reopened_reached :
  returned (Run.cart_open (Run.powered 4) (Some "a"%string)) = Ret 0 /\
  returned (Run.cart_open Run.opened_a (Some "b"%string)) = Ret 1 /\
  returned (Run.cart_close Run.opened_ab 0) = Ret 0.
Proof. split_and!; vm_compute; reflexivity. Qed.

(** C7 (as stated) fails for a write inside the current length.  In
    [Run.crowded_rewound] the allocation table has no free slot, so fewer
    than the one frame the 5 bytes of the file 0 need; the write of 2 bytes at
    position 0 is not refused: it returns 2 and moves the position. *)
Lemma cart_write_inside_length_not_refused :
  Driver.file Run.crowded_rewound 0 = Ret (Driver.mkFileSystem "f" 0 0 5 0 0 YES YES) /\
  Driver.free_slots 64 1024 (Driver.fileTable Run.crowded_rewound) = [] /\
  returned (Run.cart_write Run.crowded_rewound 0 [97; 98; 0] 2) = Ret 2 /\
  Driver.file Run.crowded_rewritten 0 = Ret (Driver.mkFileSystem "f" 0 2 5 0 0 YES YES).
Proof. split_and!; vm_compute; reflexivity. Qed.

Lemma cart_write_refused_unchanged_witness :
  Run.cart_write Run.crowded 0 [97; 98; 0] 2 = Ret (-1, Run.crowded).
Proof.
  apply (cart_write_refused_unchanged Run.bus 64 1024 1024 2 3 4 Run.crowded 0 2 [97; 98; 0]
           (Driver.mkFileSystem "f" 0 5 5 0 0 YES YES) 2);
    [ vm_compute; reflexivity | reflexivity | reflexivity | lia
    | vm_compute; reflexivity | vm_compute; reflexivity ].
Defined.

Lemma cart_close_not_open_witness :
  Driver.cart_close (Run.powered 4) 0 = Ret (-1, Run.powered 4).
Proof.
  apply (proj1 (cart_close_not_open (Run.powered 4) 0 Driver.blank
                  ltac:(vm_compute; reflexivity))).
  unfold Driver.is_open. cbn. lia.
Defined.

Lemma cart_seek_closed_succeeds_witness :
  exists st', Driver.cart_seek (Run.powered 4) 0 0 = Ret (0, st').
Proof.
  apply (cart_seek_closed_succeeds (Run.powered 4) 0 Driver.blank);
    [vm_compute; reflexivity | reflexivity | reflexivity].
Defined.

(** ** Further properties of the frame cache *)

(** The two halves of a tag are the cartridge and the frame. *)
Lemma create_cache_tag_fields (cart frame : Z) :
  0 <= cart < 2 ^ 16 -> 0 <= frame < 2 ^ 16 ->
  Z.shiftr (Cache.create_cache_tag cart frame) 16 = cart /\
  Z.land (Cache.create_cache_tag cart frame) 65535 = frame.
Proof.
  intros Hc Hf. unfold Cache.create_cache_tag, u16, u32.
  rewrite (Z.mod_small cart), (Z.mod_small frame) by assumption.
  assert (Hs : Z.shiftl cart 16 mod 2 ^ 32 = Z.shiftl cart 16).
  { apply Z.mod_small. rewrite Z.shiftl_mul_pow2 by lia.
    change (2 ^ 16) with 65536 in *. change (2 ^ 32) with 4294967296. lia. }
  rewrite Hs. split.
  - reg_bits i Hi. replace (i + 16 - 16) with i by lia. kill_bits. reflexivity.
  - reg_bits i Hi.
    destruct (Z.ltb_spec i 16);
      [ replace (0 <=? i) with true by (symmetry; apply Z.leb_le; lia)
      | rewrite ?andb_false_r ];
      kill_bits; reflexivity.
Qed.

(** X1.  [create_cache_tag] gives two addresses, each of a cartridge and a
    frame within 16 bits, the same tag only when they are the same address:
    the entries of the cache are looked up by tag without confusion. *)
Theorem create_cache_tag_injective (c1 f1 c2 f2 : Z) :
  0 <= c1 < 2 ^ 16 -> 0 <= f1 < 2 ^ 16 -> 0 <= c2 < 2 ^ 16 -> 0 <= f2 < 2 ^ 16 ->
  Cache.create_cache_tag c1 f1 = Cache.create_cache_tag c2 f2 <-> c1 = c2 /\ f1 = f2.
Proof.
  intros H1 H2 H3 H4. split.
  - intros Heq.
    destruct (create_cache_tag_fields c1 f1 H1 H2) as [Ha Hb].
    destruct (create_cache_tag_fields c2 f2 H3 H4) as [Hc Hd].
    rewrite Heq in Ha, Hb. split; congruence.
  - intros [-> ->]. reflexivity.
Qed.

Section CacheMore.
Variable CART_FRAME_SIZE : nat.

(** The loop of [close_cart_cache] wipes entries and touches nothing else:
    the flag [cacheInit] in particular stays as it is. *)
Lemma wipe_from_keeps (k : nat) :
  forall (c : Cache.CacheState) (mem : list Cache.CacheTable) (i : nat),
  Cache.cacheMemory c = Some mem -> (i + k <= length mem)%nat ->
  exists c' mem',
    Cache.wipe_from CART_FRAME_SIZE c i k = Ret c' /\
    Cache.cacheMemory c' = Some mem' /\ length mem' = length mem /\
    Cache.cacheInit c' = Cache.cacheInit c /\
    Cache.cacheSize c' = Cache.cacheSize c /\
    Cache.lruCounter c' = Cache.lruCounter c.
Proof.
  induction k as [| k IH]; intros c mem i Hmem Hk.
  - exists c, mem. cbn. split_and!; (reflexivity || assumption).
  - cbn [Cache.wipe_from].
    destruct (lookup_lt_is_Some_2 mem i ltac:(lia)) as [e He].
    rewrite (slot_lookup c mem Hmem i e He). cbn [mbind outcome_bind obind].
    destruct (IH (Cache.set_slot c i (Cache.wiped CART_FRAME_SIZE))
                 (<[i := Cache.wiped CART_FRAME_SIZE]> mem) (S i))
      as (c' & mem' & Hw & Hm' & Hl & Hi & Hs & Hc).
    + unfold Cache.set_slot, Cache.with_memory. cbn [Cache.cacheMemory].
      rewrite Hmem. reflexivity.
    + rewrite length_insert. lia.
    + exists c', mem'. rewrite length_insert in Hl. split_and!; assumption.
Qed.

(** X2.  A cache that was initialised and closed cannot be initialised
    again: [init_cart_cache] on the globals of a cache never initialised
    returns 0, [close_cart_cache] then returns 0 and leaves [cacheMemory]
    NULL, but it leaves [cacheInit] at YES, so that the next
    [init_cart_cache] returns -1 and allocates nothing. *)
Theorem init_close_init_fails (c : Cache.CacheState) :
  Cache.cacheInit c = NO -> Cache.cacheMemory c = None -> 0 <= Cache.cacheSize c ->
  exists c1 c2,
    Cache.init_cart_cache CART_FRAME_SIZE c = (0, c1) /\
    Cache.close_cart_cache CART_FRAME_SIZE c1 = Ret (0, c2) /\
    Cache.cacheMemory c2 = None /\
    Cache.init_cart_cache CART_FRAME_SIZE c2 = (-1, c2).
Proof.
  intros Hi Hm Hs.
  set (c1 := Cache.mkCacheState
               (Some (repeat (Cache.wiped CART_FRAME_SIZE) (Z.to_nat (Cache.cacheSize c))))
               (Cache.last_cached_frame c) (Cache.cacheSize c) YES (Cache.lruCounter c)).
  destruct (wipe_from_keeps (Z.to_nat (Cache.cacheSize c1)) c1
              (repeat (Cache.wiped CART_FRAME_SIZE) (Z.to_nat (Cache.cacheSize c))) 0)
    as (c' & mem' & Hw & Hm' & Hl & Hi' & Hs' & Hc); [reflexivity | |].
  { rewrite repeat_length. cbn. lia. }
  exists c1, (Cache.with_memory c' None). split.
  { unfold Cache.init_cart_cache. rewrite Hi, Hm. reflexivity. }
  unfold Cache.close_cart_cache. rewrite Hw. cbn [mbind outcome_bind obind].
  split; [reflexivity |]. split; [reflexivity |].
  unfold Cache.init_cart_cache, Cache.with_memory. cbn [Cache.cacheInit].
  rewrite Hi'. reflexivity.
Qed.

(** The tag loop stops at the first entry that carries the tag. *)
Lemma find_tag_first (c : Cache.CacheState) (mem : list Cache.CacheTable) (tag : Z)
    (v : nat) (e : Cache.CacheTable) (k : nat) :
  Cache.cacheMemory c = Some mem ->
  mem !! v = Some e -> Cache.cacheHandle e = tag ->
  (forall j e', (j < v)%nat -> mem !! j = Some e' -> Cache.cacheHandle e' <> tag) ->
  forall i0, (i0 <= v < i0 + k)%nat -> Cache.find_tag c tag i0 k = Ret (Some v).
Proof.
  intros Hmem Hv Ht Hbefore. induction k as [| k IH]; intros i0 Hi; [lia |].
  cbn [Cache.find_tag].
  destruct (Nat.eq_dec i0 v) as [-> | Hne].
  - rewrite (slot_lookup c mem Hmem _ _ Hv). cbn [mbind outcome_bind obind].
    rewrite (proj2 (Z.eqb_eq _ _) Ht). reflexivity.
  - destruct (lookup_lt_is_Some_2 mem i0) as [e0 He0];
      [apply lookup_lt_Some in Hv; lia |].
    rewrite (slot_lookup c mem Hmem _ _ He0). cbn [mbind outcome_bind obind].
    rewrite (proj2 (Z.eqb_neq _ _) (Hbefore i0 e0 ltac:(lia) He0)). apply IH. lia.
Qed.

(** It runs to its end when no entry it visits carries the tag. *)
Lemma find_tag_none (c : Cache.CacheState) (mem : list Cache.CacheTable) (tag : Z) (k : nat) :
  Cache.cacheMemory c = Some mem ->
  forall i0, (i0 + k <= length mem)%nat ->
  (forall j e, (i0 <= j < i0 + k)%nat -> mem !! j = Some e -> Cache.cacheHandle e <> tag) ->
  Cache.find_tag c tag i0 k = Ret None.
Proof.
  intros Hmem. induction k as [| k IH]; intros i0 Hk Hno; [reflexivity |].
  cbn [Cache.find_tag].
  destruct (lookup_lt_is_Some_2 mem i0 ltac:(lia)) as [e He].
  rewrite (slot_lookup c mem Hmem _ _ He). cbn [mbind outcome_bind obind].
  rewrite (proj2 (Z.eqb_neq _ _) (Hno i0 e ltac:(lia) He)).
  apply IH; [lia |]. intros j e' Hj. apply Hno. lia.
Qed.

(** A frame put in a free slot, then asked for. *)
Lemma put_get_free_slot (c : Cache.CacheState) (mem : list Cache.CacheTable) (i : nat)
    (e : Cache.CacheTable) (cart frm : Z) (buf frame : list Z) :
  Cache.cacheMemory c = Some mem ->
  Cache.cacheSize c = Z.of_nat (length mem) ->
  mem !! i = Some e -> Cache.isUsed e = NO ->
  (forall j e', (j < i)%nat -> mem !! j = Some e' ->
     Cache.isUsed e' = YES /\ Cache.cacheHandle e' <> Cache.create_cache_tag cart frm) ->
  strncpy CART_FRAME_SIZE buf = Ret frame ->
  exists c1 c2,
    Cache.put_cart_cache CART_FRAME_SIZE c cart frm buf = Ret (0, c1) /\
    Cache.get_cart_cache c1 cart frm = Ret (Some frame, c2) /\
    Cache.cacheMemory c2 =
      Some (<[i := Cache.mkCacheTable frame (Cache.create_cache_tag cart frm) (u16 cart)
                     (u16 frm) YES (Cache.lruCounter c + 2)]> mem) /\
    Cache.lruCounter c2 = Cache.lruCounter c + 2.
Proof.
  intros Hmem Hsize Hi Hfree Hbefore Hcopy.
  pose proof (lookup_lt_Some _ _ _ Hi) as Hlt.
  set (c0 := Cache.bump c).
  assert (Hmem0 : Cache.cacheMemory c0 = Some mem) by exact Hmem.
  assert (Hn : Z.to_nat (Cache.cacheSize c0) = length mem)
    by (unfold c0; cbn [Cache.bump Cache.cacheSize]; rewrite Hsize; apply Nat2Z.id).
  set (e1 := Cache.mkCacheTable frame (Cache.create_cache_tag cart frm) (u16 cart) (u16 frm)
               YES (Cache.lruCounter c0)).
  set (c1 := Cache.set_slot c0 i e1).
  set (mem1 := <[i := e1]> mem).
  assert (Hmem1 : Cache.cacheMemory (Cache.bump c1) = Some mem1).
  { unfold c1, Cache.set_slot, Cache.with_memory. cbn [Cache.bump Cache.cacheMemory].
    rewrite Hmem0. reflexivity. }
  exists c1. eexists. split.
  - unfold Cache.put_cart_cache. cbv zeta. fold c0. cbn [Cache.put_loop]. rewrite Hn.
    rewrite (find_unused_first c0 mem Hmem0 i e (length mem) Hi Hfree
               (fun j e' Hj He' => proj1 (Hbefore j e' Hj He')) 0 ltac:(lia)).
    cbn [mbind outcome_bind obind]. rewrite Hcopy. cbn [mbind outcome_bind obind].
    rewrite (create_cache_tag_u16 cart frm). reflexivity.
  - unfold Cache.get_cart_cache. cbv zeta.
    rewrite (create_cache_tag_u16 cart frm).
    replace (Z.to_nat (Cache.cacheSize (Cache.bump c1))) with (length mem)
      by (symmetry; exact Hn).
    rewrite (find_tag_first (Cache.bump c1) mem1 (Cache.create_cache_tag cart frm) i e1
               (length mem) Hmem1).
    + cbn [mbind outcome_bind obind].
      rewrite (slot_lookup (Cache.bump c1) mem1 Hmem1 i e1).
      * cbn [mbind outcome_bind obind]. split; [reflexivity |].
        unfold Cache.set_slot, Cache.with_memory.
        cbn [Cache.cacheMemory Cache.lruCounter]. rewrite Hmem1. cbn [option_map].
        subst mem1. rewrite list_insert_insert_eq.
        split; [| unfold c1, c0; cbn; lia].
        unfold e1, c1, c0. cbn. do 3 f_equal. lia.
      * subst mem1. apply list_lookup_insert_eq. exact Hlt.
    + subst mem1. apply list_lookup_insert_eq. exact Hlt.
    + reflexivity.
    + intros j e' Hj He'. subst mem1. rewrite list_lookup_insert_ne in He' by lia.
      exact (proj2 (Hbefore j e' Hj He')).
    + lia.
Qed.

(** X3.  [put_cart_cache] then [get_cart_cache] of the same address give the
    frame back.  When the first entry not in use is at index [i] and no
    entry before it carries the tag of the address, the put returns 0 and
    the get that follows returns the frame that [strncpy] stored, from slot
    [i]; that slot then holds the address, in use, with the recency counter
    of the get (two more than before the put), and the other slots are as
    they were. *)
Theorem put_then_get (c : Cache.CacheState) (mem : list Cache.CacheTable) (i : nat)
    (e : Cache.CacheTable) (cart frm : Z) (buf frame : list Z) :
  Cache.cacheMemory c = Some mem ->
  Cache.cacheSize c = Z.of_nat (length mem) ->
  mem !! i = Some e -> Cache.isUsed e = NO ->
  (forall j e', (j < i)%nat -> mem !! j = Some e' ->
     Cache.isUsed e' = YES /\ Cache.cacheHandle e' <> Cache.create_cache_tag cart frm) ->
  strncpy CART_FRAME_SIZE buf = Ret frame ->
  exists c1 c2,
    Cache.put_cart_cache CART_FRAME_SIZE c cart frm buf = Ret (0, c1) /\
    Cache.get_cart_cache c1 cart frm = Ret (Some frame, c2) /\
    Cache.cacheMemory c2 =
      Some (<[i := Cache.mkCacheTable frame (Cache.create_cache_tag cart frm) (u16 cart)
                     (u16 frm) YES (Cache.lruCounter c + 2)]> mem) /\
    Cache.lruCounter c2 = Cache.lruCounter c + 2.
Proof. apply put_get_free_slot. Qed.


(** X6.  [delete_cart_cache] of an address that exactly one entry carries
    the tag of returns the frame of that entry and wipes the entry.  A
    [get_cart_cache] of the address then returns NULL, except for the
    address whose tag is 0, the cartridge 0 and frame 0: the wiped entry has
    the tag 0, and the get returns its zeroed frame. *)
Theorem delete_then_get (c : Cache.CacheState) (mem : list Cache.CacheTable) (v : nat)
    (e : Cache.CacheTable) (cart frm : Z) :
  Cache.cacheMemory c = Some mem ->
  Cache.cacheSize c = Z.of_nat (length mem) ->
  mem !! v = Some e ->
  Cache.cacheHandle e = Cache.create_cache_tag cart frm ->
  length (Cache.cachedFrame e) = CART_FRAME_SIZE ->
  (forall k e', mem !! k = Some e' -> Cache.cacheHandle e' = Cache.cacheHandle e -> k = v) ->
  exists c1 c2,
    Cache.delete_cart_cache CART_FRAME_SIZE c cart frm = Ret (Some (Cache.cachedFrame e), c1) /\
    Cache.cacheMemory c1 = Some (<[v := Cache.wiped CART_FRAME_SIZE]> mem) /\
    Cache.get_cart_cache c1 cart frm
    = Ret (if Cache.create_cache_tag cart frm =? 0 then Some (repeat 0 CART_FRAME_SIZE)
           else None, c2).
Proof.
  intros Hmem Hsize Hv Htag Hfr Huniq.
  pose proof (lookup_lt_Some _ _ _ Hv) as Hlt.
  assert (Hs0 : Z.to_nat (Cache.cacheSize c) = length mem) by (rewrite Hsize; apply Nat2Z.id).
  assert (Hread : read_bytes (Cache.cachedFrame e) 0 CART_FRAME_SIZE
                  = Ret (Cache.cachedFrame e)).
  { unfold read_bytes. destruct CART_FRAME_SIZE as [| n] eqn:En.
    - destruct (Cache.cachedFrame e); [reflexivity | discriminate Hfr].
    - rewrite <- Hfr. cbn [Nat.add]. rewrite Nat.leb_refl. cbn [drop].
      rewrite firstn_all. reflexivity. }
  set (c0 := Cache.bump c).
  assert (Hmem0 : Cache.cacheMemory c0 = Some mem) by exact Hmem.
  set (c1 := Cache.set_slot
               (Cache.mkCacheState (Cache.cacheMemory c0) (Cache.cachedFrame e)
                  (Cache.cacheSize c0) (Cache.cacheInit c0) (Cache.lruCounter c0))
               v (Cache.wiped CART_FRAME_SIZE)).
  set (mem1 := <[v := Cache.wiped CART_FRAME_SIZE]> mem).
  assert (Hm1 : Cache.cacheMemory (Cache.bump c1) = Some mem1).
  { unfold c1, Cache.set_slot, Cache.with_memory. cbn [Cache.bump Cache.cacheMemory].
    fold c0. rewrite Hmem0. reflexivity. }
  assert (Hdel : Cache.delete_cart_cache CART_FRAME_SIZE c cart frm
                 = Ret (Some (Cache.cachedFrame e), c1)).
  { unfold Cache.delete_cart_cache. cbv zeta. rewrite (create_cache_tag_u16 cart frm).
    fold c0. replace (Z.to_nat (Cache.cacheSize c0)) with (length mem) by (symmetry; exact Hs0).
    rewrite <- Htag.
    rewrite (find_tag_unique c0 mem Hmem0 v e (length mem) Hv Huniq 0 ltac:(lia)).
    cbn [mbind outcome_bind obind].
    rewrite (slot_lookup c0 mem Hmem0 v e Hv). cbn [mbind outcome_bind obind].
    rewrite Hread. reflexivity. }
  assert (Hget : exists c2, Cache.get_cart_cache c1 cart frm
            = Ret (if Cache.create_cache_tag cart frm =? 0
                   then Some (repeat 0 CART_FRAME_SIZE) else None, c2)).
  { unfold Cache.get_cart_cache. cbv zeta. rewrite (create_cache_tag_u16 cart frm).
    replace (Z.to_nat (Cache.cacheSize (Cache.bump c1))) with (length mem)
      by (symmetry; exact Hs0).
    destruct (Z.eqb_spec (Cache.create_cache_tag cart frm) 0) as [Hz | Hnz].
    + rewrite (find_tag_first (Cache.bump c1) mem1 _ v (Cache.wiped CART_FRAME_SIZE)
                 (length mem) Hm1).
      * cbn [mbind outcome_bind obind].
        rewrite (slot_lookup (Cache.bump c1) mem1 Hm1 v (Cache.wiped CART_FRAME_SIZE)).
        -- cbn [mbind outcome_bind obind]. eexists. reflexivity.
        -- subst mem1. apply list_lookup_insert_eq. exact Hlt.
      * subst mem1. apply list_lookup_insert_eq. exact Hlt.
      * rewrite Hz. reflexivity.
      * intros k e' Hk He'. subst mem1. rewrite list_lookup_insert_ne in He' by lia.
        intros Heq. assert (k = v) by (apply (Huniq k e' He'); congruence). lia.
      * lia.
    + rewrite (find_tag_none (Cache.bump c1) mem1 _ (length mem) Hm1 0).
      * eexists. reflexivity.
      * subst mem1. rewrite length_insert. lia.
      * intros k e' _ He'. subst mem1. destruct (Nat.eq_dec k v) as [-> | Hne].
        -- rewrite list_lookup_insert_eq in He' by exact Hlt. injection He' as <-.
           cbn. congruence.
        -- rewrite list_lookup_insert_ne in He' by congruence.
           intros Heq. apply Hne, (Huniq k e' He'). congruence. }
  destruct Hget as [c2 Hget]. exists c1, c2. split_and!; [exact Hdel | exact Hm1 | exact Hget].
Qed.

(** X7.  A miss costs nothing but a tick of the counter: when none of the
    [cacheSize] entries carries the tag of the address, [get_cart_cache] and
    [delete_cart_cache] return NULL, and the globals of the cache are as
    before except [lruCounter], which is one more. *)
Theorem cache_miss_changes_only_counter (c : Cache.CacheState) (mem : list Cache.CacheTable)
    (cart frm : Z) :
  Cache.cacheMemory c = Some mem ->
  0 <= Cache.cacheSize c <= Z.of_nat (length mem) ->
  (forall j e, (j < Z.to_nat (Cache.cacheSize c))%nat -> mem !! j = Some e ->
     Cache.cacheHandle e <> Cache.create_cache_tag cart frm) ->
  Cache.get_cart_cache c cart frm = Ret (None, Cache.bump c) /\
  Cache.delete_cart_cache CART_FRAME_SIZE c cart frm = Ret (None, Cache.bump c).
Proof.
  intros Hmem Hsize Hno.
  assert (Hfind : Cache.find_tag (Cache.bump c) (Cache.create_cache_tag cart frm) 0
                    (Z.to_nat (Cache.cacheSize (Cache.bump c))) = Ret None).
  { apply find_tag_none with mem; [exact Hmem | cbn [Cache.bump Cache.cacheSize]; lia |].
    intros j e Hj. apply Hno. cbn [Cache.bump Cache.cacheSize] in Hj. lia. }
  unfold Cache.get_cart_cache, Cache.delete_cart_cache. cbv zeta.
  rewrite (create_cache_tag_u16 cart frm), Hfind. split; reflexivity.
Qed.

Lemma delete_keeps_capacity (c c' : Cache.CacheState) (cart blk : Z) (r : option (list Z)) :
  Cache.delete_cart_cache CART_FRAME_SIZE c cart blk = Ret (r, c') ->
  Cache.cacheSize c' = Cache.cacheSize c /\
  Cache.cacheInit c' = Cache.cacheInit c /\
  length <$> Cache.cacheMemory c' = length <$> Cache.cacheMemory c.
Proof.
  unfold Cache.delete_cart_cache. cbv zeta. intros H.
  destruct (Cache.find_tag _ _ _ _) as [[i |] | |];
    cbn [mbind outcome_bind obind] in H; try discriminate H.
  - destruct (Cache.slot _ i) as [e | |]; cbn [mbind outcome_bind obind] in H;
      try discriminate H.
    destruct (read_bytes _ _ _) as [saved | |]; cbn [mbind outcome_bind obind] in H;
      try discriminate H.
    injection H as _ <-. unfold Cache.set_slot, Cache.with_memory.
    cbn [Cache.cacheSize Cache.cacheInit Cache.cacheMemory Cache.bump].
    split_and!; try reflexivity.
    destruct (Cache.cacheMemory c) as [mem |]; cbn; [| reflexivity].
    rewrite length_insert. reflexivity.
  - injection H as _ <-. auto.
Qed.

(** X8.  [put_cart_cache] never changes the capacity of the cache: when it
    returns, the value is 0 or -1, and [cacheSize], [cacheInit] and the
    number of entries of [cacheMemory] are what they were, whether a free
    slot was found, an entry was evicted or the call failed. *)
Theorem put_keeps_capacity (c c' : Cache.CacheState) (cart frm r : Z) (buf : list Z) :
  Cache.put_cart_cache CART_FRAME_SIZE c cart frm buf = Ret (r, c') ->
  (r = 0 \/ r = -1) /\
  Cache.cacheSize c' = Cache.cacheSize c /\
  Cache.cacheInit c' = Cache.cacheInit c /\
  length <$> Cache.cacheMemory c' = length <$> Cache.cacheMemory c.
Proof.
  assert (Hpass : forall c0 c1 r0 i,
    (frame ← strncpy CART_FRAME_SIZE buf;
     Ret (0, Cache.set_slot c0 i
               (Cache.mkCacheTable frame (Cache.create_cache_tag (u16 cart) (u16 frm))
                  (u16 cart) (u16 frm) YES (Cache.lruCounter c0)))) = Ret (r0, c1) ->
    r0 = 0 /\ Cache.cacheSize c1 = Cache.cacheSize c0 /\
    Cache.cacheInit c1 = Cache.cacheInit c0 /\
    length <$> Cache.cacheMemory c1 = length <$> Cache.cacheMemory c0).
  { intros c0 c1 r0 i H.
    destruct (strncpy _ _) as [frame | |]; cbn [mbind outcome_bind obind] in H;
      try discriminate H.
    injection H as <- <-. unfold Cache.set_slot, Cache.with_memory.
    cbn [Cache.cacheSize Cache.cacheInit Cache.cacheMemory].
    split_and!; try reflexivity.
    destruct (Cache.cacheMemory c0) as [mem |]; cbn; [| reflexivity].
    rewrite length_insert. reflexivity. }
  unfold Cache.put_cart_cache. cbv zeta. cbn [Cache.put_loop].
  assert (Hc0 : exists c0, c0 = Cache.bump c /\ Cache.cacheSize c0 = Cache.cacheSize c /\
            Cache.cacheInit c0 = Cache.cacheInit c /\
            Cache.cacheMemory c0 = Cache.cacheMemory c) by (eexists; split_and!; reflexivity).
  destruct Hc0 as (c0 & <- & Hs0 & Hi0 & Hm0). intros H.
  destruct (Cache.find_unused c0 _ _) as [[i |] | |] eqn:Ef;
    cbn [mbind outcome_bind obind] in H; try discriminate H.
  - destruct (Hpass c0 c' r i H) as (-> & ? & ? & ?).
    split_and!; [auto | congruence ..].
  - destruct (Cache.cacheSize c0 =? 0);
      [injection H as <- <-; split_and!; [auto | congruence ..] |].
    destruct (Cache.slot c0 0) as [e0 | |]; cbn [mbind outcome_bind obind] in H;
      try discriminate H.
    destruct (Cache.find_lru _ _ _ _) as [[[l vc] vf] | |];
      cbn [mbind outcome_bind obind] in H; try discriminate H.
    destruct (Cache.delete_cart_cache _ c0 vc vf) as [[[saved |] c1] | |] eqn:Ed;
      cbn [mbind outcome_bind obind] in H; try discriminate H.
    + apply delete_keeps_capacity in Ed as (Hs1 & Hi1 & Hm1).
      destruct (Cache.find_unused c1 _ _) as [[i |] | |] eqn:Ef1;
        cbn [mbind outcome_bind obind] in H; try discriminate H.
      * destruct (Hpass c1 c' r i H) as (-> & ? & ? & ?).
        split_and!; [auto | congruence ..].
      * destruct (Cache.cacheSize c1 =? 0);
          [injection H as <- <-; split_and!; [auto | congruence ..] |].
        destruct (Cache.slot c1 0) as [e1 | |]; cbn [mbind outcome_bind obind] in H;
          try discriminate H.
        destruct (Cache.find_lru _ _ _ _) as [[[l1 vc1] vf1] | |];
          cbn [mbind outcome_bind obind] in H; try discriminate H.
        destruct (Cache.delete_cart_cache _ c1 vc1 vf1) as [[[saved1 |] c2] | |] eqn:Ed1;
          cbn [mbind outcome_bind obind] in H; try discriminate H.
        apply delete_keeps_capacity in Ed1 as (Hs2 & Hi2 & Hm2).
        injection H as <- <-.
        split_and!; [auto | congruence ..].
    + apply delete_keeps_capacity in Ed as (Hs1 & Hi1 & Hm1).
      injection H as <- <-. split_and!; [auto | congruence ..].
Qed.

(** X9.  With the cache size 0 that the globals start with, the cache holds
    nothing: [put_cart_cache] returns 0 without storing the frame, and
    [get_cart_cache] returns NULL; each call only adds one to
    [lruCounter]. *)
Theorem cache_of_size_zero (c : Cache.CacheState) (cart frm : Z) (buf : list Z) :
  Cache.cacheSize c = 0 ->
  Cache.put_cart_cache CART_FRAME_SIZE c cart frm buf = Ret (0, Cache.bump c) /\
  Cache.get_cart_cache c cart frm = Ret (None, Cache.bump c).
Proof.
  intros Hs. unfold Cache.put_cart_cache, Cache.get_cart_cache. cbv zeta.
  cbn [Cache.put_loop Cache.bump Cache.cacheSize]. rewrite Hs.
  split; reflexivity.
Qed.

(** X10.  The retry loop of [put_cart_cache] ends: whatever the cache
    holds, the call passes the label [search] at most twice, the second time
    after a [delete_cart_cache] that has freed an entry; so the two passes
    the model gives it are never used up. *)
Theorem put_cart_cache_retry_ends (c : Cache.CacheState) (cart frm : Z) (buf : list Z) :
  Cache.put_cart_cache CART_FRAME_SIZE c cart frm buf <> Fuel.
Proof. apply put_cart_cache_no_fuel. Qed.

End CacheMore.

(** ** Power on and power off *)

(** A request the driver builds, with an operation code of one byte and an
    address within 16 bits, has its return flag clear. *)
Lemma request_flag_clear (op cart frame : Z) :
  0 <= op < 2 ^ 8 -> 0 <= cart < 2 ^ 16 -> 0 <= frame < 2 ^ 16 ->
  Codec.extract_cart_opcode (Codec.create_cart_opcode op 0 0 cart frame 0) Codec.CART_REG_RT1
  = 0.
Proof. intros H1 H2 H3. apply extract_RT1. unfold Codec.valid_fields. lia. Qed.

(** The loop of [cart_poweroff] over the file system. *)
Lemma wipe_files_blanks (k : nat) :
  forall (fs : list Driver.FileSystem) (i : nat),
  (i + k <= length fs)%nat ->
  Driver.wipe_files fs i k = Ret (take i fs ++ repeat Driver.blank k ++ drop (i + k) fs).
Proof.
  induction k as [| k IH]; intros fs i Hk.
  - cbn [Driver.wipe_files repeat app]. rewrite Nat.add_0_r, take_drop. reflexivity.
  - cbn [Driver.wipe_files].
    destruct (lookup_lt_is_Some_2 fs i ltac:(lia)) as [f Hf]. rewrite Hf.
    rewrite IH by (rewrite length_insert; lia). f_equal.
    rewrite (take_S_r _ _ Driver.blank)
      by (apply list_lookup_insert_eq; lia).
    rewrite take_insert_ge by lia.
    rewrite drop_insert_lt by lia.
    rewrite <- app_assoc. cbn [app repeat].
    replace (S i + k)%nat with (i + S k)%nat by lia. reflexivity.
Qed.

Section Power.
Context {Dev : Type}.
Variable client_cart_bus_request : Dev -> Z -> option (list Z) -> Z * option (list Z) * Dev.
Variables CART_MAX_CARTRIDGES CART_FRAME_SIZE : nat.
Variables CART_OP_INITMS CART_OP_BZERO CART_OP_LDCART CART_OP_POWOFF : Z.

Abbreviation State := (Driver.State Dev).
Abbreviation cart_poweron :=
  (Driver.cart_poweron client_cart_bus_request CART_MAX_CARTRIDGES CART_FRAME_SIZE
     CART_OP_INITMS CART_OP_BZERO CART_OP_LDCART).
Abbreviation cart_poweroff :=
  (Driver.cart_poweroff client_cart_bus_request CART_FRAME_SIZE CART_OP_POWOFF).

(** The operation codes fit the 8 bits of their field, and the cartridge
    numbers the 16 bits of theirs. *)
Hypothesis op_codes_on :
  0 <= CART_OP_INITMS < 2 ^ 8 /\ 0 <= CART_OP_BZERO < 2 ^ 8 /\ 0 <= CART_OP_LDCART < 2 ^ 8.
Hypothesis op_code_off : 0 <= CART_OP_POWOFF < 2 ^ 8.
Hypothesis cartridges_16_bits : Z.of_nat CART_MAX_CARTRIDGES <= 2 ^ 16.
(** The device answers a request whose return flag is clear with a response
    whose return flag is clear. *)
Hypothesis device_answers : forall d reg buf,
  Codec.extract_cart_opcode reg Codec.CART_REG_RT1 = 0 ->
  Driver.failed (client_cart_bus_request d reg buf).1.1 = false.

Lemma zero_cartridges_ok (k : nat) :
  forall (st : State) (i : nat),
  Z.of_nat (i + k) <= 2 ^ 16 ->
  exists d, Driver.zero_cartridges client_cart_bus_request CART_OP_BZERO CART_OP_LDCART st i k
            = (None, Driver.with_device st d).
Proof using op_codes_on device_answers.
  clear cartridges_16_bits op_code_off.
  induction k as [| k IH]; intros st i Hi.
  - exists (Driver.device st). destruct st; reflexivity.
  - cbn [Driver.zero_cartridges]. unfold Driver.bus.
    match goal with |- context [client_cart_bus_request ?d ?r ?b] =>
      pose proof (device_answers d r b) as H1;
      destruct (client_cart_bus_request d r b) as [[resp b1] d1]
    end. cbn [fst] in H1. rewrite H1 by (apply request_flag_clear; lia).
    match goal with |- context [client_cart_bus_request ?d ?r ?b] =>
      pose proof (device_answers d r b) as H2;
      destruct (client_cart_bus_request d r b) as [[resp2 b2] d2]
    end. cbn [fst] in H2. rewrite H2 by (apply request_flag_clear; lia).
    destruct (IH (Driver.with_device (Driver.with_device st d1) d2) (S i) ltac:(lia))
      as [d Hd].
    exists d. rewrite Hd. reflexivity.
Qed.

(** X11.  On the globals of a program just started (the cache never
    initialised, no file counted), with operation codes of one byte, at most
    2^16 cartridges and a device that answers, [cart_poweron] returns 0 and
    leaves: the cache initialised by [init_cart_cache], a file system of one
    closed entry, and an allocation table with every slot free. *)
Theorem cart_poweron_succeeds (st : State) :
  Cache.cacheInit (Driver.cache st) = NO ->
  Cache.cacheMemory (Driver.cache st) = None ->
  Driver.numFiles st = 0 ->
  exists d,
    cart_poweron st =
    (0, Driver.mkState [Driver.blank] 1 (fun _ _ => Driver.unused)
          (Cache.init_cart_cache CART_FRAME_SIZE (Driver.cache st)).2 d) /\
    Cache.cacheInit (Cache.init_cart_cache CART_FRAME_SIZE (Driver.cache st)).2 = YES.
Proof using op_codes_on cartridges_16_bits device_answers.
  clear op_code_off.
  intros Hi Hm Hn. unfold Driver.cart_poweron, Cache.init_cart_cache. rewrite Hi, Hm.
  cbn [Z.eqb negb snd Driver.with_cache Driver.numFiles Driver.fileSystem Driver.fileTable
       Driver.cache Driver.device Driver.with_files Driver.with_table].
  rewrite Hn. cbn [Z.add Z.eqb Pos.eqb negb Z.to_nat Pos.to_nat Pos.iter_op repeat Nat.add].
  unfold Driver.bus. cbn [Driver.device].
  match goal with |- context [client_cart_bus_request ?d ?r ?b] =>
    pose proof (device_answers d r b) as H1;
    destruct (client_cart_bus_request d r b) as [[resp b1] d1]
  end. cbn [fst] in H1. rewrite H1 by (apply request_flag_clear; lia).
  match goal with |- context [Driver.zero_cartridges _ _ _ ?s ?i ?k] =>
    destruct (zero_cartridges_ok k s i ltac:(lia)) as [d Hd]; rewrite Hd
  end.
  exists d. split; reflexivity.
Qed.

(** X12.  The driver cannot be powered on twice, not even after a power
    off.  On a state whose cache is initialised, [cart_poweroff] returns 0
    (the device answering): it closes the cache, blanks the [numFiles]
    entries of the file system and frees every slot of the allocation
    table; but it leaves [numFiles] and [cacheInit] as they are, and the
    [cart_poweron] that follows returns -1, the state staying the one
    [cart_poweroff] left. *)
Theorem cart_poweroff_then_poweron_fails (st : State) (mem : list Cache.CacheTable) :
  Cache.cacheInit (Driver.cache st) = YES ->
  Cache.cacheMemory (Driver.cache st) = Some mem ->
  0 <= Cache.cacheSize (Driver.cache st) <= Z.of_nat (length mem) ->
  0 <= Driver.numFiles st <= Z.of_nat (length (Driver.fileSystem st)) ->
  exists st',
    cart_poweroff st = Ret (0, st') /\
    Driver.fileSystem st' =
      repeat Driver.blank (Z.to_nat (Driver.numFiles st))
        ++ drop (Z.to_nat (Driver.numFiles st)) (Driver.fileSystem st) /\
    Driver.numFiles st' = Driver.numFiles st /\
    (forall i j, Driver.fileTable st' i j = Driver.unused) /\
    Cache.cacheMemory (Driver.cache st') = None /\
    cart_poweron st' = (-1, st').
Proof using op_code_off device_answers.
  clear cartridges_16_bits op_codes_on.
  intros Hi Hm Hs Hn. unfold Driver.cart_poweroff, Cache.close_cart_cache.
  destruct (wipe_from_keeps CART_FRAME_SIZE (Z.to_nat (Cache.cacheSize (Driver.cache st)))
              (Driver.cache st) mem 0 Hm ltac:(lia))
    as (c' & mem' & Hw & Hm' & Hl & Hi' & Hs' & Hc').
  rewrite Hw. cbn [mbind outcome_bind obind Z.eqb negb].
  cbn [Driver.with_cache Driver.fileSystem Driver.numFiles].
  rewrite wipe_files_blanks by lia. cbn [mbind outcome_bind obind take app Nat.add].
  unfold Driver.bus.
  cbn [Driver.with_files Driver.with_table Driver.device Driver.fileSystem Driver.numFiles
       Driver.fileTable Driver.cache].
  match goal with |- context [client_cart_bus_request ?d ?r ?b] =>
    pose proof (device_answers d r b) as H1;
    destruct (client_cart_bus_request d r b) as [[resp b1] d1]
  end. cbn [fst] in H1. rewrite H1 by (apply request_flag_clear; lia).
  eexists. split; [reflexivity |].
  cbn [Driver.with_device Driver.fileSystem Driver.numFiles Driver.fileTable Driver.cache
       Driver.device].
  split_and!; try reflexivity.
  unfold Driver.cart_poweron, Cache.init_cart_cache, Cache.with_memory.
  cbn [Driver.cache Cache.cacheInit]. rewrite Hi', Hi. reflexivity.
Qed.

End Power.

(** ** Opening and closing files *)

Lemma s16_small (x : Z) : - 2 ^ 15 <= x < 2 ^ 15 -> s16 x = x.
Proof. intros H. unfold s16. rewrite Z.mod_small by lia. lia. Qed.

Section OpenClose.
Context {Dev : Type}.
Variable CART_MAX_PATH_LENGTH : nat.

Abbreviation State := (Driver.State Dev).

Lemma file_lookup (st : State) (i : nat) (f : Driver.FileSystem) :
  Driver.fileSystem st !! i = Some f -> Driver.file st (Z.of_nat i) = Ret f.
Proof using Type.
  intros H. unfold Driver.file.
  replace (Z.of_nat i <? 0) with false by (symmetry; apply Z.ltb_ge; lia).
  rewrite Nat2Z.id, H. reflexivity.
Qed.

Lemma file_insert (st st' : State) (fd : Z) (f g : Driver.FileSystem) :
  Driver.fileSystem st' = <[Z.to_nat fd := g]> (Driver.fileSystem st) ->
  Driver.file st fd = Ret f -> Driver.file st' fd = Ret g.
Proof using Type.
  intros Hfs. unfold Driver.file. rewrite Hfs. destruct (fd <? 0); [discriminate |].
  destruct (Driver.fileSystem st !! Z.to_nat fd) eqn:E; [| discriminate]. intros _.
  rewrite list_lookup_insert_eq by (eapply lookup_lt_Some; exact E). reflexivity.
Qed.

(** The scan of [cart_open] for a path that no entry carries: it opens the
    first closed entry it visits, or ends with every entry visited open. *)
Lemma open_scan_new_path (st : State) (p : string) (k : nat) :
  (forall j f, Driver.fileSystem st !! j = Some f -> Driver.filename f <> p) ->
  (String.length p + 1 <= CART_MAX_PATH_LENGTH)%nat ->
  forall i, (i + k <= length (Driver.fileSystem st))%nat ->
  (exists h f, (i <= h < i + k)%nat /\ Driver.fileSystem st !! h = Some f /\
     Driver.openfile f = NO /\
     (forall j f', (i <= j < h)%nat -> Driver.fileSystem st !! j = Some f' ->
        Driver.openfile f' = YES) /\
     Driver.open_scan CART_MAX_PATH_LENGTH st p i k
     = Ret (Some (s16 (Z.of_nat h),
                  Driver.set_file st (Z.of_nat h)
                    (Driver.mkFileSystem p (s16 (Z.of_nat h)) 0 0 0 0 YES (Driver.incart f)))))
  \/ ((forall j f', (i <= j < i + k)%nat -> Driver.fileSystem st !! j = Some f' ->
         Driver.openfile f' = YES) /\
      Driver.open_scan CART_MAX_PATH_LENGTH st p i k = Ret None).
Proof using Type.
  intros Hname Hlen. induction k as [| k IH]; intros i Hk.
  - right. split; [intros j f' Hj; lia | reflexivity].
  - cbn [Driver.open_scan].
    destruct (lookup_lt_is_Some_2 (Driver.fileSystem st) i ltac:(lia)) as [f Hf].
    rewrite (file_lookup st i f Hf). cbn [mbind outcome_bind obind].
    replace (String.eqb p (Driver.filename f)) with false
      by (symmetry; apply String.eqb_neq; intros ->; exact (Hname i f Hf eq_refl)).
    destruct (Driver.openfile f) eqn:Eo; unfold Driver.is_NO; rewrite ?Eo; cbn [Flag_eqb].
    + destruct (IH (S i) ltac:(lia)) as [(h & g & Hh & Hg & Hc & Hbefore & Hscan) | [Hall Hscan]].
      * left. exists h, g. split; [lia |]. split; [exact Hg |]. split; [exact Hc |].
        split; [| exact Hscan].
        intros j f' Hj Hf'. destruct (Nat.eq_dec j i) as [-> | Hne].
        -- rewrite Hf in Hf'. injection Hf' as <-. exact Eo.
        -- apply (Hbefore j f'); [lia | exact Hf'].
      * right. split; [| exact Hscan].
        intros j f' Hj Hf'. destruct (Nat.eq_dec j i) as [-> | Hne].
        -- rewrite Hf in Hf'. injection Hf' as <-. exact Eo.
        -- apply (Hall j f'); [lia | exact Hf'].
    + left. exists i, f. split; [lia |]. split; [exact Hf |]. split; [exact Eo |].
      split; [intros j f' Hj; lia |].
      rewrite (proj2 (Nat.leb_le _ _) Hlen). reflexivity.
Qed.

(** X13.  [cart_open] of a path that no entry of the file system carries
    succeeds.  With the file count equal to the number of entries, below
    2^15, and a path that is not empty and fits [CART_MAX_PATH_LENGTH], the
    call returns the index [h] of the first closed entry, or the number of
    entries when all are open, in which case [allocateNewFile] has added the
    entry; the entry [h] is then open under the path with the handle [h],
    position 0 and length 0, it keeps the flag [incart] of the entry it
    reuses, and the other entries, the allocation table, the cache and the
    device are as before. *)
Theorem cart_open_new_path (st : State) (p : string) :
  Driver.numFiles st = Z.of_nat (length (Driver.fileSystem st)) ->
  Z.of_nat (length (Driver.fileSystem st)) < 2 ^ 15 ->
  (forall j f, Driver.fileSystem st !! j = Some f -> Driver.filename f <> p) ->
  p <> EmptyString ->
  (String.length p + 1 <= CART_MAX_PATH_LENGTH)%nat ->
  exists (h : nat) (st' : State) (inc : Flag),
    Driver.cart_open CART_MAX_PATH_LENGTH st (Some p) = Ret (Z.of_nat h, st') /\
    (h <= length (Driver.fileSystem st))%nat /\
    (forall j f, (j < h)%nat -> Driver.fileSystem st !! j = Some f ->
       Driver.openfile f = YES) /\
    (forall f, Driver.fileSystem st !! h = Some f ->
       Driver.openfile f = NO /\ inc = Driver.incart f) /\
    Driver.fileSystem st' !! h = Some (Driver.mkFileSystem p (Z.of_nat h) 0 0 0 0 YES inc) /\
    (forall j, j <> h -> (j < length (Driver.fileSystem st))%nat ->
       Driver.fileSystem st' !! j = Driver.fileSystem st !! j) /\
    Driver.fileTable st' = Driver.fileTable st /\
    Driver.cache st' = Driver.cache st /\
    Driver.device st' = Driver.device st.
Proof using Type.
  intros Hn Hsmall Hname Hp Hlen.
  unfold Driver.cart_open. cbn [Driver.open_loop]. rewrite Hn, Nat2Z.id.
  destruct (open_scan_new_path st p (length (Driver.fileSystem st)) Hname Hlen 0 ltac:(lia))
    as [(h & f & Hh & Hf & Hc & Hbefore & Hscan) | [Hall Hscan]]; rewrite Hscan;
    cbn [mbind outcome_bind obind].
  - rewrite s16_small by lia.
    exists h, (Driver.set_file st (Z.of_nat h)
                 (Driver.mkFileSystem p (Z.of_nat h) 0 0 0 0 YES (Driver.incart f))),
      (Driver.incart f).
    split; [reflexivity |]. split; [lia |].
    split; [intros j f' Hj; apply Hbefore; lia |].
    split; [intros f' Hf'; rewrite Hf in Hf'; injection Hf' as <-; auto |].
    cbn [Driver.set_file Driver.with_files Driver.fileSystem Driver.fileTable Driver.cache
         Driver.device]. rewrite Nat2Z.id.
    split; [apply list_lookup_insert_eq; lia |].
    split; [intros j Hj _; apply list_lookup_insert_ne; congruence |].
    split_and!; reflexivity.
  - cbn [Driver.allocateNewFile Z.eqb negb]. rewrite Hn, Nat2Z.id, firstn_all.
    set (fs := Driver.fileSystem st) in *.
    set (st1 := Driver.mkState (fs ++ [Driver.blank]) _ _ _ _).
    assert (Hname1 : forall j f, Driver.fileSystem st1 !! j = Some f -> Driver.filename f <> p).
    { intros j f Hf. cbn [st1 Driver.fileSystem] in Hf.
      apply lookup_app_Some in Hf as [Hf | [_ Hf]]; [exact (Hname j f Hf) |].
      destruct (j - length fs)%nat; [| discriminate Hf].
      injection Hf as <-. cbn. congruence. }
    assert (Hk1 : Z.to_nat (Driver.numFiles st1) = S (length fs))
      by (cbn [st1 Driver.numFiles]; lia).
    rewrite Hk1.
    destruct (open_scan_new_path st1 p (S (length fs)) Hname1 Hlen 0)
      as [(h & f & Hh & Hf & Hc & Hbefore & Hscan1) | [Hall1 Hscan1]].
    { cbn [st1 Driver.fileSystem]. rewrite length_app. cbn. lia. }
    + assert (h = length fs) as ->.
      { destruct (Nat.lt_ge_cases h (length fs)) as [Hlt | Hge]; [| lia].
        exfalso. cbn [st1 Driver.fileSystem] in Hf. rewrite lookup_app_l in Hf by exact Hlt.
        rewrite (Hall h f ltac:(lia) Hf) in Hc. discriminate Hc. }
      cbn [st1 Driver.fileSystem] in Hf. rewrite list_lookup_middle in Hf by reflexivity.
      injection Hf as <-.
      rewrite Hscan1. cbn [mbind outcome_bind obind]. rewrite s16_small by lia.
      exists (length fs),
        (Driver.set_file st1 (Z.of_nat (length fs))
           (Driver.mkFileSystem p (Z.of_nat (length fs)) 0 0 0 0 YES NO)), NO.
      split; [reflexivity |]. split; [lia |].
      split; [intros j f' Hj; apply Hall; lia |].
      split; [intros f' Hf'; apply lookup_lt_Some in Hf'; lia |].
      cbn [Driver.set_file Driver.with_files Driver.fileSystem Driver.fileTable Driver.cache
           Driver.device st1]. rewrite Nat2Z.id.
      split; [apply list_lookup_insert_eq; rewrite length_app; cbn; lia |].
      split; [| split_and!; reflexivity].
      intros j Hj Hlt. rewrite list_lookup_insert_ne by congruence.
      apply lookup_app_l. exact Hlt.
    + exfalso.
      assert (Hb : Driver.fileSystem st1 !! length fs = Some Driver.blank)
        by (cbn [st1 Driver.fileSystem]; apply list_lookup_middle; reflexivity).
      specialize (Hall1 (length fs) Driver.blank ltac:(lia) Hb). discriminate Hall1.
Qed.

(** X14.  [cart_open] refuses a path that an entry already carries when the
    scan meets that entry before any closed one: with every entry before it
    open under another name, the call returns -1 and the state is the one
    before the call. *)
Theorem cart_open_refuses_listed_path (st : State) (p : string) (i : nat)
    (f : Driver.FileSystem) :
  (i < Z.to_nat (Driver.numFiles st))%nat ->
  Driver.fileSystem st !! i = Some f ->
  Driver.filename f = p ->
  (forall j g, (j < i)%nat -> Driver.fileSystem st !! j = Some g ->
     Driver.filename g <> p /\ Driver.openfile g = YES) ->
  Driver.cart_open CART_MAX_PATH_LENGTH st (Some p) = Ret (-1, st).
Proof using Type.
  intros Hi Hf Hname Hbefore. unfold Driver.cart_open. cbn [Driver.open_loop].
  assert (Hscan : forall k i0, (i0 <= i < i0 + k)%nat ->
            Driver.open_scan CART_MAX_PATH_LENGTH st p i0 k = Ret (Some (-1, st))).
  { induction k as [| k IH]; intros i0 Hk; [lia |]. cbn [Driver.open_scan].
    destruct (Nat.eq_dec i0 i) as [-> | Hne].
    - rewrite (file_lookup st i f Hf). cbn [mbind outcome_bind obind].
      rewrite <- Hname, String.eqb_refl. reflexivity.
    - destruct (lookup_lt_is_Some_2 (Driver.fileSystem st) i0) as [g Hg];
        [apply lookup_lt_Some in Hf; lia |].
      rewrite (file_lookup st i0 g Hg). cbn [mbind outcome_bind obind].
      destruct (Hbefore i0 g ltac:(lia) Hg) as [Hn Ho].
      replace (String.eqb p (Driver.filename g)) with false
        by (symmetry; apply String.eqb_neq; congruence).
      unfold Driver.is_NO. rewrite Ho. cbn [Flag_eqb]. apply IH. lia. }
  rewrite Hscan by lia. reflexivity.
Qed.

(** X16.  A handle is closed once.  [cart_close] of an open entry returns
    0 and leaves the entry closed, with an empty name, the handle -1,
    position and length 0, and the flag [incart] it had; a second
    [cart_close] of the same handle returns -1 and changes nothing. *)
Theorem cart_close_only_once (st : State) (fd : Z) (f : Driver.FileSystem) :
  Driver.file st fd = Ret f ->
  Driver.is_open f ->
  exists st',
    Driver.cart_close st fd = Ret (0, st') /\
    Driver.file st' fd
      = Ret (Driver.mkFileSystem EmptyString (-1) 0 0 0 0 NO (Driver.incart f)) /\
    Driver.cart_close st' fd = Ret (-1, st').
Proof using Type.
  intros Hf Ho. unfold Driver.cart_close at 1. rewrite Hf. cbn [mbind outcome_bind obind].
  rewrite (proj2 (is_open_test f) Ho).
  eexists. split; [reflexivity |].
  pose proof (file_insert st
                (Driver.set_file st fd
                   (Driver.mkFileSystem EmptyString (-1) 0 0 0 0 NO (Driver.incart f)))
                fd f _ eq_refl Hf) as Hg.
  split; [exact Hg |].
  unfold Driver.cart_close. rewrite Hg. reflexivity.
Qed.

End OpenClose.

(** ** The checks of cart_read and cart_write *)

(** "Search file system to ensure we have a legal file" compares one entry
    with the handle, [numFiles] times. *)
Lemma legal_file_test (f : Driver.FileSystem) (fd : Z) (k : nat) :
  forall g, Driver.legal_file f fd k g
            = if Driver.filehandle f =? fd then match k with O => g | S _ => YES end else g.
Proof.
  induction k as [| k IH]; intros g; cbn [Driver.legal_file].
  - destruct (_ =? _); reflexivity.
  - rewrite IH. destruct (_ =? _); [destruct k |]; reflexivity.
Qed.

Section ReadWriteChecks.
Context {Dev : Type}.
Variable client_cart_bus_request : Dev -> Z -> option (list Z) -> Z * option (list Z) * Dev.
Variables CART_MAX_CARTRIDGES CART_CARTRIDGE_SIZE CART_FRAME_SIZE : nat.
Variables CART_OP_LDCART CART_OP_RDFRME CART_OP_WRFRME : Z.
Variable uninit : nat -> Z.

Abbreviation State := (Driver.State Dev).
Abbreviation cart_write :=
  (Driver.cart_write client_cart_bus_request CART_MAX_CARTRIDGES CART_CARTRIDGE_SIZE
     CART_FRAME_SIZE CART_OP_LDCART CART_OP_RDFRME CART_OP_WRFRME).
Abbreviation cart_read :=
  (Driver.cart_read client_cart_bus_request CART_MAX_CARTRIDGES CART_CARTRIDGE_SIZE
     CART_FRAME_SIZE CART_OP_LDCART CART_OP_RDFRME uninit).

(** X18.  The argument checks of [cart_read] and [cart_write]: a negative
    count, an entry with a negative handle, a closed entry, an entry whose
    handle is not [fd], or a file count that is not positive make both calls
    return -1 with nothing copied and the state unchanged; the buffer is not
    looked at. *)
Theorem cart_read_write_rejected (st : State) (fd count : Z) (buf : list Z)
    (f : Driver.FileSystem) :
  Driver.file st fd = Ret f ->
  count < 0 \/ Driver.filehandle f < 0 \/ Driver.openfile f = NO \/
    Driver.filehandle f <> fd \/ Driver.numFiles st <= 0 ->
  cart_read st fd count = Ret (-1, [], st) /\
  cart_write st fd buf count = Ret (-1, st).
Proof using Type.
  intros Hf H. unfold Driver.cart_read, Driver.cart_write. rewrite Hf.
  cbn [mbind outcome_bind obind].
  destruct (Z.ltb_spec count 0) as [Hc | Hc]; [split; reflexivity |].
  destruct (Z.ltb_spec (Driver.filehandle f) 0) as [Hh | Hh]; [split; reflexivity |].
  cbn [orb]. unfold Driver.is_NO, Driver.is_YES.
  destruct (Driver.openfile f) eqn:Eo; cbn [Flag_eqb]; [| split; reflexivity].
  rewrite legal_file_test.
  destruct (Z.eqb_spec (Driver.filehandle f) fd) as [He | He];
    [| split; reflexivity].
  destruct (Z.to_nat (Driver.numFiles st)) eqn:En; [split; reflexivity |].
  exfalso. destruct H as [H | [H | [H | [H | H]]]]; try lia; congruence.
Qed.

(** X19.  [cart_write] of 0 bytes to an open handle that has no frame yet
    returns 0 and changes nothing: no slot of the allocation table is taken,
    nothing is sent to the device or put in the cache, and the entry keeps
    [incart] at NO. *)
Theorem cart_write_nothing (st : State) (fd : Z) (buf : list Z) (f : Driver.FileSystem)
    (buf_size : nat) :
  Driver.file st fd = Ret f ->
  Driver.is_open f -> Driver.filehandle f = fd -> 0 < Driver.numFiles st ->
  Driver.incart f = NO ->
  strlen buf = Ret buf_size ->
  cart_write st fd buf 0 = Ret (0, st).
Proof using Type.
  intros Hf [Hh Ho] Hfd Hn Hin Hlen. unfold Driver.cart_write. rewrite Hf.
  cbn [mbind outcome_bind obind Z.ltb Z.compare].
  replace (Driver.filehandle f <? 0) with false by (symmetry; apply Z.ltb_ge; lia).
  unfold Driver.is_NO, Driver.is_YES. rewrite Ho. cbn [orb Flag_eqb].
  rewrite legal_file_test, (proj2 (Z.eqb_eq _ _) Hfd).
  destruct (Z.to_nat (Driver.numFiles st)) eqn:En; [lia |]. cbn [Flag_eqb negb].
  rewrite Hlen, Hin. cbn [mbind outcome_bind obind].
  change (Z.to_nat 0) with 0%nat. cbn [Driver.first_write].
  destruct (Driver.search_file_table _ _ _ _ _). reflexivity.
Qed.

(** X23.  An entry that has the flag [incart] set and no content, as an
    entry is once it was written, closed and opened again ([cart_close] and
    [cart_open] keep the flag and reset the length), cannot be written: for
    every count, [cart_write] returns -1 and leaves the state as it is,
    because [get_file_pieces] returns NULL for a length below 1. *)
Theorem cart_write_flagged_empty_entry (st : State) (fd count : Z) (buf : list Z)
    (f : Driver.FileSystem) (buf_size : nat) :
  Driver.file st fd = Ret f ->
  Driver.incart f = YES ->
  Driver.filelength f < 1 ->
  strlen buf = Ret buf_size ->
  cart_write st fd buf count = Ret (-1, st).
Proof using Type.
  intros Hf Hin Hl Hlen. unfold Driver.cart_write. rewrite Hf.
  cbn [mbind outcome_bind obind].
  destruct (count <? 0); [reflexivity |].
  destruct (_ || _); [reflexivity |].
  destruct (negb _); [reflexivity |].
  rewrite Hlen, Hin. cbn [mbind outcome_bind obind].
  unfold Driver.check_table_space, Driver.get_file_pieces. rewrite Hf.
  cbn [mbind outcome_bind obind].
  replace (Driver.filelength f <? 1) with true by (symmetry; apply Z.ltb_lt; exact Hl).
  destruct (_ >=? _); cbn [mbind outcome_bind obind Z.eqb negb]; [reflexivity |].
  destruct (Driver.more_frames_than _ _ _); reflexivity.
Qed.

(** X24.  [cart_read] on an entry without content returns -1 for every
    count, the count 0 included, copies nothing and leaves the state as it
    is: [get_file_pieces] returns NULL for a length below 1.  (The local
    array of [cart_read], of no byte here, is taken as empty.) *)
Theorem cart_read_empty_file (st : State) (fd count : Z) (f : Driver.FileSystem) :
  Driver.file st fd = Ret f ->
  Driver.filelength f < 1 ->
  cart_read st fd count = Ret (-1, [], st).
Proof using Type.
  intros Hf Hl. unfold Driver.cart_read. rewrite Hf. cbn [mbind outcome_bind obind].
  destruct (count <? 0); [reflexivity |].
  destruct (_ || _); [reflexivity |].
  destruct (negb _); [reflexivity |].
  unfold Driver.get_num_pieces, Driver.get_file_pieces. rewrite Hf.
  cbn [mbind outcome_bind obind].
  replace (Driver.filelength f <? 1) with true by (symmetry; apply Z.ltb_lt; exact Hl).
  reflexivity.
Qed.

End ReadWriteChecks.

(** ** A file of one frame: the first write, and reading it back *)

Lemma u16_small (x : Z) : 0 <= x < 2 ^ 16 -> u16 x = x.
Proof. intros H. unfold u16. apply Z.mod_small. exact H. Qed.

Lemma u32_small (x : Z) : 0 <= x < 2 ^ 32 -> u32 x = x.
Proof. intros H. unfold u32. apply Z.mod_small. exact H. Qed.

Lemma read_bytes_front (src : list Z) (n : nat) :
  (n <= length src)%nat -> read_bytes src 0 n = Ret (take n src).
Proof.
  intros H. unfold read_bytes. destruct n as [| n]; [reflexivity |].
  cbn [Nat.add drop]. rewrite (proj2 (Nat.leb_le _ _) H). reflexivity.
Qed.

Lemma write_bytes_front (dest data : list Z) :
  (length data <= length dest)%nat ->
  write_bytes dest 0 data = Ret (data ++ drop (length data) dest).
Proof.
  intros H. unfold write_bytes. destruct data as [| b data]; [reflexivity |].
  cbn [Nat.add take app]. rewrite (proj2 (Nat.leb_le _ _) H). reflexivity.
Qed.

Lemma drop_repeat (x : Z) (m : nat) : forall k, drop k (repeat x m) = repeat x (m - k).
Proof.
  induction m as [| m IH]; intros k; [destruct k; reflexivity |].
  destruct k as [| k]; [reflexivity |]. cbn [repeat drop Nat.sub]. apply IH.
Qed.



(** The slot the frame search returns is a free slot of the table. *)
Lemma free_in_row_found (t : nat -> nat -> Driver.FileTable) (i : nat) (k : nat) :
  forall j0 j, Driver.free_in_row t i j0 k = Some j ->
  (j0 <= j < j0 + k)%nat /\ Driver.isused (t i j) = NO.
Proof.
  induction k as [| k IH]; intros j0 j H; cbn [Driver.free_in_row] in H; [discriminate H |].
  unfold Driver.is_NO in H. destruct (Driver.isused (t i j0)) eqn:E; cbn [Flag_eqb] in H.
  - apply IH in H as [Hj Hu]. split; [lia | exact Hu].
  - injection H as <-. split; [lia | exact E].
Qed.

Lemma first_free_found (CART_MAX_CARTRIDGES CART_CARTRIDGE_SIZE : nat)
    (t : nat -> nat -> Driver.FileTable) (i j : nat) :
  Driver.first_free CART_MAX_CARTRIDGES CART_CARTRIDGE_SIZE t = Some (i, j) ->
  (i < CART_MAX_CARTRIDGES)%nat /\ (j < CART_CARTRIDGE_SIZE)%nat /\
  Driver.isused (t i j) = NO.
Proof.
  unfold Driver.first_free.
  assert (H : forall k i0, Driver.first_free_from CART_CARTRIDGE_SIZE t i0 k = Some (i, j) ->
            (i0 <= i < i0 + k)%nat /\ (j < CART_CARTRIDGE_SIZE)%nat /\
            Driver.isused (t i j) = NO).
  { induction k as [| k IH]; intros i0 H; cbn [Driver.first_free_from] in H;
      [discriminate H |].
    destruct (Driver.free_in_row t i0 0 CART_CARTRIDGE_SIZE) as [j' |] eqn:E.
    - injection H as <- <-. apply free_in_row_found in E as [Hj Hu].
      split; [lia |]. split; [lia | exact Hu].
    - apply IH in H as (Hi & Hj & Hu). split; [lia |]. split; assumption. }
  intros H0. apply H in H0 as (Hi & Hj & Hu). split; [lia |]. split; assumption.
Qed.



Section OneFrame.
Context {Dev : Type}.
Variable client_cart_bus_request : Dev -> Z -> option (list Z) -> Z * option (list Z) * Dev.
Variables CART_MAX_CARTRIDGES CART_CARTRIDGE_SIZE CART_FRAME_SIZE : nat.
Variables CART_OP_LDCART CART_OP_RDFRME CART_OP_WRFRME : Z.
Variable uninit : nat -> Z.

Abbreviation State := (Driver.State Dev).
Abbreviation cart_write :=
  (Driver.cart_write client_cart_bus_request CART_MAX_CARTRIDGES CART_CARTRIDGE_SIZE
     CART_FRAME_SIZE CART_OP_LDCART CART_OP_RDFRME CART_OP_WRFRME).
Abbreviation cart_read :=
  (Driver.cart_read client_cart_bus_request CART_MAX_CARTRIDGES CART_CARTRIDGE_SIZE
     CART_FRAME_SIZE CART_OP_LDCART CART_OP_RDFRME uninit).
Abbreviation frame_of := (Driver.frame_of CART_FRAME_SIZE).

(** The indices of the allocation table fit the 16 bits of their types. *)
Hypothesis table_16_bits :
  Z.of_nat CART_MAX_CARTRIDGES <= 2 ^ 16 /\ Z.of_nat CART_CARTRIDGE_SIZE <= 2 ^ 16.
(** The device takes every frame written and leaves the buffer as it is. *)
Hypothesis frame_taken : forall d frm b, 0 <= frm < 2 ^ 16 ->
  let r := client_cart_bus_request d (Codec.create_cart_opcode CART_OP_WRFRME 0 0 0 frm 0)
             (Some b) in
  Driver.failed r.1.1 = false /\ r.1.2 = Some b.

Variables (st : State) (fd count : Z) (buf : list Z) (f : Driver.FileSystem)
          (buf_size i j : nat).
(** The handle [fd] is open and has no frame yet. *)
Hypothesis Hfile : Driver.file st fd = Ret f.
Hypothesis Hopen : Driver.is_open f.
Hypothesis Hhandle : Driver.filehandle f = fd.
Hypothesis Hfiles : 0 < Driver.numFiles st.
Hypothesis Hfresh : Driver.incart f = NO.
(** The bytes written fit one frame, and [buf] holds them. *)
Hypothesis Hcount : 0 < count <= Z.of_nat CART_FRAME_SIZE /\ count < 2 ^ 31.
Hypothesis Hbuf : (Z.to_nat count <= length buf)%nat.
Hypothesis Hstr : strlen buf = Ret buf_size.
(** The first free slot of the allocation table is (i, j). *)
Hypothesis Hfree :
  Driver.first_free CART_MAX_CARTRIDGES CART_CARTRIDGE_SIZE (Driver.fileTable st) = Some (i, j).

Lemma write_through_one (c' : Cache.CacheState) :
  Cache.put_cart_cache CART_FRAME_SIZE (Driver.cache st) (Z.of_nat i) (Z.of_nat j)
    (frame_of buf count) = Ret (0, c') ->
  exists d',
    Driver.write_through client_cart_bus_request CART_FRAME_SIZE CART_OP_LDCART CART_OP_WRFRME
      st buf count 0 (Z.of_nat i) (Z.of_nat j) (repeat 0 CART_FRAME_SIZE)
    = Ret (inr (Driver.mkState (Driver.fileSystem st) (Driver.numFiles st)
                  (Driver.fileTable st) c' d', 0, frame_of buf count)).
Proof using table_16_bits frame_taken Hcount Hbuf Hfree.
  intros Hput. pose proof table_16_bits as [Hmax Hsize].
  destruct (first_free_found _ _ _ _ _ Hfree) as (Hi & Hj & _).
  unfold Driver.write_through.
  replace (count <=? Z.of_nat CART_FRAME_SIZE) with true by (symmetry; apply Z.leb_le; lia).
  cbn [Nat.mul]. rewrite read_bytes_front by exact Hbuf. cbn [mbind outcome_bind obind].
  rewrite write_bytes_front by (rewrite length_take, repeat_length; lia).
  cbn [mbind outcome_bind obind].
  rewrite length_take, Nat.min_l by exact Hbuf. rewrite drop_repeat.
  change (take (Z.to_nat count) buf ++ repeat 0 (CART_FRAME_SIZE - Z.to_nat count))
    with (frame_of buf count).
  unfold Driver.load_this_cart, Driver.bus at 2.
  destruct (client_cart_bus_request (Driver.device st) _ None) as [[resp0 b0] d0].
  assert (Hst : forall r, (if Driver.failed resp0 then (r, Driver.with_device st d0)
                           else (0, Driver.with_device st d0)).2 = Driver.with_device st d0)
    by (intros r; destruct (Driver.failed resp0); reflexivity).
  rewrite Hst. unfold Driver.bus. cbn [Driver.with_device Driver.device].
  destruct (frame_taken d0 (Z.of_nat j) (frame_of buf count) ltac:(lia)) as [Hok Hsame].
  destruct (client_cart_bus_request d0 _ (Some (frame_of buf count))) as [[resp1 b1] d1].
  cbn [fst snd] in Hok, Hsame. rewrite Hok, Hsame.
  cbn [default from_option id Driver.cache Driver.with_device].
  rewrite Hput. cbn [mbind outcome_bind obind Z.eqb negb Driver.with_cache].
  exists d1. rewrite Z2Nat.id by lia. rewrite Z.sub_diag. reflexivity.
Qed.

(** The state a first write of at most one frame leaves. *)
Lemma first_write_one_frame (c' : Cache.CacheState) :
  Cache.put_cart_cache CART_FRAME_SIZE (Driver.cache st) (Z.of_nat i) (Z.of_nat j)
    (frame_of buf count) = Ret (0, c') ->
  exists d',
    cart_write st fd buf count
    = Ret (count,
           Driver.mkState
             (<[Z.to_nat fd := Driver.mkFileSystem (Driver.filename f) fd count count
                                 (Z.of_nat i) (Z.of_nat j) YES YES]> (Driver.fileSystem st))
             (Driver.numFiles st)
             (Driver.set_entry (Driver.fileTable st) i j (Driver.mkFileTable fd YES))
             c' d').
Proof using table_16_bits frame_taken Hfile Hopen Hhandle Hfiles Hfresh Hcount Hbuf Hstr Hfree.
  intros Hput. pose proof Hopen as [Hh Ho]. pose proof table_16_bits as [Hmax Hsize].
  destruct (first_free_found _ _ _ _ _ Hfree) as (Hi & Hj & _).
  unfold Driver.cart_write. rewrite Hfile. cbn [mbind outcome_bind obind].
  replace (count <? 0) with false by (symmetry; apply Z.ltb_ge; lia).
  replace (Driver.filehandle f <? 0) with false by (symmetry; apply Z.ltb_ge; lia).
  unfold Driver.is_NO, Driver.is_YES. rewrite Ho. cbn [orb Flag_eqb].
  rewrite legal_file_test, (proj2 (Z.eqb_eq _ _) Hhandle).
  assert (Hn : exists n, Z.to_nat (Driver.numFiles st) = S n)
    by (exists (Z.to_nat (Driver.numFiles st) - 1)%nat; lia).
  destruct Hn as [n En]. rewrite En. cbn [Flag_eqb negb].
  rewrite Hstr, Hfresh. cbn [mbind outcome_bind obind].
  assert (Hfuel : exists fuel, Z.to_nat count = S fuel)
    by (exists (Z.to_nat count - 1)%nat; lia).
  destruct Hfuel as [fuel Efuel]. rewrite Efuel.
  cbn [Driver.first_write]. unfold Driver.search_file_table at 1. rewrite Hfree.
  rewrite !u16_small by lia.
  replace (count <=? 0) with false by (symmetry; apply Z.leb_gt; lia).
  destruct (write_through_one c' Hput) as [d' Hw]. rewrite Hw.
  cbn [mbind outcome_bind obind Nat.eqb].
  set (st1 := Driver.mkState _ _ _ c' d').
  assert (Hf1 : Driver.file st1 fd = Ret f) by exact Hfile.
  rewrite Hf1. cbn [mbind outcome_bind obind].
  unfold Driver.set_slot.
  replace (0 <=? Z.of_nat i) with true by (symmetry; apply Z.leb_le; lia).
  replace (Z.of_nat i <? Z.of_nat CART_MAX_CARTRIDGES) with true
    by (symmetry; apply Z.ltb_lt; lia).
  replace (0 <=? Z.of_nat j) with true by (symmetry; apply Z.leb_le; lia).
  replace (Z.of_nat j <? Z.of_nat CART_CARTRIDGE_SIZE) with true
    by (symmetry; apply Z.ltb_lt; lia).
  cbn [andb mbind outcome_bind obind]. rewrite !Nat2Z.id.
  match goal with |- context [Driver.file ?s fd] =>
    assert (Hf2 : Driver.file s fd
                  = Ret (Driver.mkFileSystem (Driver.filename f) (Driver.filehandle f)
                           (Driver.fileposition f) (Driver.filelength f) (Z.of_nat i)
                           (Z.of_nat j) (Driver.openfile f) YES))
      by (apply (file_insert st1 s fd f _ eq_refl Hf1))
  end.
  rewrite Hf2. cbn [mbind outcome_bind obind].
  cbn [Driver.filename Driver.filehandle Driver.cartIndex Driver.frameIndex Driver.openfile
       Driver.incart].
  rewrite u32_small
    by (change (2 ^ 32) with 4294967296; change (2 ^ 31) with 2147483648 in *; lia).
  destruct fuel as [| fuel]; cbn [Driver.first_write];
    destruct (Driver.search_file_table _ _ _ _ _); cbn [Z.leb Z.compare];
    exists d'; unfold Driver.set_file, Driver.with_files, Driver.with_table, st1;
    cbn [Driver.fileSystem Driver.numFiles Driver.fileTable Driver.cache Driver.device];
    rewrite list_insert_insert_eq, Hhandle, Ho; reflexivity.
Qed.

(** X20.  A first write of at most one frame succeeds.  For an open handle
    without frames, a count between 1 and the frame size, a free slot
    (i, j) found by the search of the allocation table, a device that takes
    the frame and a cache that accepts it, [cart_write] returns the count.
    It leaves the entry with position and length equal to the count, the
    frame address (i, j) and [incart] set; the slot (i, j) held by the
    handle; the cache as [put_cart_cache] left it; the other entries, the
    other slots and the file count as before.  The answer of the device to
    the LOAD-CARTRIDGE request plays no part. *)
Theorem first_write_of_one_frame (c' : Cache.CacheState) :
  Cache.put_cart_cache CART_FRAME_SIZE (Driver.cache st) (Z.of_nat i) (Z.of_nat j)
    (frame_of buf count) = Ret (0, c') ->
  exists d',
    cart_write st fd buf count
    = Ret (count,
           Driver.mkState
             (<[Z.to_nat fd := Driver.mkFileSystem (Driver.filename f) fd count count
                                 (Z.of_nat i) (Z.of_nat j) YES YES]> (Driver.fileSystem st))
             (Driver.numFiles st)
             (Driver.set_entry (Driver.fileTable st) i j (Driver.mkFileTable fd YES))
             c' d').
Proof using table_16_bits frame_taken Hfile Hopen Hhandle Hfiles Hfresh Hcount Hbuf Hstr Hfree.
  exact (first_write_one_frame c').
Qed.

(** *** Reading the frame back *)

Variables (mem : list Cache.CacheTable) (v : nat) (e : Cache.CacheTable).
(** The cache has a free slot, at [v], and no entry before it carries the tag
    of (i, j). *)
Hypothesis Hmem : Cache.cacheMemory (Driver.cache st) = Some mem.
Hypothesis Hsize : Cache.cacheSize (Driver.cache st) = Z.of_nat (length mem).
Hypothesis Hslot : mem !! v = Some e /\ Cache.isUsed e = NO.
Hypothesis Hbefore : forall k e', (k < v)%nat -> mem !! k = Some e' ->
  Cache.isUsed e' = YES /\
  Cache.cacheHandle e' <> Cache.create_cache_tag (Z.of_nat i) (Z.of_nat j).
(** The bytes written hold no zero byte and leave room for a terminator. *)
Hypothesis Htext : Forall (fun b => b <> 0) (take (Z.to_nat count) buf).
Hypothesis Hshort : count < Z.of_nat CART_FRAME_SIZE.
(** No slot of the allocation table is held by the handle. *)
Hypothesis Hnone : forall p, Driver.owned (Driver.fileTable st) fd p = false.


End OneFrame.

(** ** Reading at the end of a file *)



Section ReadAtEnd.
Context {Dev : Type}.
Variable client_cart_bus_request : Dev -> Z -> option (list Z) -> Z * option (list Z) * Dev.
Variables CART_MAX_CARTRIDGES CART_CARTRIDGE_SIZE CART_FRAME_SIZE : nat.
Variables CART_OP_LDCART CART_OP_RDFRME : Z.
Variable uninit : nat -> Z.

Abbreviation State := (Driver.State Dev).
Abbreviation cart_read :=
  (Driver.cart_read client_cart_bus_request CART_MAX_CARTRIDGES CART_CARTRIDGE_SIZE
     CART_FRAME_SIZE CART_OP_LDCART CART_OP_RDFRME uninit).





End ReadAtEnd.


(** ** The transport client: connection and calls *)

Section ClientCalls.
Variables CART_OP_INITMS CART_OP_BZERO CART_OP_LDCART
          CART_OP_RDFRME CART_OP_WRFRME CART_OP_POWOFF : Z.
Variable CART_FRAME_SIZE : nat.
Variable CART_DEFAULT_IP : string.
Variable CART_DEFAULT_PORT : Z.

Abbreviation request :=
  (Client.client_cart_bus_request CART_OP_INITMS CART_OP_BZERO CART_OP_LDCART
     CART_OP_RDFRME CART_OP_WRFRME CART_OP_POWOFF CART_FRAME_SIZE CART_DEFAULT_IP
     CART_DEFAULT_PORT).

(** Follow the call along every answer of the operating system. *)
Ltac walk :=
  repeat first
    [ progress unfold Client.send_value, Client.recv_frame, Client.read_payload,
        Client.read_no_payload, Client.recv_value
    | progress cbn [Client.run app fst snd negb]
    | match goal with
      | |- context [if ?b then _ else _] => destruct b
      | |- context [match ?x with YES => _ | NO => _ end] => destruct x
      end ].

(** X26.  No request stores the descriptor of the socket: whatever the
    register, the buffer and the answers of the operating system,
    [client_socket] after [client_cart_bus_request] is what it was before,
    so it stays at the -1 it starts with, the call that connects
    included. *)
Theorem client_socket_never_assigned (os : list Client.syscall -> Client.sysret)
    (st : Client.ClientState) (reg : Z) (buf : option (list Z)) :
  Client.client_socket (Client.run os [] (request st reg buf)).2.2 = Client.client_socket st.
Proof using Type.
  unfold Client.client_cart_bus_request. cbv zeta. walk; reflexivity.
Qed.

(** X27.  A request that does not open the connection uses the descriptor
    [client_socket], which is -1: for every command but an INIT of a client
    not yet initialised, on an operating system that refuses to write to the
    descriptor -1, the call makes one system call, the write of the register
    to -1, and returns the failure value, whose return flag the driver reads
    as a failure; the buffer is untouched, [client_socket] and [initialized]
    keep their values, and [cart_network_port] holds the default port, which
    the call assigns before anything else. *)
Theorem client_request_without_connection (os : list Client.syscall -> Client.sysret)
    (st : Client.ClientState) (reg : Z) (buf : option (list Z)) :
  Client.client_socket st = -1 ->
  Client.initialized st = YES \/
    Codec.extract_cart_opcode reg Codec.CART_REG_KY1 mod 2 ^ 8 <> CART_OP_INITMS ->
  (forall hist data, Client.rv (os (hist ++ [Client.sys_write (-1) data])) <> 8) ->
  Client.run os [] (request st reg buf)
    = ([Client.sys_write (-1) (Client.htonll64 reg)],
       (Client.FAILED, buf,
        Client.mkClientState (Client.client_socket st) (u16 CART_DEFAULT_PORT)
          (Client.initialized st))) /\
  Driver.failed Client.FAILED = true.
Proof using Type.
  intros Hs H Hos. split; [| reflexivity].
  unfold Client.client_cart_bus_request. cbv zeta.
  cbn [Client.client_socket Client.initialized Client.cart_network_port].
  rewrite Hs.
  change (negb (-1 =? -1)) with false. cbv iota.
  assert (Hsend : forall k s,
            Client.run os [] (Client.send_value (-1) reg (Client.FAILED, buf, s) k)
            = ([Client.sys_write (-1) (Client.htonll64 reg)], (Client.FAILED, buf, s))).
  { intros k s. unfold Client.send_value. cbn [Client.run].
    rewrite (proj2 (Z.eqb_neq _ _) (Hos [] (Client.htonll64 reg))). reflexivity. }
  destruct (Z.eqb_spec (Codec.extract_cart_opcode reg Codec.CART_REG_KY1 mod 2 ^ 8)
              CART_OP_INITMS) as [He | He].
  - destruct H as [H | H]; [| contradiction]. rewrite H. apply Hsend.
  - repeat match goal with |- context [if ?b then _ else _] => destruct b end; apply Hsend.
Qed.

(** X28.  The client never sends a frame: whatever the command and the
    answers of the operating system, every [write] that
    [client_cart_bus_request] makes carries eight bytes, a register or a
    length. *)
Theorem client_writes_registers_only (os : list Client.syscall -> Client.sysret)
    (st : Client.ClientState) (reg : Z) (buf : option (list Z)) :
  Forall Client.carries_value (Client.run os [] (request st reg buf)).1.
Proof using Type.
  unfold Client.client_cart_bus_request. cbv zeta.
  walk; repeat constructor.
Qed.

(** X29.  The connection is set up by the first INIT only: a request that is
    not an INIT, or that finds the client initialised, makes no
    [inet_aton], [socket] or [connect] call. *)
Theorem client_connects_on_first_init_only (os : list Client.syscall -> Client.sysret)
    (st : Client.ClientState) (reg : Z) (buf : option (list Z)) :
  Client.initialized st = YES \/
    Codec.extract_cart_opcode reg Codec.CART_REG_KY1 mod 2 ^ 8 <> CART_OP_INITMS ->
  Forall (fun c => Client.connects c = false) (Client.run os [] (request st reg buf)).1.
Proof using Type.
  intros H. unfold Client.client_cart_bus_request. cbv zeta.
  cbn [Client.client_socket Client.initialized Client.cart_network_port].
  destruct (negb _); [constructor |].
  destruct (Z.eqb_spec (Codec.extract_cart_opcode reg Codec.CART_REG_KY1 mod 2 ^ 8)
              CART_OP_INITMS) as [He | He].
  - destruct H as [H | H]; [| contradiction]. rewrite H. walk; repeat constructor.
  - walk; repeat constructor.
Qed.

End ClientCalls.

(** ** Instances on the device of [Run] *)

(** The device of [Run] answers with the request register. *)
Lemma run_bus_answers (d : Device.Cart) (reg : Z) (buf : option (list Z)) :
  Codec.extract_cart_opcode reg Codec.CART_REG_RT1 = 0 ->
  Driver.failed (Run.bus d reg buf).1.1 = false.
Proof.
  intros H. unfold Run.bus, Device.request. cbv zeta.
  repeat match goal with |- context [if ?b then _ else _] => destruct b end;
    cbn [fst]; unfold Driver.failed; rewrite H; reflexivity.
Qed.

(** It takes a frame written and leaves the buffer as it is. *)
Lemma run_bus_takes_frames (d : Device.Cart) (frm : Z) (b : list Z) :
  0 <= frm < 2 ^ 16 ->
  let r := Run.bus d (Codec.create_cart_opcode 4 0 0 0 frm 0) (Some b) in
  Driver.failed r.1.1 = false /\ r.1.2 = Some b.
Proof.
  intros H.
  assert (Hv : Codec.valid_fields 4 0 0 0 frm 0) by (unfold Codec.valid_fields; lia).
  cbv zeta. unfold Run.bus, Device.request. cbv zeta.
  rewrite (extract_KY1 4 0 0 0 frm 0 Hv). cbn [Z.eqb Pos.eqb fst snd].
  split; [| reflexivity].
  unfold Driver.failed. rewrite (extract_RT1 4 0 0 0 frm 0 Hv). reflexivity.
Qed.

Lemma create_cache_tag_injective_witness :
  Cache.create_cache_tag 0 1 = Cache.create_cache_tag 1 0 <-> 0 = 1 /\ 1 = 0.
Proof. apply (create_cache_tag_injective 0 1 1 0); lia. Defined.

Lemma init_close_init_fails_witness :
  exists c1 c2,
    Cache.init_cart_cache 1024 (Cache.set_cart_cache_size (Cache.startup 1024) 2).2 = (0, c1) /\
    Cache.close_cart_cache 1024 c1 = Ret (0, c2) /\
    Cache.cacheMemory c2 = None /\
    Cache.init_cart_cache 1024 c2 = (-1, c2).
Proof.
  apply (init_close_init_fails 1024 (Cache.set_cart_cache_size (Cache.startup 1024) 2).2);
    [reflexivity | reflexivity | vm_compute; discriminate].
Defined.

Lemma put_then_get_witness :
  exists c1 c2,
    Run.put_cart_cache Run.cache_A 0 1 Run.B = Ret (0, c1) /\
    Cache.get_cart_cache c1 0 1 = Ret (Some (66 :: repeat 0 1023%nat), c2).
Proof.
  destruct (put_then_get 1024 Run.cache_A (Run.memory Run.cache_A) 1 (Cache.wiped 1024) 0 1
              Run.B (66 :: repeat 0 1023%nat))
    as (c1 & c2 & H1 & H2 & _);
    [ vm_compute; reflexivity | vm_compute; reflexivity | vm_compute; reflexivity
    | reflexivity | | vm_compute; reflexivity | exists c1, c2; split; assumption ].
  intros k e' Hk He'. destruct k as [| k]; [| lia].
  vm_compute in He'. injection He' as <-. split; [reflexivity | vm_compute; discriminate].
Defined.


Lemma put_evicts_least_recent_witness :
  exists v ev c',
    Cache.lru_among (Run.memory Run.cache_AB_got) 2 v ev /\
    Run.put_cart_cache Run.cache_AB_got 0 2 Run.C = Ret (0, c').
Proof.
  destruct (put_evicts_least_recent 1024 Run.cache_AB_got (Run.memory Run.cache_AB_got) 0 2
              Run.C (67 :: repeat 0 1023%nat))
    as (v & ev & c' & H1 & H2 & _).
  - vm_compute. reflexivity.
  - vm_compute. reflexivity.
  - vm_compute. discriminate.
  - intros k e H. destruct k as [| [| k]]; vm_compute in H; try discriminate H;
      injection H as <-; split_and!; vm_compute; reflexivity.
  - intros a b e e' Ha Hb Heq.
    destruct a as [| [| a]], b as [| [| b]]; vm_compute in Ha, Hb;
      try discriminate Ha; try discriminate Hb; try reflexivity;
      injection Ha as <-; injection Hb as <-; vm_compute in Heq; discriminate Heq.
  - vm_compute. reflexivity.
  - exists v, ev, c'. split; assumption.
Defined.

Lemma delete_then_get_witness :
  exists c1 c2,
    Cache.delete_cart_cache 1024 Run.cache_AB 0 1 = Ret (Some (66 :: repeat 0 1023%nat), c1) /\
    Cache.get_cart_cache c1 0 1 = Ret (None, c2).
Proof.
  destruct (delete_then_get 1024 Run.cache_AB (Run.memory Run.cache_AB) 1
              (Cache.mkCacheTable (66 :: repeat 0 1023%nat) 1 0 1 YES 2) 0 1)
    as (c1 & c2 & H1 & _ & H2).
  - vm_compute. reflexivity.
  - vm_compute. reflexivity.
  - vm_compute. reflexivity.
  - vm_compute. reflexivity.
  - vm_compute. reflexivity.
  - intros k e' H Heq. destruct k as [| [| k]]; vm_compute in H; try discriminate H;
      [injection H as <-; vm_compute in Heq; discriminate Heq | reflexivity].
  - exists c1, c2. split; [exact H1 | exact H2].
Defined.

Lemma cache_miss_changes_only_counter_witness :
  Cache.get_cart_cache Run.cache_A 0 7 = Ret (None, Cache.bump Run.cache_A) /\
  Cache.delete_cart_cache 1024 Run.cache_A 0 7 = Ret (None, Cache.bump Run.cache_A).
Proof.
  apply (cache_miss_changes_only_counter 1024 Run.cache_A (Run.memory Run.cache_A) 0 7).
  - vm_compute. reflexivity.
  - vm_compute. split; discriminate.
  - intros k e _ H. destruct k as [| [| k]]; vm_compute in H; try discriminate H;
      injection H as <-; vm_compute; discriminate.
Defined.

Lemma put_keeps_capacity_witness :
  (0 = 0 \/ 0 = -1) /\
  Cache.cacheSize Run.cache_AC = Cache.cacheSize Run.cache_AB_got /\
  Cache.cacheInit Run.cache_AC = Cache.cacheInit Run.cache_AB_got /\
  length <$> Cache.cacheMemory Run.cache_AC = length <$> Cache.cacheMemory Run.cache_AB_got.
Proof.
  apply (put_keeps_capacity 1024 Run.cache_AB_got Run.cache_AC 0 2 0 Run.C).
  vm_compute. reflexivity.
Defined.

Lemma cache_of_size_zero_witness :
  Cache.put_cart_cache 1024 (Cache.startup 1024) 0 0 Run.A
    = Ret (0, Cache.bump (Cache.startup 1024)) /\
  Cache.get_cart_cache (Cache.startup 1024) 0 0 = Ret (None, Cache.bump (Cache.startup 1024)).
Proof. apply (cache_of_size_zero 1024 (Cache.startup 1024) 0 0 Run.A). reflexivity. Defined.

Lemma cart_poweron_succeeds_witness :
  exists d,
    Run.cart_poweron (Run.boot 4)
    = (0, Driver.mkState [Driver.blank] 1 (fun _ _ => Driver.unused) (Run.fresh_cache 4) d).
Proof.
  destruct (cart_poweron_succeeds Run.bus 64 1024 0 1 2 ltac:(lia) ltac:(vm_compute; discriminate)
              run_bus_answers (Run.boot 4) eq_refl eq_refl eq_refl) as [d [H _]].
  exists d. exact H.
Defined.

Lemma cart_poweroff_then_poweron_fails_witness :
  exists st',
    Run.cart_poweroff (Run.powered 4) = Ret (0, st') /\
    Run.cart_poweron st' = (-1, st').
Proof.
  destruct (cart_poweroff_then_poweron_fails Run.bus 64 1024 0 1 2 5 ltac:(lia)
              run_bus_answers (Run.powered 4) (Run.memory (Driver.cache (Run.powered 4))))
    as (st' & H1 & _ & _ & _ & _ & H2).
  - vm_compute. reflexivity.
  - vm_compute. reflexivity.
  - vm_compute. split; discriminate.
  - vm_compute. split; discriminate.
  - exists st'. split; [exact H1 | exact H2].
Defined.

Lemma cart_open_new_path_witness :
  exists (h : nat) (st' : Run.State) (inc : Flag),
    Run.cart_open Run.opened_a (Some "b"%string) = Ret (Z.of_nat h, st') /\
    Driver.fileSystem st' !! h
    = Some (Driver.mkFileSystem "b" (Z.of_nat h) 0 0 0 0 YES inc).
Proof.
  destruct (cart_open_new_path 128 Run.opened_a "b"%string)
    as (h & st' & inc & H1 & _ & _ & _ & H2 & _).
  - vm_compute. reflexivity.
  - vm_compute. reflexivity.
  - intros k g H. destruct k as [| k]; vm_compute in H; try discriminate H.
    injection H as <-. discriminate.
  - discriminate.
  - cbn. lia.
  - exists h, st', inc. split; [exact H1 | exact H2].
Defined.

Lemma cart_open_refuses_listed_path_witness :
  Run.cart_open Run.opened_a (Some "a"%string) = Ret (-1, Run.opened_a).
Proof.
  apply (cart_open_refuses_listed_path 128 Run.opened_a "a"%string 0
           (Driver.mkFileSystem "a" 0 0 0 0 0 YES NO)).
  - vm_compute. lia.
  - vm_compute. reflexivity.
  - reflexivity.
  - intros k g Hk. lia.
Defined.

Lemma cart_open_no_fuel_witness :
  Run.cart_open (Run.powered 4) (Some "f"%string) <> Fuel.
Proof.
  apply (cart_open_no_fuel 128 (Run.powered 4) (Some "f"%string)).
  vm_compute. discriminate.
Defined.

Lemma cart_close_only_once_witness :
  exists st',
    Run.cart_close Run.opened 0 = Ret (0, st') /\
    Driver.file st' 0 = Ret (Driver.mkFileSystem "" (-1) 0 0 0 0 NO NO) /\
    Run.cart_close st' 0 = Ret (-1, st').
Proof.
  apply (cart_close_only_once Run.opened 0 (Driver.mkFileSystem "f" 0 0 0 0 0 YES NO)).
  - vm_compute. reflexivity.
  - unfold Driver.is_open. cbn. split; [lia | reflexivity].
Defined.

Lemma cart_seek_in_range_witness :
  Run.cart_seek Run.written 0 6 = Ret (-1, Run.written) /\
  exists st' f',
    Run.cart_seek Run.written 0 3 = Ret (0, st') /\
    Driver.file st' 0 = Ret f' /\ Driver.fileposition f' = 3.
Proof.
  split.
  - apply (proj1 (cart_seek_in_range Run.written 0 6
                    (Driver.mkFileSystem "f" 0 5 5 0 0 YES YES)
                    ltac:(vm_compute; reflexivity) ltac:(lia))).
    cbn. lia.
  - destruct (proj2 (cart_seek_in_range Run.written 0 3
                       (Driver.mkFileSystem "f" 0 5 5 0 0 YES YES)
                       ltac:(vm_compute; reflexivity) ltac:(lia)) ltac:(cbn; lia))
      as (st' & f' & H1 & H2 & H3 & _).
    exists st', f'. split_and!; assumption.
Defined.

Lemma cart_read_write_rejected_witness :
  Run.cart_read (Run.powered 4) 0 1 = Ret (-1, [], Run.powered 4) /\
  Run.cart_write (Run.powered 4) 0 Run.hello 1 = Ret (-1, Run.powered 4).
Proof.
  apply (cart_read_write_rejected Run.bus 64 1024 1024 2 3 4 Run.uninit (Run.powered 4) 0 1
           Run.hello Driver.blank).
  - vm_compute. reflexivity.
  - right. left. cbn. lia.
Defined.

Lemma cart_write_nothing_witness :
  Run.cart_write Run.opened 0 Run.hello 0 = Ret (0, Run.opened).
Proof.
  apply (cart_write_nothing Run.bus 64 1024 1024 2 3 4 Run.opened 0 Run.hello
           (Driver.mkFileSystem "f" 0 0 0 0 0 YES NO) 5).
  - vm_compute. reflexivity.
  - unfold Driver.is_open. cbn. split; [lia | reflexivity].
  - reflexivity.
  - vm_compute. reflexivity.
  - reflexivity.
  - reflexivity.
Defined.

Lemma first_write_of_one_frame_witness :
  exists d',
    Run.cart_write Run.opened 0 Run.hello 5
    = Ret (5, Driver.mkState
                (<[0%nat := Driver.mkFileSystem "f" 0 5 5 0 0 YES YES]>
                   (Driver.fileSystem Run.opened))
                1 (Driver.set_entry (Driver.fileTable Run.opened) 0 0 (Driver.mkFileTable 0 YES))
                (Driver.cache Run.written) d').
Proof.
  apply (first_write_of_one_frame Run.bus 64 1024 1024 2 3 4 ltac:(vm_compute; split; discriminate)
           run_bus_takes_frames Run.opened 0 5 Run.hello
           (Driver.mkFileSystem "f" 0 0 0 0 0 YES NO) 5 0 0).
  - vm_compute. reflexivity.
  - unfold Driver.is_open. cbn. split; [lia | reflexivity].
  - reflexivity.
  - vm_compute. reflexivity.
  - reflexivity.
  - vm_compute. split_and!; (reflexivity || discriminate).
  - vm_compute. lia.
  - reflexivity.
  - vm_compute. reflexivity.
  - vm_compute. reflexivity.
Defined.


Lemma first_write_beyond_one_frame_witness :
  match Run.cart_write Run.opened 0 Run.long_text 1025 with
  | Ret (r, _) => r = -1
  | _ => False
  end.
Proof.
  unfold Run.cart_write.
  destruct (Driver.cart_write _ _ _ _ _ _ _ _ _ _ _) as [[r st'] | |] eqn:E;
    [| vm_compute in E; discriminate E | vm_compute in E; discriminate E].
  apply (first_write_beyond_one_frame Run.bus 64 1024 1024 2 3 4 Run.opened st' 0 1025 r
           Run.long_text (Driver.mkFileSystem "f" 0 0 0 0 0 YES NO)).
  - lia.
  - lia.
  - vm_compute. reflexivity.
  - vm_compute. reflexivity.
  - vm_compute. reflexivity.
  - reflexivity.
  - vm_compute. reflexivity.
  - exact E.
Defined.

Lemma cart_write_flagged_empty_entry_witness :
  Driver.file Run.written_reopened 0 = Ret (Driver.mkFileSystem "g" 0 0 0 0 0 YES YES) /\
  Run.cart_write Run.written_reopened 0 Run.hello 5 = Ret (-1, Run.written_reopened).
Proof.
  split; [vm_compute; reflexivity |].
  apply (cart_write_flagged_empty_entry Run.bus 64 1024 1024 2 3 4 Run.written_reopened 0 5
           Run.hello (Driver.mkFileSystem "g" 0 0 0 0 0 YES YES) 5).
  - vm_compute. reflexivity.
  - reflexivity.
  - cbn. lia.
  - reflexivity.
Defined.

Lemma cart_read_empty_file_witness :
  Run.cart_read Run.opened 0 0 = Ret (-1, [], Run.opened).
Proof.
  apply (cart_read_empty_file Run.bus 64 1024 1024 2 3 Run.uninit Run.opened 0 0
           (Driver.mkFileSystem "f" 0 0 0 0 0 YES NO)).
  - vm_compute. reflexivity.
  - cbn. lia.
Defined.

Lemma cart_write_no_fuel_witness :
  Run.cart_write Run.opened 0 Run.hello 5 <> Fuel.
Proof.
  apply (cart_write_no_fuel Run.bus 64 1024 1024 2 3 4 Run.opened 0 Run.hello 5). lia.
Defined.

Lemma client_request_without_connection_witness :
  Client.run Client.strict_os []
    (Client.client_cart_bus_request 0 1 2 3 4 5 1024 "127.0.0.1" 16384 Client.startup
       (Codec.create_cart_opcode 3 0 0 0 7 0) (Some (repeat 120 1024%nat)))
  = ([Client.sys_write (-1) (Client.htonll64 (Codec.create_cart_opcode 3 0 0 0 7 0))],
     (Client.FAILED, Some (repeat 120 1024%nat), Client.mkClientState (-1) 16384 NO)) /\
  Driver.failed Client.FAILED = true.
Proof.
  apply (client_request_without_connection 0 1 2 3 4 5 1024 "127.0.0.1" 16384 Client.strict_os
           Client.startup (Codec.create_cart_opcode 3 0 0 0 7 0) (Some (repeat 120 1024%nat))).
  - reflexivity.
  - right. vm_compute. discriminate.
  - intros hist data. unfold Client.strict_os. rewrite last_snoc. cbn. discriminate.
Defined.

Lemma client_connects_on_first_init_only_witness :
  Forall (fun c => Client.connects c = false)
    (Client.run Client.obliging_os []
       (Client.client_cart_bus_request 0 1 2 3 4 5 1024 "127.0.0.1" 16384
          (Client.mkClientState (-1) 0 YES) (Codec.create_cart_opcode 0 0 0 0 0 0) None)).1.
Proof.
  apply (client_connects_on_first_init_only 0 1 2 3 4 5 1024 "127.0.0.1" 16384
           Client.obliging_os (Client.mkClientState (-1) 0 YES)
           (Codec.create_cart_opcode 0 0 0 0 0 0) None).
  left. reflexivity.
Defined.
